(** * ChatLab parser V2: format sniffing and the parse entry points

    A shallow embedding of the sniffing layer ([parser/sniffer.ts]) and of
    the module entry ([electron/main/parser/index.ts]), followed by the
    properties of detection, diagnosis and event collection.

    Conventions.
    - A JavaScript string is represented by its UTF-8 byte sequence, so the
      literals of the source (Chinese text included) are written as they are.
    - Exceptions are values: a computation that may throw returns an
      [Outcome].
    - Methods of [FormatSniffer] pass the object state explicitly.
    - The built-ins of the runtime that the code calls (regular expressions,
      [path.extname], [toLowerCase], [trim], UTF-8 decoding) are the fields
      of the class [JsHost]; every general statement holds for any host.
    - [JsHost] has patterns that are built without failure and tested
      without state.  The module [Runtime] embeds the sniffing layer once
      more over the regular expressions as the runtime has them: a
      pattern source may be refused, a [RegExp] object with the [g] or [y]
      flag keeps its [lastIndex], and a read may fail.  What [sniff],
      [getParser], [diagnose] and [parseFile] return, raise and leave
      behind is stated on that layer. *)

From Stdlib Require Import String Ascii List ZArith Lia Bool Strings.Byte.
From Stdlib Require Import Sorted Permutation.
Import ListNotations.
Local Open Scope string_scope.
Local Open Scope list_scope.

Set Implicit Arguments.
Set Warnings "-abstract-large-number".

(* ================================================================= *)
(** ** Runtime built-ins *)

(** What the code takes from the JavaScript runtime.  [RegExp_new] is
    [new RegExp(source)] without flags on a source that is a pattern, and
    [RegExp_test] is the verdict of [pattern.test(s)] on a pattern as it
    is at the call.  The [SyntaxError] of a source that is not a pattern
    and the [lastIndex] of a pattern with the [g] or [y] flag are in the
    module [Runtime], which instantiates this class. *)
Class JsHost : Type := {
  RegExp : Type;
  RegExp_new : string -> RegExp;
  RegExp_test : RegExp -> string -> bool;
  path_extname : string -> string;
  String_toLowerCase : string -> string;
  String_trim : string -> string;
  Buffer_toString : list byte -> string
}.

(** ** Strings *)

(** String concatenation, as [+] and template literals do it. *)
Infix "+++" := String.append (at level 60, right associativity).

(** The double quote character, as a one-character string. *)
Definition dquote : string := String (ascii_of_nat 34) EmptyString.

Fixpoint String_drop (n : nat) (s : string) : string :=
  match n, s with
  | O, _ => s
  | S n', String _ s' => String_drop n' s'
  | S _, EmptyString => EmptyString
  end.

(** [s.startsWith(p)] *)
Definition String_startsWith (s p : string) : bool := String.prefix p s.

(** [s.includes(needle)] *)
Fixpoint String_includes (s needle : string) : bool :=
  String.prefix needle s ||
  match s with
  | EmptyString => false
  | String _ s' => String_includes s' needle
  end.

(** [s.replace(pat, rep)] with a string pattern: the first occurrence only.
    The replacement used by the code holds no [$], so it is inserted as is. *)
Fixpoint String_replace (s pat rep : string) : string :=
  if String.prefix pat s then rep +++ String_drop (String.length pat) s
  else match s with
       | EmptyString => EmptyString
       | String c s' => String c (String_replace s' pat rep)
       end.

(** [parts.join(sep)] *)
Definition Array_join (parts : list string) (sep : string) : string :=
  String.concat sep parts.

(** [arr.includes(x)] on an array of strings. *)
Definition Array_includes (arr : list string) (x : string) : bool :=
  existsb (String.eqb x) arr.

(* ================================================================= *)
(** ** Exceptions and outcomes *)

(** Thrown values: [new Error(message)], the failures of [fs] calls, and
    the [SyntaxError] of [new RegExp(source)] on a source that is not a
    pattern. *)
Inductive Exn : Type :=
| Error (message : string)
| SystemError (syscall : string) (path : string)
| SyntaxError (source : string).

Inductive Outcome (A : Type) : Type :=
| Ret (a : A)
| Throw (e : Exn).
Arguments Ret {A} a.
Arguments Throw {A} e.

Definition Outcome_bind {A B : Type} (c : Outcome A) (k : A -> Outcome B)
  : Outcome B :=
  match c with
  | Ret a => k a
  | Throw e => Throw e
  end.

Declare Scope outcome_scope.
Delimit Scope outcome_scope with outcome.
Notation "x <- c ;; k" := (Outcome_bind c (fun x => k))
  (at level 61, c at next level, right associativity) : outcome_scope.
Local Open Scope outcome_scope.

(* ================================================================= *)
(** ** The file system *)

(** A path that can be opened and read maps to the bytes of its file. *)
Definition FileSystem : Type := string -> option (list byte).

(** [Buffer.alloc(size)]: [size] zero bytes. *)
Definition Buffer_alloc (size : nat) : list byte := repeat x00 size.

(** [fs.readSync(fd, buffer, 0, length, position)] on an open regular file:
    the bytes read overwrite the start of the buffer; returns their number
    and the buffer. *)
Definition fs_readSync (file buffer : list byte) (length position : nat)
  : nat * list byte :=
  let chunk := firstn length (skipn position file) in
  (List.length chunk, chunk ++ skipn (List.length chunk) buffer).

(** [buffer.slice(0, end)] *)
Definition Buffer_slice (buffer : list byte) (stop : nat) : list byte :=
  firstn stop buffer.

(* ================================================================= *)
(** ** Parsed data and parse events *)

(** Modelled from the spec: [types.ts] is not among the sources.  The
    conversation metadata, with the two fields the entry points read. *)
Record ParsedMeta : Type := {
  meta_name : string;
  meta_platform : string
}.

(** Modelled from the spec: [types.ts] is not among the sources.  A
    participant: stable platform id and display name. *)
Record ParsedMember : Type := {
  platformId : string;
  accountName : string
}.

(** Modelled from the spec: [types.ts] is not among the sources.  One
    normalized chat event. *)
Record ParsedMessage : Type := {
  senderPlatformId : string;
  timestamp : Z;
  messageType : Z;
  content : string
}.

(** Modelled from the spec: [types.ts] is not among the sources. *)
Record ParseProgress : Type := {
  stage : string;
  percentage : Z;
  bytesRead : Z;
  totalBytes : Z;
  messagesProcessed : Z;
  message : string
}.

(** The tagged union [ParseEvent], one constructor per [type]. *)
Inductive ParseEvent : Type :=
| EvMeta (data : ParsedMeta)
| EvMembers (data : list ParsedMember)
| EvMessages (data : list ParsedMessage)
| EvProgress (data : ParseProgress)
| EvError (data : Exn).

(** What an [AsyncGenerator<ParseEvent, void>] produces when it is driven
    to its end: events, then a normal return or a raised exception.  The
    sequences are finite, as the parser contract has them. *)
Inductive Stream : Type :=
| Done
| Raise (e : Exn)
| Yield (ev : ParseEvent) (rest : Stream).

(** [ParseOptions]; of a callback only its presence is kept, the calls
    the consumers make are recorded in their result. *)
Record ParseOptions : Type := {
  filePath : string;
  batchSize : option Z;
  onProgress : bool;
  onLog : bool
}.

(* ================================================================= *)
(** ** The sniffing layer ([sniffer.ts]) *)

Module Sniffer.
Section WithHost.
Context {host : JsHost}.

(** The types of this layer are declared in [types.ts], which is not among
    the sources; each record below has the fields that [sniffer.ts] and
    [index.ts] read or write.

    [FormatFeature.signatures]: each part is optional. [fieldPatterns] is
    an object used as a map; it is read through [Object.entries] only, so
    it is kept as its list of entries in that order. *)
Record Signatures : Type := {
  head : option (list RegExp);
  requiredFields : option (list string);
  fieldPatterns : option (list (string * RegExp))
}.

Record FormatFeature : Type := {
  id : string;
  name : string;
  platform : string;
  priority : Z;
  extensions : list string;
  signatures : Signatures
}.

(** A parser turns the options and the file system into its event
    sequence; its [feature] field is named [parser_feature] here. *)
Record Parser : Type := {
  parser_feature : FormatFeature;
  parse : ParseOptions -> FileSystem -> Stream
}.

(** [FormatModule], without the optional preprocessor, which sniffing
    does not read. *)
Record FormatModule : Type := {
  feature : FormatFeature;
  parser : Parser
}.

Record FormatMatchCheck : Type := {
  formatId : string;
  formatName : string;
  extensionMatch : bool;
  headSignatureMatch : option bool;
  requiredFieldsMatch : option bool;
  missingFields : list string;
  fullMatch : bool
}.

Record FormatDiagnosis : Type := {
  recognized : bool;
  matchedFormat : option FormatFeature;
  checks : list FormatMatchCheck;
  partialMatches : list FormatMatchCheck;
  suggestion : string
}.

(** 文件头检测大小 (8KB) *)
Definition HEAD_SIZE : nat := 8 * 1024.

(** [readFileHead]: [openSync] throws when the file cannot be opened;
    otherwise up to [size] bytes from position 0 are read into a fresh
    buffer and the part read is decoded. *)
Definition readFileHead (fs : FileSystem) (filePath : string) (size : nat)
  : Outcome string :=
  match fs filePath with
  | None => Throw (SystemError "open" filePath)
  | Some file =>
      let buffer := Buffer_alloc size in
      let '(bytesRead, buffer) := fs_readSync file buffer size 0 in
      Ret (Buffer_toString (Buffer_slice buffer bytesRead))
  end.

Definition getExtension (filePath : string) : string :=
  String_toLowerCase (path_extname filePath).

(** [patterns.some(p => p.test(headContent))] *)
Definition matchHeadSignatures (headContent : string) (patterns : list RegExp)
  : bool :=
  existsb (fun pattern => RegExp_test pattern headContent) patterns.

(** The source of the pattern built for a field name: the template
    ["${field.replace('.', '"\\s*:\\s*.*"')}"\\s*:] *)
Definition fieldPatternSource (field : string) : string :=
  dquote +++ String_replace field "." (dquote +++ "\s*:\s*.*" +++ dquote)
         +++ dquote +++ "\s*:".

(** The test both field checks apply to one field name. *)
Definition fieldFound (headContent field : string) : bool :=
  let pattern := RegExp_new (fieldPatternSource field) in
  RegExp_test pattern headContent
  || String_includes headContent (dquote +++ field +++ dquote).

(** [fields.every(...)] *)
Definition matchRequiredFields (headContent : string) (fields : list string)
  : bool :=
  forallb (fun field => fieldFound headContent field) fields.

Record RequiredFieldsDetail : Type := {
  allMatch : bool;
  missing : list string
}.

(** The loop of [checkRequiredFieldsDetail], pushing onto [missing]. *)
Fixpoint checkRequiredFieldsDetail_loop (headContent : string)
    (fields : list string) (missing : list string) : list string :=
  match fields with
  | [] => missing
  | field :: rest =>
      let found := fieldFound headContent field in
      if negb found
      then checkRequiredFieldsDetail_loop headContent rest (missing ++ [field])
      else checkRequiredFieldsDetail_loop headContent rest missing
  end.

Definition checkRequiredFieldsDetail (headContent : string)
    (fields : list string) : RequiredFieldsDetail :=
  let missing := checkRequiredFieldsDetail_loop headContent fields [] in
  {| allMatch := Nat.eqb (List.length missing) 0; missing := missing |}.

(** The loop over [Object.entries(signatures.fieldPatterns)], leaving at
    the first pattern that does not match. *)
Fixpoint fieldPatterns_loop (entries : list (string * RegExp))
    (headContent : string) : bool :=
  match entries with
  | [] => true
  | (_, pattern) :: rest =>
      if negb (RegExp_test pattern headContent) then false
      else fieldPatterns_loop rest headContent
  end.

(** [arr && arr.length > 0] *)
Definition nonEmpty {A : Type} (arr : option (list A)) : bool :=
  match arr with
  | Some (_ :: _) => true
  | _ => false
  end.

(** [arr] where the code has tested [nonEmpty arr]. *)
Definition elements {A : Type} (arr : option (list A)) : list A :=
  match arr with
  | Some l => l
  | None => []
  end.

(** [matchFeature], with its early returns. *)
Definition matchFeature (feature : FormatFeature) (ext headContent : string)
  : bool :=
  if negb (Array_includes (extensions feature) ext) then false
  else
    let signatures := signatures feature in
    if nonEmpty (head signatures)
       && negb (matchHeadSignatures headContent (elements (head signatures)))
    then false
    else if nonEmpty (requiredFields signatures)
            && negb (matchRequiredFields headContent
                       (elements (requiredFields signatures)))
    then false
    else match fieldPatterns signatures with
         | Some entries => fieldPatterns_loop entries headContent
         | None => true
         end.

(** [x === null || x] on a [boolean | null]. *)
Definition nullOrTrue (x : option bool) : bool :=
  match x with
  | None => true
  | Some b => b
  end.

Definition set_headSignatureMatch (v : option bool) (r : FormatMatchCheck)
  : FormatMatchCheck :=
  {| formatId := formatId r; formatName := formatName r;
     extensionMatch := extensionMatch r; headSignatureMatch := v;
     requiredFieldsMatch := requiredFieldsMatch r;
     missingFields := missingFields r; fullMatch := fullMatch r |}.

Definition set_requiredFields (v : option bool) (m : list string)
    (r : FormatMatchCheck) : FormatMatchCheck :=
  {| formatId := formatId r; formatName := formatName r;
     extensionMatch := extensionMatch r;
     headSignatureMatch := headSignatureMatch r;
     requiredFieldsMatch := v; missingFields := m;
     fullMatch := fullMatch r |}.

Definition set_fullMatch (v : bool) (r : FormatMatchCheck)
  : FormatMatchCheck :=
  {| formatId := formatId r; formatName := formatName r;
     extensionMatch := extensionMatch r;
     headSignatureMatch := headSignatureMatch r;
     requiredFieldsMatch := requiredFieldsMatch r;
     missingFields := missingFields r; fullMatch := v |}.

(** [checkFeatureDetail]: the record [result] is built, then updated in
    place by each check. *)
Definition checkFeatureDetail (feature : FormatFeature)
    (ext headContent : string) : FormatMatchCheck :=
  let result :=
    {| formatId := id feature;
       formatName := name feature;
       extensionMatch := Array_includes (extensions feature) ext;
       headSignatureMatch := None;
       requiredFieldsMatch := None;
       missingFields := [];
       fullMatch := false |} in
  if negb (extensionMatch result) then result
  else
    let signatures := signatures feature in
    let result :=
      if nonEmpty (head signatures)
      then set_headSignatureMatch
             (Some (matchHeadSignatures headContent
                      (elements (head signatures)))) result
      else result in
    let result :=
      if nonEmpty (requiredFields signatures)
      then
        let detail := checkRequiredFieldsDetail headContent
                        (elements (requiredFields signatures)) in
        set_requiredFields (Some (allMatch detail)) (missing detail) result
      else result in
    let fieldPatternsMatch :=
      match fieldPatterns signatures with
      | Some entries => fieldPatterns_loop entries headContent
      | None => true
      end in
    set_fullMatch
      (extensionMatch result
       && nullOrTrue (headSignatureMatch result)
       && nullOrTrue (requiredFieldsMatch result)
       && fieldPatternsMatch) result.

(** [x === false] on a [boolean | null]. *)
Definition isFalse (x : option bool) : bool :=
  match x with
  | Some false => true
  | _ => false
  end.

Definition generateSuggestion (ext : string)
    (partialMatches : list FormatMatchCheck) (headContent : string) : string :=
  match partialMatches with
  | [] => "没有找到匹配扩展名 " +++ dquote +++ ext +++ dquote
          +++ " 的格式，请检查文件类型是否正确"
  | mostLikely :: _ =>
      let issues : list string := [] in
      let issues :=
        if isFalse (headSignatureMatch mostLikely)
        then issues ++ ["文件头签名不匹配"] else issues in
      let issues :=
        if Nat.ltb 0 (List.length (missingFields mostLikely))
        then issues ++ ["缺少必需字段: "
                        +++ Array_join (missingFields mostLikely) ", "]
        else issues in
      if Nat.ltb 0 (List.length issues)
      then "文件疑似 " +++ formatName mostLikely +++ " 格式，但存在以下问题："
           +++ Array_join issues "；"
      else
        let trimmed := String_trim headContent in
        if String.eqb ext ".json"
           && (negb (String_startsWith trimmed "{")
               && negb (String_startsWith trimmed "["))
        then "文件内容不是有效的 JSON 格式"
        else "扩展名匹配 " +++ formatName mostLikely
             +++ " 格式，但内容结构不符合预期"
  end.

(** [arr.sort(compare)]: the sort is stable, and [compare a b <= 0] keeps
    [a] before [b]. *)
Fixpoint Array_sort_insert {A : Type} (compare : A -> A -> Z) (x : A)
    (sorted : list A) : list A :=
  match sorted with
  | [] => [x]
  | y :: rest =>
      if (compare x y <=? 0)%Z then x :: y :: rest
      else y :: Array_sort_insert compare x rest
  end.

Fixpoint Array_sort {A : Type} (compare : A -> A -> Z) (arr : list A)
  : list A :=
  match arr with
  | [] => []
  | x :: rest => Array_sort_insert compare x (Array_sort compare rest)
  end.

(** *** The class [FormatSniffer] *)

(** The object state: the private field [formats]. *)
Record FormatSniffer : Type := {
  formats : list FormatModule
}.

(** A method takes the object and returns its outcome with the object
    as the call leaves it. *)
Definition Method (A : Type) : Type :=
  FormatSniffer -> Outcome A * FormatSniffer.

Definition createSniffer : FormatSniffer := {| formats := [] |}.

Definition byPriority (a b : FormatModule) : Z :=
  (priority (feature a) - priority (feature b))%Z.

Definition register (module : FormatModule) : Method unit :=
  fun this =>
    let pushed := formats this ++ [module] in
    (Ret tt, {| formats := Array_sort byPriority pushed |}).

Fixpoint registerAll (modules : list FormatModule) : Method unit :=
  fun this =>
    match modules with
    | [] => (Ret tt, this)
    | module :: rest =>
        let '(_, this) := register module this in
        registerAll rest this
    end.

(** The loop of [sniff], returning at the first module that matches. *)
Fixpoint sniff_loop (modules : list FormatModule) (ext headContent : string)
  : option FormatFeature :=
  match modules with
  | [] => None
  | m :: rest =>
      if matchFeature (feature m) ext headContent then Some (feature m)
      else sniff_loop rest ext headContent
  end.

Definition sniff (fs : FileSystem) (filePath : string)
  : Method (option FormatFeature) :=
  fun this =>
    (let ext := getExtension filePath in
     headContent <- readFileHead fs filePath HEAD_SIZE ;;
     Ret (sniff_loop (formats this) ext headContent),
     this).

(** The loop of [getParser]. *)
Fixpoint getParser_loop (modules : list FormatModule)
    (ext headContent : string) : option Parser :=
  match modules with
  | [] => None
  | m :: rest =>
      if matchFeature (feature m) ext headContent then Some (parser m)
      else getParser_loop rest ext headContent
  end.

Definition getParser (fs : FileSystem) (filePath : string)
  : Method (option Parser) :=
  fun this =>
    (let ext := getExtension filePath in
     headContent <- readFileHead fs filePath HEAD_SIZE ;;
     Ret (getParser_loop (formats this) ext headContent),
     this).

Definition getParserById (formatId : string) : Method (option Parser) :=
  fun this =>
    (Ret (option_map parser
            (find (fun m => String.eqb (id (feature m)) formatId)
                  (formats this))),
     this).

Definition getSupportedFormats : Method (list FormatFeature) :=
  fun this => (Ret (map feature (formats this)), this).

(** [x !== null] and [!x] on an object reference or null. *)
Definition isNull {A : Type} (x : option A) : bool :=
  match x with
  | None => true
  | Some _ => false
  end.

(** The loop of [diagnose] over its three accumulators. *)
Fixpoint diagnose_loop (modules : list FormatModule)
    (ext headContent : string)
    (checks partialMatches : list FormatMatchCheck)
    (matchedFormat : option FormatFeature)
  : list FormatMatchCheck * list FormatMatchCheck * option FormatFeature :=
  match modules with
  | [] => (checks, partialMatches, matchedFormat)
  | m :: rest =>
      let check := checkFeatureDetail (feature m) ext headContent in
      let checks := checks ++ [check] in
      if fullMatch check && isNull matchedFormat
      then diagnose_loop rest ext headContent checks partialMatches
             (Some (feature m))
      else if extensionMatch check && negb (fullMatch check)
      then diagnose_loop rest ext headContent checks
             (partialMatches ++ [check]) matchedFormat
      else diagnose_loop rest ext headContent checks partialMatches
             matchedFormat
  end.

Definition diagnose (fs : FileSystem) (filePath : string)
  : Method FormatDiagnosis :=
  fun this =>
    (let ext := getExtension filePath in
     headContent <- readFileHead fs filePath HEAD_SIZE ;;
     let '(checks, partialMatches, matchedFormat) :=
       diagnose_loop (formats this) ext headContent [] [] None in
     let suggestion := generateSuggestion ext partialMatches headContent in
     Ret {| recognized := negb (isNull matchedFormat);
            matchedFormat := matchedFormat;
            checks := checks;
            partialMatches := partialMatches;
            suggestion := suggestion |},
     this).

End WithHost.
End Sniffer.

(* ================================================================= *)
(** ** The module entry ([index.ts]) *)

Module Index.
Import Sniffer.
Section WithFormats.
Context {host : JsHost}.

(** The table imported from [./formats], which is not among the sources. *)
Variable formats : list FormatModule.

(** The global instance: [createSniffer()] followed by
    [sniffer.registerAll(formats)]. *)
Definition sniffer : FormatSniffer :=
  snd (registerAll formats createSniffer).

Definition detectFormat (fs : FileSystem) (filePath : string)
  : Outcome (option FormatFeature) :=
  fst (sniff fs filePath sniffer).

Definition diagnoseFormat (fs : FileSystem) (filePath : string)
  : Outcome FormatDiagnosis :=
  fst (diagnose fs filePath sniffer).

Definition getParser (fs : FileSystem) (filePath : string)
  : Outcome (option Parser) :=
  fst (Sniffer.getParser fs filePath sniffer).

(** [parseFile]: an exception of [sniffer.getParser] leaves the generator
    at its first step; without a parser one error event is yielded and the
    generator returns; otherwise the events are those of the parser
    ([yield*]).  The console line is not part of the model. *)
Definition parseFile (options : ParseOptions) (fs : FileSystem) : Stream :=
  match fst (Sniffer.getParser fs (filePath options) sniffer) with
  | Throw e => Raise e
  | Ret None =>
      Yield (EvError (Error ("无法识别文件格式: " +++ filePath options))) Done
  | Ret (Some parser) => parse parser options fs
  end.

Record ParseResult : Type := {
  meta : ParsedMeta;
  members : list ParsedMember;
  messages : list ParsedMessage
}.

(** The [for await] loop of [parseFileSync] over its three variables;
    [reported] lists the arguments of the calls to [onProgress]. *)
Fixpoint parseFileSync_loop (events : Stream) (onProgress : bool)
    (meta : option ParsedMeta) (members : list ParsedMember)
    (messages : list ParsedMessage) (reported : list ParseProgress)
  : Outcome ParseResult * list ParseProgress :=
  match events with
  | Done =>
      (match meta with
       | None => Throw (Error "解析失败：未获取到元信息")
       | Some meta =>
           Ret {| meta := meta; members := members; messages := messages |}
       end, reported)
  | Raise e => (Throw e, reported)
  | Yield event rest =>
      match event with
      | EvMeta data =>
          parseFileSync_loop rest onProgress (Some data) members messages
            reported
      | EvMembers data =>
          parseFileSync_loop rest onProgress meta (members ++ data) messages
            reported
      | EvMessages data =>
          parseFileSync_loop rest onProgress meta members (messages ++ data)
            reported
      | EvProgress data =>
          parseFileSync_loop rest onProgress meta members messages
            (if onProgress then reported ++ [data] else reported)
      | EvError data => (Throw data, reported)
      end
  end.

Definition parseFileSync (fs : FileSystem) (filePath : string)
    (onProgress : bool) : Outcome ParseResult * list ParseProgress :=
  let options := {| filePath := filePath; batchSize := None;
                    onProgress := onProgress; onLog := false |} in
  parseFileSync_loop (parseFile options fs) onProgress None [] [] [].

Record FileInfo : Type := {
  info_name : string;
  info_format : string;
  info_platform : string;
  info_messageCount : Z;
  info_memberCount : Z;
  info_fileSize : Z
}.

(** [fs.statSync(filePath).size] *)
Definition fs_statSync_size (fs : FileSystem) (filePath : string)
  : Outcome Z :=
  match fs filePath with
  | None => Throw (SystemError "stat" filePath)
  | Some file => Ret (Z.of_nat (List.length file))
  end.

(** The tallies of [parseFileInfo] at the end of its loop. *)
Record InfoTally : Type := {
  tally_name : string;
  tally_platform : string;
  tally_messageCount : Z;
  tally_memberCount : Z
}.

(** The [for await] loop of [parseFileInfo]. *)
Fixpoint parseFileInfo_loop (events : Stream) (onProgress : bool)
    (name platform : string) (messageCount memberCount : Z)
    (reported : list ParseProgress)
  : Outcome InfoTally * list ParseProgress :=
  match events with
  | Done =>
      (Ret {| tally_name := name; tally_platform := platform;
              tally_messageCount := messageCount;
              tally_memberCount := memberCount |}, reported)
  | Raise e => (Throw e, reported)
  | Yield event rest =>
      match event with
      | EvMeta data =>
          parseFileInfo_loop rest onProgress (meta_name data)
            (meta_platform data) messageCount memberCount reported
      | EvMembers data =>
          parseFileInfo_loop rest onProgress name platform messageCount
            (memberCount + Z.of_nat (List.length data)) reported
      | EvMessages data =>
          parseFileInfo_loop rest onProgress name platform
            (messageCount + Z.of_nat (List.length data)) memberCount reported
      | EvProgress data =>
          parseFileInfo_loop rest onProgress name platform messageCount
            memberCount (if onProgress then reported ++ [data] else reported)
      | EvError data => (Throw data, reported)
      end
  end.

Definition parseFileInfo (fs : FileSystem) (filePath : string)
    (onProgress : bool) : Outcome FileInfo * list ParseProgress :=
  match fst (sniff fs filePath sniffer) with
  | Throw e => (Throw e, [])
  | Ret None => (Throw (Error ("无法识别文件格式: " +++ filePath)), [])
  | Ret (Some feature) =>
      let options := {| filePath := filePath; batchSize := None;
                        onProgress := onProgress; onLog := false |} in
      let '(tally, reported) :=
        parseFileInfo_loop (parseFile options fs) onProgress
          "未知群聊" (platform feature) 0%Z 0%Z [] in
      (t <- tally ;;
       fileSize <- fs_statSync_size fs filePath ;;
       Ret {| info_name := tally_name t;
              info_format := name feature;
              info_platform := tally_platform t;
              info_messageCount := tally_messageCount t;
              info_memberCount := tally_memberCount t;
              info_fileSize := fileSize |},
       reported)
  end.

(** [getSupportedFormats] of the module entry. *)
Definition getSupportedFormats : Outcome (list FormatFeature) :=
  fst (Sniffer.getSupportedFormats sniffer).

(** Modelled from the spec: [types.ts] is not among the sources.  A
    preprocessor, with the one method the entry points call. *)
Record Preprocessor : Type := {
  pre_needsPreprocess : string -> Z -> bool
}.

(** The optional field [preprocessor] of a module, kept beside the record
    [FormatModule]. *)
Variable preprocessor : FormatModule -> option Preprocessor.

(** [getFileSize] of [./utils], which is not among the sources. *)
Variable getFileSize : FileSystem -> string -> Outcome Z.

(** [getPreprocessor]: the module is looked up by id in the imported
    table, not in the registry. *)
Definition getPreprocessor (fs : FileSystem) (filePath : string)
  : Outcome (option Preprocessor) :=
  feature <- fst (sniff fs filePath sniffer) ;;
  match feature with
  | None => Ret None
  | Some feature =>
      let module :=
        find (fun m => String.eqb (id (Sniffer.feature m)) (id feature))
             formats in
      Ret (match module with
           | Some m => preprocessor m
           | None => None
           end)
  end.

Definition needsPreprocess (fs : FileSystem) (filePath : string)
  : Outcome bool :=
  preprocessor <- getPreprocessor fs filePath ;;
  match preprocessor with
  | None => Ret false
  | Some preprocessor =>
      fileSize <- getFileSize fs filePath ;;
      Ret (pre_needsPreprocess preprocessor filePath fileSize)
  end.

(** A call of one of the callbacks of [streamParseFile]. *)
Inductive CallbackCall : Type :=
| OnMeta (data : ParsedMeta)
| OnMembers (data : list ParsedMember)
| OnMessageBatch (data : list ParsedMessage)
| OnProgress (data : ParseProgress).

(** The [for await] loop of [streamParseFile]; [calls] lists the calls
    made so far. *)
Fixpoint streamParseFile_loop (events : Stream) (calls : list CallbackCall)
  : Outcome unit * list CallbackCall :=
  match events with
  | Done => (Ret tt, calls)
  | Raise e => (Throw e, calls)
  | Yield event rest =>
      match event with
      | EvMeta data => streamParseFile_loop rest (calls ++ [OnMeta data])
      | EvMembers data =>
          streamParseFile_loop rest (calls ++ [OnMembers data])
      | EvMessages data =>
          streamParseFile_loop rest (calls ++ [OnMessageBatch data])
      | EvProgress data =>
          streamParseFile_loop rest (calls ++ [OnProgress data])
      | EvError data => (Throw data, calls)
      end
  end.

(** [streamParseFile]: the four callbacks are always supplied, [onLog]
    may be; [batchSize] defaults to 5000. *)
Definition streamParseFile (fs : FileSystem) (filePath : string)
    (batchSize : option Z) (onLog : bool)
  : Outcome unit * list CallbackCall :=
  let batchSize := match batchSize with
                   | Some n => n
                   | None => 5000%Z
                   end in
  let options := {| filePath := filePath; batchSize := Some batchSize;
                    onProgress := true; onLog := onLog |} in
  streamParseFile_loop (parseFile options fs) [].

End WithFormats.
End Index.

(* ================================================================= *)
(** ** The statements of the specification *)

Module Spec.
Import Sniffer.
Section WithHost.
Context {host : JsHost}.

(** A required field name is textually discoverable in the head window:
    the pattern built from it matches, or the quoted name occurs. *)
Definition discoverable (headWindow field : string) : Prop :=
  RegExp_test (RegExp_new (fieldPatternSource field)) headWindow = true
  \/ String_includes headWindow (dquote +++ field +++ dquote) = true.

(** The four checks of the matching contract, in the words of the
    specification.  Patterns are declared when the list is present and
    holds a pattern. *)
Definition passesAllChecks (f : FormatFeature) (ext headWindow : string)
  : Prop :=
  In ext (extensions f)
  /\ (forall patterns, head (signatures f) = Some patterns ->
        patterns <> [] ->
        exists p, In p patterns /\ RegExp_test p headWindow = true)
  /\ (forall fields, requiredFields (signatures f) = Some fields ->
        forall field, In field fields -> discoverable headWindow field)
  /\ (forall entries, fieldPatterns (signatures f) = Some entries ->
        forall key p, In (key, p) entries ->
        RegExp_test p headWindow = true).

(** [r] is the first element of [l] that satisfies [P], or nothing when
    no element does. *)
Definition firstSuchThat {A : Type} (P : A -> Prop) (l : list A)
    (r : option A) : Prop :=
  match r with
  | Some x => exists before after,
                l = before ++ x :: after /\ P x
                /\ Forall (fun y => ~ P y) before
  | None => Forall (fun y => ~ P y) l
  end.

(** The registry is in ascending order of priority. *)
Definition ascendingPriority (l : list FormatModule) : Prop :=
  StronglySorted
    (fun a b => (priority (feature a) <= priority (feature b))%Z) l.

(** The states of a sniffer: a fresh one, and one after a registration. *)
Inductive reachable : FormatSniffer -> Prop :=
| reachable_create : reachable createSniffer
| reachable_register : forall this module,
    reachable this -> reachable (snd (register module this)).

(** A check is a partial match when the extension matched and the whole
    did not. *)
Definition isPartial (c : FormatMatchCheck) : bool :=
  extensionMatch c && negb (fullMatch c).

(** [m] is not to come after [module]: its priority number is lower or
    equal. *)
Definition notAfter (module m : FormatModule) : bool :=
  (priority (feature m) <=? priority (feature module))%Z.

(** The head window of a file: its first 8192 bytes, decoded. *)
Definition headWindow (file : list byte) : string :=
  Buffer_toString (firstn 8192 file).

End WithHost.

(** The events a consumer sees, and how the sequence ends. *)
Fixpoint events (s : Stream) : list ParseEvent :=
  match s with
  | Done => []
  | Raise _ => []
  | Yield ev rest => ev :: events rest
  end.

Fixpoint raised (s : Stream) : option Exn :=
  match s with
  | Done => None
  | Raise e => Some e
  | Yield _ rest => raised rest
  end.

Definition isMeta (ev : ParseEvent) : bool :=
  match ev with EvMeta _ => true | _ => false end.

Definition isError (ev : ParseEvent) : bool :=
  match ev with EvError _ => true | _ => false end.

(** The last meta among the events. *)
Fixpoint lastMeta (evs : list ParseEvent) : option ParsedMeta :=
  match evs with
  | [] => None
  | ev :: rest =>
      match lastMeta rest with
      | Some m => Some m
      | None => match ev with EvMeta m => Some m | _ => None end
      end
  end.

(** The members batches, concatenated in emission order. *)
Fixpoint allMembers (evs : list ParseEvent) : list ParsedMember :=
  match evs with
  | [] => []
  | EvMembers batch :: rest => batch ++ allMembers rest
  | _ :: rest => allMembers rest
  end.

(** The messages batches, concatenated in emission order. *)
Fixpoint allMessages (evs : list ParseEvent) : list ParsedMessage :=
  match evs with
  | [] => []
  | EvMessages batch :: rest => batch ++ allMessages rest
  | _ :: rest => allMessages rest
  end.



(** The value of the first error event, when there is one. *)
Fixpoint firstError (evs : list ParseEvent) : option Exn :=
  match evs with
  | [] => None
  | EvError e :: _ => Some e
  | _ :: rest => firstError rest
  end.

(** The events up to the first error event, which is left out. *)
Fixpoint beforeError (evs : list ParseEvent) : list ParseEvent :=
  match evs with
  | [] => []
  | EvError _ :: _ => []
  | ev :: rest => ev :: beforeError rest
  end.

(** The data of the progress events, in order. *)
Fixpoint progressOf (evs : list ParseEvent) : list ParseProgress :=
  match evs with
  | [] => []
  | EvProgress data :: rest => data :: progressOf rest
  | _ :: rest => progressOf rest
  end.

(** How a sequence of events ends for a consumer that throws the first
    error event. *)
Definition ending (s : Stream) : Outcome unit :=
  match firstError (events s) with
  | Some e => Throw e
  | None =>
      match raised s with
      | Some e => Throw e
      | None => Ret tt
      end
  end.

End Spec.

(* ================================================================= *)
(** ** The sniffing layer on the regular expressions of the runtime *)

(** The layer once more, with what [JsHost] leaves out: [new RegExp]
    throws a [SyntaxError] on a source that is not a pattern, a
    [RegExp] object with the [g] or [y] flag keeps its [lastIndex] from one
    call of [test] to the next, and a path that opens may still fail to be
    read.  The patterns of a feature are objects shared with the registry,
    so a method that tests them leaves the registry with the patterns as
    the tests left them.  One pattern object stands at one place of one
    feature; the [feature] field of a parser is not read by this layer
    and stays as it is. *)
Module Runtime.
Import Sniffer.

(** What the file system holds at a path: nothing that can be opened,
    something that opens and cannot be read (a directory), or a regular
    file with its bytes. *)
Inductive Entry : Type :=
| Missing
| Unreadable
| Regular (content : list byte).

Definition Disk : Type := string -> Entry.

(** The readable files of a disk. *)
Definition fsOf (d : Disk) : FileSystem := fun p =>
  match d p with
  | Regular content => Some content
  | _ => None
  end.

(** The regular expression engine and the string built-ins.
    [Pattern_compile] is the parse of a pattern source, [None] standing
    for the [SyntaxError]; [Pattern_match p s i] is the matcher of the
    pattern run on [s] at index [i], giving the end index of the match;
    [String_length] is [s.length]. *)
Class JsRuntime : Type := {
  Pattern : Type;
  Pattern_compile : string -> option Pattern;
  Pattern_empty : Pattern;
  Pattern_match : Pattern -> string -> nat -> option nat;
  String_length : string -> nat;
  runtime_extname : string -> string;
  runtime_toLowerCase : string -> string;
  runtime_trim : string -> string;
  runtime_toString : list byte -> string
}.

Section WithRuntime.
Context {runtime : JsRuntime}.

(** A [RegExp] object: the compiled pattern, the two flags that make
    [test] depend on [lastIndex], and [lastIndex]. *)
Record RegExpObject : Type := {
  compiled : Pattern;
  global : bool;
  sticky : bool;
  lastIndex : nat
}.

Definition set_lastIndex (i : nat) (r : RegExpObject) : RegExpObject :=
  {| compiled := compiled r; global := global r; sticky := sticky r;
     lastIndex := i |}.

(** The object [new RegExp(source)] makes from a pattern. *)
Definition flagless (p : Pattern) : RegExpObject :=
  {| compiled := p; global := false; sticky := false; lastIndex := 0 |}.

(** [new RegExp(source)] *)
Definition RegExp_construct (source : string) : Outcome RegExpObject :=
  match Pattern_compile source with
  | Some p => Ret (flagless p)
  | None => Throw (SyntaxError source)
  end.

(** The loop of [RegExpBuiltinExec] without the [y] flag: the matcher is
    tried at [i], then at the following indices, [fuel] more times. *)
Fixpoint Pattern_search (p : Pattern) (s : string) (i fuel : nat)
  : option nat :=
  match Pattern_match p s i with
  | Some e => Some e
  | None =>
      match fuel with
      | O => None
      | S fuel' => Pattern_search p s (S i) fuel'
      end
  end.

(** [RegExpBuiltinExec]: the search starts at [lastIndex] when the object
    has the [g] or [y] flag and at 0 otherwise; with one of the flags a
    match moves [lastIndex] to its end and a failure resets it to 0. *)
Definition RegExpBuiltinExec (r : RegExpObject) (s : string)
  : option nat * RegExpObject :=
  let tracked := global r || sticky r in
  let start := if tracked then lastIndex r else 0 in
  let found :=
    if Nat.ltb (String_length s) start then None
    else if sticky r then Pattern_match (compiled r) s start
    else Pattern_search (compiled r) s start (String_length s - start) in
  match found with
  | Some e => (Some e, if tracked then set_lastIndex e r else r)
  | None => (None, if tracked then set_lastIndex 0 r else r)
  end.

(** [pattern.test(s)]: the verdict, and the object as the call leaves
    it. *)
Definition RegExpObject_test (r : RegExpObject) (s : string)
  : bool * RegExpObject :=
  let '(found, r) := RegExpBuiltinExec r s in
  (negb (isNull found), r).

(** The host seen by a registry in its current state: a pattern is
    tested as it is now, and the construction of a pattern from a source
    that is not one gives the pattern of the empty source. *)
#[local] Instance hostOf : JsHost := {|
  RegExp := RegExpObject;
  RegExp_new := fun source =>
    match Pattern_compile source with
    | Some p => flagless p
    | None => flagless Pattern_empty
    end;
  RegExp_test := fun r s => fst (RegExpObject_test r s);
  path_extname := runtime_extname;
  String_toLowerCase := runtime_toLowerCase;
  String_trim := runtime_trim;
  Buffer_toString := runtime_toString
|}.

(** [fs.openSync(filePath, 'r')]; the descriptor is the entry opened. *)
Definition fs_openSync (d : Disk) (filePath : string) : Outcome Entry :=
  match d filePath with
  | Missing => Throw (SystemError "open" filePath)
  | entry => Ret entry
  end.

(** [fs.readSync(fd, buffer, 0, length, position)] *)
Definition fs_readSync_fd (fd : Entry) (filePath : string)
    (buffer : list byte) (length position : nat)
  : Outcome (nat * list byte) :=
  match fd with
  | Regular file => Ret (fs_readSync file buffer length position)
  | _ => Throw (SystemError "read" filePath)
  end.

(** [readFileHead]: [openSync], then [readSync], either of which may
    throw; [closeSync] has no effect on what is returned. *)
Definition readFileHead (d : Disk) (filePath : string) (size : nat)
  : Outcome string :=
  fd <- fs_openSync d filePath ;;
  let buffer := Buffer_alloc size in
  read <- fs_readSync_fd fd filePath buffer size 0 ;;
  let '(bytesRead, buffer) := read in
  Ret (Buffer_toString (Buffer_slice buffer bytesRead)).

(** [patterns.some(p => p.test(headContent))]: the patterns are tested
    up to the first that matches. *)
Fixpoint matchHeadSignatures (headContent : string)
    (patterns : list RegExpObject) : bool * list RegExpObject :=
  match patterns with
  | [] => (false, [])
  | pattern :: rest =>
      let '(matched, pattern) := RegExpObject_test pattern headContent in
      if matched then (true, pattern :: rest)
      else
        let '(found, rest) := matchHeadSignatures headContent rest in
        (found, pattern :: rest)
  end.

(** The test both field checks apply to one field name; the pattern is
    built anew at each call. *)
Definition fieldFound (headContent field : string) : Outcome bool :=
  pattern <- RegExp_construct (fieldPatternSource field) ;;
  Ret (fst (RegExpObject_test pattern headContent)
       || String_includes headContent (dquote +++ field +++ dquote)).

(** [fields.every(...)], leaving at the first field that is not found. *)
Fixpoint matchRequiredFields (headContent : string) (fields : list string)
  : Outcome bool :=
  match fields with
  | [] => Ret true
  | field :: rest =>
      found <- fieldFound headContent field ;;
      if found then matchRequiredFields headContent rest else Ret false
  end.

Fixpoint checkRequiredFieldsDetail_loop (headContent : string)
    (fields : list string) (missing : list string) : Outcome (list string) :=
  match fields with
  | [] => Ret missing
  | field :: rest =>
      found <- fieldFound headContent field ;;
      if negb found
      then checkRequiredFieldsDetail_loop headContent rest (missing ++ [field])
      else checkRequiredFieldsDetail_loop headContent rest missing
  end.

Definition checkRequiredFieldsDetail (headContent : string)
    (fields : list string) : Outcome RequiredFieldsDetail :=
  missing <- checkRequiredFieldsDetail_loop headContent fields [] ;;
  Ret {| allMatch := Nat.eqb (List.length missing) 0; missing := missing |}.

(** The loop over [Object.entries(signatures.fieldPatterns)], leaving at
    the first pattern that does not match. *)
Fixpoint fieldPatterns_loop (entries : list (string * RegExpObject))
    (headContent : string) : bool * list (string * RegExpObject) :=
  match entries with
  | [] => (true, [])
  | (key, pattern) :: rest =>
      let '(matched, pattern) := RegExpObject_test pattern headContent in
      if negb matched then (false, (key, pattern) :: rest)
      else
        let '(ok, rest) := fieldPatterns_loop rest headContent in
        (ok, (key, pattern) :: rest)
  end.

(** The feature with its head patterns as a test left them. *)
Definition set_head (patterns : list RegExpObject) (f : FormatFeature)
  : FormatFeature :=
  {| id := id f; name := name f; platform := platform f;
     priority := priority f; extensions := extensions f;
     signatures :=
       {| head := Some patterns;
          requiredFields := requiredFields (signatures f);
          fieldPatterns := fieldPatterns (signatures f) |} |}.

Definition set_fieldPatterns (entries : list (string * RegExpObject))
    (f : FormatFeature) : FormatFeature :=
  {| id := id f; name := name f; platform := platform f;
     priority := priority f; extensions := extensions f;
     signatures :=
       {| head := head (signatures f);
          requiredFields := requiredFields (signatures f);
          fieldPatterns := Some entries |} |}.

Definition set_feature (f : FormatFeature) (m : FormatModule)
  : FormatModule :=
  {| feature := f; parser := parser m |}.

(** The head check of [matchFeature] and of [checkFeatureDetail]: [None]
    when no pattern is declared. *)
Definition checkHead (feature : FormatFeature) (headContent : string)
  : option bool * FormatFeature :=
  if nonEmpty (head (signatures feature))
  then
    let '(matched, patterns) :=
      matchHeadSignatures headContent (elements (head (signatures feature))) in
    (Some matched, set_head patterns feature)
  else (None, feature).

(** The check of the field value patterns. *)
Definition checkFieldPatterns (feature : FormatFeature)
    (headContent : string) : bool * FormatFeature :=
  match fieldPatterns (signatures feature) with
  | Some entries =>
      let '(ok, entries) := fieldPatterns_loop entries headContent in
      (ok, set_fieldPatterns entries feature)
  | None => (true, feature)
  end.

(** [matchFeature], with its early returns; the feature comes back with
    its patterns as the tests made so far left them. *)
Definition matchFeature (feature : FormatFeature) (ext headContent : string)
  : Outcome bool * FormatFeature :=
  if negb (Array_includes (extensions feature) ext) then (Ret false, feature)
  else
    let '(headMatch, feature) := checkHead feature headContent in
    if isFalse headMatch then (Ret false, feature)
    else
      let fieldsMatch :=
        if nonEmpty (requiredFields (signatures feature))
        then matchRequiredFields headContent
               (elements (requiredFields (signatures feature)))
        else Ret true in
      match fieldsMatch with
      | Throw e => (Throw e, feature)
      | Ret false => (Ret false, feature)
      | Ret true =>
          let '(ok, feature) := checkFieldPatterns feature headContent in
          (Ret ok, feature)
      end.

(** [checkFeatureDetail] *)
Definition checkFeatureDetail (feature : FormatFeature)
    (ext headContent : string) : Outcome FormatMatchCheck * FormatFeature :=
  let result :=
    {| formatId := id feature;
       formatName := name feature;
       extensionMatch := Array_includes (extensions feature) ext;
       headSignatureMatch := None;
       requiredFieldsMatch := None;
       missingFields := [];
       fullMatch := false |} in
  if negb (extensionMatch result) then (Ret result, feature)
  else
    let '(headMatch, feature) := checkHead feature headContent in
    let result := set_headSignatureMatch headMatch result in
    let checked :=
      if nonEmpty (requiredFields (signatures feature))
      then
        detail <- checkRequiredFieldsDetail headContent
                    (elements (requiredFields (signatures feature))) ;;
        Ret (set_requiredFields (Some (allMatch detail)) (missing detail)
               result)
      else Ret result in
    match checked with
    | Throw e => (Throw e, feature)
    | Ret result =>
        let '(fieldPatternsMatch, feature) :=
          checkFieldPatterns feature headContent in
        (Ret (set_fullMatch
                (extensionMatch result
                 && nullOrTrue (headSignatureMatch result)
                 && nullOrTrue (requiredFieldsMatch result)
                 && fieldPatternsMatch) result),
         feature)
    end.

(** The loop of [sniff]: the modules visited come back with their
    patterns as the tests left them, and the feature returned is the
    object of the registry. *)
Fixpoint sniff_loop (modules : list FormatModule) (ext headContent : string)
  : Outcome (option FormatFeature) * list FormatModule :=
  match modules with
  | [] => (Ret None, [])
  | m :: rest =>
      let '(matched, feature) := matchFeature (feature m) ext headContent in
      let m := set_feature feature m in
      match matched with
      | Throw e => (Throw e, m :: rest)
      | Ret true => (Ret (Some feature), m :: rest)
      | Ret false =>
          let '(result, rest) := sniff_loop rest ext headContent in
          (result, m :: rest)
      end
  end.

Definition sniff (d : Disk) (filePath : string)
  : Method (option FormatFeature) :=
  fun this =>
    let ext := getExtension filePath in
    match readFileHead d filePath HEAD_SIZE with
    | Throw e => (Throw e, this)
    | Ret headContent =>
        let '(result, modules) :=
          sniff_loop (formats this) ext headContent in
        (result, {| formats := modules |})
    end.

(** The loop of [getParser]. *)
Fixpoint getParser_loop (modules : list FormatModule)
    (ext headContent : string)
  : Outcome (option Parser) * list FormatModule :=
  match modules with
  | [] => (Ret None, [])
  | m :: rest =>
      let '(matched, feature) := matchFeature (feature m) ext headContent in
      let m := set_feature feature m in
      match matched with
      | Throw e => (Throw e, m :: rest)
      | Ret true => (Ret (Some (parser m)), m :: rest)
      | Ret false =>
          let '(result, rest) := getParser_loop rest ext headContent in
          (result, m :: rest)
      end
  end.

Definition getParser (d : Disk) (filePath : string)
  : Method (option Parser) :=
  fun this =>
    let ext := getExtension filePath in
    match readFileHead d filePath HEAD_SIZE with
    | Throw e => (Throw e, this)
    | Ret headContent =>
        let '(result, modules) :=
          getParser_loop (formats this) ext headContent in
        (result, {| formats := modules |})
    end.

(** The loop of [diagnose] over its three accumulators. *)
Fixpoint diagnose_loop (modules : list FormatModule)
    (ext headContent : string)
    (checks partialMatches : list FormatMatchCheck)
    (matchedFormat : option FormatFeature)
  : Outcome (list FormatMatchCheck * list FormatMatchCheck
             * option FormatFeature)
    * list FormatModule :=
  match modules with
  | [] => (Ret (checks, partialMatches, matchedFormat), [])
  | m :: rest =>
      let '(check, feature) :=
        checkFeatureDetail (feature m) ext headContent in
      let m := set_feature feature m in
      match check with
      | Throw e => (Throw e, m :: rest)
      | Ret check =>
          let checks := checks ++ [check] in
          let '(result, rest) :=
            if fullMatch check && isNull matchedFormat
            then diagnose_loop rest ext headContent checks partialMatches
                   (Some feature)
            else if extensionMatch check && negb (fullMatch check)
            then diagnose_loop rest ext headContent checks
                   (partialMatches ++ [check]) matchedFormat
            else diagnose_loop rest ext headContent checks partialMatches
                   matchedFormat in
          (result, m :: rest)
      end
  end.

Definition diagnose (d : Disk) (filePath : string)
  : Method FormatDiagnosis :=
  fun this =>
    let ext := getExtension filePath in
    match readFileHead d filePath HEAD_SIZE with
    | Throw e => (Throw e, this)
    | Ret headContent =>
        let '(result, modules) :=
          diagnose_loop (formats this) ext headContent [] [] None in
        (triple <- result ;;
         let '(checks, partialMatches, matchedFormat) := triple in
         let suggestion :=
           generateSuggestion ext partialMatches headContent in
         Ret {| recognized := negb (isNull matchedFormat);
                matchedFormat := matchedFormat;
                checks := checks;
                partialMatches := partialMatches;
                suggestion := suggestion |},
         {| formats := modules |})
    end.

(** [parseFile] of the module entry, on the global sniffer in its current
    state; the parser reads the regular files of the disk. *)
Definition parseFile (options : ParseOptions) (d : Disk)
  : FormatSniffer -> Stream * FormatSniffer :=
  fun sniffer =>
    let '(parser, sniffer) := getParser d (filePath options) sniffer in
    (match parser with
     | Throw e => Raise e
     | Ret None =>
         Yield (EvError (Error ("无法识别文件格式: " +++ filePath options)))
               Done
     | Ret (Some parser) => parse parser options (fsOf d)
     end,
     sniffer).

(** *** The statements of the specification on this layer *)

(** The object has neither the [g] nor the [y] flag. *)
Definition isFlagless (r : RegExpObject) : bool :=
  negb (global r) && negb (sticky r).

(** The patterns a feature declares carry neither flag. *)
Definition flaglessPatterns (f : FormatFeature) : Prop :=
  Forall (fun p => isFlagless p = true) (elements (head (signatures f)))
  /\ Forall (fun entry => isFlagless (snd entry) = true)
       (elements (fieldPatterns (signatures f))).

(** The required field names of a feature give pattern sources that
    compile. *)
Definition validFieldNames (f : FormatFeature) : Prop :=
  Forall (fun field => Pattern_compile (fieldPatternSource field) <> None)
    (elements (requiredFields (signatures f))).

(** A feature the claims about verdicts are made for. *)
Definition wellFormed (f : FormatFeature) : Prop :=
  validFieldNames f /\ flaglessPatterns f.

(** The pattern matches somewhere in the subject. *)
Definition matchesIn (p : Pattern) (s : string) : Prop :=
  Pattern_search p s 0 (String_length s) <> None.

(** A required field name is textually discoverable in the head window:
    the pattern built from it matches there, or the quoted name occurs. *)
Definition discoverable (headWindow field : string) : Prop :=
  (exists p, Pattern_compile (fieldPatternSource field) = Some p
             /\ matchesIn p headWindow)
  \/ String_includes headWindow (dquote +++ field +++ dquote) = true.

(** The four checks of the matching contract, in the words of the
    specification; whether a pattern matches does not depend on the state
    of its object. *)
Definition passesAllChecks (f : FormatFeature) (ext headWindow : string)
  : Prop :=
  In ext (extensions f)
  /\ (forall patterns, head (signatures f) = Some patterns ->
        patterns <> [] ->
        exists p, In p patterns /\ matchesIn (compiled p) headWindow)
  /\ (forall fields, requiredFields (signatures f) = Some fields ->
        forall field, In field fields -> discoverable headWindow field)
  /\ (forall entries, fieldPatterns (signatures f) = Some entries ->
        forall key p, In (key, p) entries ->
        matchesIn (compiled p) headWindow).

(** [c] is the check [checkFeatureDetail] returns for the module [m] on
    a [.json] file with the given bytes. *)
Definition checkOf (file : list byte) (m : FormatModule)
    (c : FormatMatchCheck) : Prop :=
  fst (checkFeatureDetail (feature m) ".json" (Spec.headWindow file))
  = Ret c.

(** What a path holds, as far as the head window goes. *)
Definition headOf (e : Entry) : Entry :=
  match e with
  | Regular content => Regular (firstn 8192 content)
  | _ => e
  end.

End WithRuntime.
End Runtime.

(* ================================================================= *)
(** ** A host for running the model *)

(** An instance of [JsHost] that computes, used to run the model on
    sample inputs.  It follows the runtime on ASCII text: patterns made of
    literal characters, [\s], [.] and [*]; POSIX paths that do not end
    with a slash; ASCII letters and white space. *)
Module SampleHost.

Inductive Atom : Type :=
| AChar (c : ascii)
| ASpace
| AAny.

(** An atom and whether [*] follows it. *)
Definition Item : Type := (Atom * bool)%type.

(** [c] is one of the characters of [chars]. *)
Definition oneOf (chars : string) (c : ascii) : bool :=
  existsb (Ascii.eqb c) (list_ascii_of_string chars).

(** Space, and the characters 9 to 13. *)
Definition isSpace (c : ascii) : bool :=
  Ascii.eqb c " "%char || Ascii.eqb c "009"%char || Ascii.eqb c "010"%char
  || Ascii.eqb c "011"%char || Ascii.eqb c "012"%char
  || Ascii.eqb c "013"%char.

Definition isLineEnd (c : ascii) : bool :=
  Ascii.eqb c "010"%char || Ascii.eqb c "013"%char.

Definition isUpper (c : ascii) : bool :=
  oneOf "ABCDEFGHIJKLMNOPQRSTUVWXYZ" c.

Definition isAlnum (c : ascii) : bool :=
  isUpper c || oneOf "abcdefghijklmnopqrstuvwxyz0123456789" c.

(** The characters with a meaning of their own that the fragment leaves
    out. *)
Definition isSpecial (c : ascii) : bool :=
  oneOf "()[]{}|^$+?*" c.

Definition atom_ok (a : Atom) (c : ascii) : bool :=
  match a with
  | AChar d => Ascii.eqb c d
  | ASpace => isSpace c
  | AAny => negb (isLineEnd c)
  end.

(** Reading a pattern source; [None] when it leaves the fragment. *)
Fixpoint parseSource (s : string) : option (list Item) :=
  match s with
  | EmptyString => Some []
  | String c rest =>
      if Ascii.eqb c "\"%char then
        match rest with
        | EmptyString => None
        | String d rest' =>
            if isAlnum d && negb (Ascii.eqb d "s"%char) then None
            else
              let atom := if Ascii.eqb d "s"%char then ASpace else AChar d in
              match rest' with
              | String "*"%char rest'' =>
                  option_map (cons (atom, true)) (parseSource rest'')
              | _ => option_map (cons (atom, false)) (parseSource rest')
              end
        end
      else if isSpecial c then None
      else
        let atom := if Ascii.eqb c "."%char then AAny else AChar c in
        match rest with
        | String "*"%char rest' =>
            option_map (cons (atom, true)) (parseSource rest')
        | _ => option_map (cons (atom, false)) (parseSource rest)
        end
  end.

(** The items match a prefix of [s]. *)
Fixpoint matchHere (items : list Item) (s : string) : bool :=
  match items with
  | [] => true
  | (a, false) :: items' =>
      match s with
      | EmptyString => false
      | String c s' => atom_ok a c && matchHere items' s'
      end
  | (a, true) :: items' =>
      (fix star (s : string) : bool :=
         matchHere items' s
         || match s with
            | EmptyString => false
            | String c s' => atom_ok a c && star s'
            end) s
  end.

(** The items match somewhere in [s]. *)
Fixpoint matchAnywhere (items : list Item) (s : string) : bool :=
  matchHere items s
  || match s with
     | EmptyString => false
     | String _ s' => matchAnywhere items s'
     end.

Definition test (r : option (list Item)) (s : string) : bool :=
  match r with
  | Some items => matchAnywhere items s
  | None => false
  end.

(** An upper-case letter gets the bit of value 32. *)
Definition lowerChar (c : ascii) : ascii :=
  if isUpper c
  then match c with
       | Ascii b0 b1 b2 b3 b4 _ b6 b7 => Ascii b0 b1 b2 b3 b4 true b6 b7
       end
  else c.

Fixpoint toLowerCase (s : string) : string :=
  match s with
  | EmptyString => EmptyString
  | String c s' => String (lowerChar c) (toLowerCase s')
  end.

(** What follows the last [c] in [s], when [c] occurs. *)
Fixpoint afterLast (c : ascii) (s : string) : option string :=
  match s with
  | EmptyString => None
  | String d s' =>
      match afterLast c s' with
      | Some r => Some r
      | None => if Ascii.eqb d c then Some s' else None
      end
  end.

Definition basename (p : string) : string :=
  match afterLast "/"%char p with
  | Some b => b
  | None => p
  end.

Definition extname (p : string) : string :=
  let b := basename p in
  if String.eqb b ".." then EmptyString
  else match b with
       | EmptyString => EmptyString
       | String _ rest =>
           match afterLast "."%char rest with
           | Some e => "." +++ e
           | None => EmptyString
           end
       end.

Fixpoint trimStart (s : string) : string :=
  match s with
  | EmptyString => EmptyString
  | String c s' => if isSpace c then trimStart s' else s
  end.

Fixpoint trimEnd (s : string) : string :=
  match s with
  | EmptyString => EmptyString
  | String c s' =>
      match trimEnd s' with
      | EmptyString => if isSpace c then EmptyString
                       else String c EmptyString
      | t => String c t
      end
  end.

Definition trim (s : string) : string := trimEnd (trimStart s).

#[export] Instance sampleHost : JsHost := {|
  RegExp := option (list Item);
  RegExp_new := parseSource;
  RegExp_test := test;
  path_extname := extname;
  String_toLowerCase := toLowerCase;
  String_trim := trim;
  Buffer_toString := string_of_list_byte
|}.

End SampleHost.

(* ================================================================= *)
(** ** Sample registries, files and parsers *)

Module Samples.
Import Sniffer SampleHost.

(** [s] between double quotes. *)
Definition quoted (s : string) : string := dquote +++ s +++ dquote.

(** A format of [.json] files with two required field names. *)
Definition featureA : FormatFeature := {|
  id := "format-a";
  name := "Format A";
  platform := "platform-a";
  priority := 10;
  extensions := [".json"];
  signatures := {| head := None;
                   requiredFields := Some ["chatlab"; "messages"];
                   fieldPatterns := None |}
|}.

(** A second format of [.json] files, checked before [featureA]. *)
Definition featureB : FormatFeature := {|
  id := "format-b";
  name := "Format B";
  platform := "platform-b";
  priority := 5;
  extensions := [".json"];
  signatures := {| head := Some [RegExp_new "qq\s*:"];
                   requiredFields := Some ["chatName"];
                   fieldPatterns := None |}
|}.

(** A format of [.txt] files with a head signature. *)
Definition featureT : FormatFeature := {|
  id := "format-t";
  name := "Format T";
  platform := "platform-t";
  priority := 20;
  extensions := [".txt"];
  signatures := {| head := Some [RegExp_new "QQ"];
                   requiredFields := None;
                   fieldPatterns := None |}
|}.

Definition memberA : ParsedMember :=
  {| platformId := "a"; accountName := "a" |}.

Definition messageA (ts : Z) : ParsedMessage :=
  {| senderPlatformId := "a"; timestamp := ts; messageType := 0;
     content := "hi" |}.

Definition metaA : ParsedMeta :=
  {| meta_name := "group"; meta_platform := "platform-a" |}.

Definition progressHalf : ParseProgress :=
  {| stage := "parsing"; percentage := 50; bytesRead := 10;
     totalBytes := 20; messagesProcessed := 1; message := "half" |}.

(** A parser whose sequence has a meta, one members batch and two
    messages batches. *)
Definition parserFull (f : FormatFeature) : Parser := {|
  parser_feature := f;
  parse := fun _ _ =>
    Yield (EvMeta metaA)
      (Yield (EvMembers [memberA])
         (Yield (EvMessages [messageA 1; messageA 2])
            (Yield (EvProgress progressHalf)
               (Yield (EvMessages [messageA 3]) Done))))
|}.

(** A parser whose sequence ends without a meta. *)
Definition parserNoMeta (f : FormatFeature) : Parser := {|
  parser_feature := f;
  parse := fun _ _ =>
    Yield (EvMembers [memberA])
      (Yield (EvMessages [messageA 1; messageA 2]) Done)
|}.

(** A parser whose sequence ends with an error event. *)
Definition parserFailing (f : FormatFeature) : Parser := {|
  parser_feature := f;
  parse := fun _ _ =>
    Yield (EvMeta metaA) (Yield (EvError (Error "bad record")) Done)
|}.

Definition moduleA : FormatModule :=
  {| feature := featureA; parser := parserNoMeta featureA |}.
Definition moduleB : FormatModule :=
  {| feature := featureB; parser := parserFull featureB |}.
Definition moduleT : FormatModule :=
  {| feature := featureT; parser := parserFailing featureT |}.

(** A table of three modules, as [./formats] would export it. *)
Definition tableABT : list FormatModule := [moduleA; moduleT; moduleB].

(** The registry after [registerAll tableABT]. *)
Definition snifferABT : FormatSniffer :=
  snd (registerAll tableABT createSniffer).

(** A registry in which [moduleA] alone accepts [.json]. *)
Definition snifferAT : FormatSniffer :=
  snd (registerAll [moduleT; moduleA] createSniffer).

Definition fullJson : string :=
  "{ " +++ quoted "chatlab" +++ ": {}, " +++ quoted "messages" +++ ": [] }".

Definition partialJson : string :=
  "{ " +++ quoted "chatlab" +++ ": { " +++ quoted "version" +++ ": 1 } }".

Definition bJson : string :=
  "{ qq: 1, " +++ quoted "chatName" +++ ": 2 }".

(** 8192 spaces, then an opening brace: the brace lies outside the head
    window. *)
Definition paddedBytes : list byte :=
  repeat x20 8192 ++ list_byte_of_string "{".

Definition disk : FileSystem := fun p =>
  if String.eqb p "/data/full.json"
  then Some (list_byte_of_string fullJson)
  else if String.eqb p "/data/partial.JSON"
  then Some (list_byte_of_string partialJson)
  else if String.eqb p "/data/notes.md"
  then Some (list_byte_of_string "# notes")
  else if String.eqb p "/data/log.txt"
  then Some (list_byte_of_string "QQ export")
  else if String.eqb p "/data/plain.txt"
  then Some (list_byte_of_string "hello")
  else if String.eqb p "/data/b.json"
  then Some (list_byte_of_string bJson)
  else if String.eqb p "/data/spaces.json"
  then Some (repeat x20 8192)
  else if String.eqb p "/data/padded.json"
  then Some paddedBytes
  else None.

(** The same disk after [/data/spaces.json] has grown past the head
    window. *)
Definition diskLater : FileSystem := fun p =>
  if String.eqb p "/data/spaces.json" then Some paddedBytes else disk p.

Definition optionsFor (p : string) : ParseOptions :=
  {| filePath := p; batchSize := None; onProgress := true; onLog := false |}.

End Samples.

(* ================================================================= *)
(** ** The calls a sequence of events stands for *)

Module Calls.

(** One callback call per event that is not an error event. *)
Fixpoint callsOf (evs : list ParseEvent) : list Index.CallbackCall :=
  match evs with
  | [] => []
  | EvMeta data :: rest => Index.OnMeta data :: callsOf rest
  | EvMembers data :: rest => Index.OnMembers data :: callsOf rest
  | EvMessages data :: rest => Index.OnMessageBatch data :: callsOf rest
  | EvProgress data :: rest => Index.OnProgress data :: callsOf rest
  | EvError _ :: rest => callsOf rest
  end.

End Calls.

(* ================================================================= *)
(** ** The file selection handler (the chat IPC handlers) *)

Module ChatIpc.
Import Sniffer.
Section WithFormats.
Context {host : JsHost}.

(** The table behind [detectFormat] and [diagnoseFormat]. *)
Variable formats : list FormatModule.

(** [String(error)] *)
Variable String_of_error : Exn -> string.

(** One element of [diagnosis.partialMatches] in a reply. *)
Record PartialMatchSummary : Type := {
  summary_formatName : string;
  summary_missingFields : list string
}.

Record DiagnosisSummary : Type := {
  summary_suggestion : string;
  summary_partialMatches : list PartialMatchSummary
}.

(** What the handler of ['chat:selectFile'] returns: [null],
    [{ filePath, format }], or an object with [error] and, for an
    unrecognized format, [diagnosis]. *)
Inductive SelectFileReply : Type :=
| ReplyNull
| ReplySelected (filePath : string) (format : string)
| ReplyFailure (error : string) (diagnosis : option DiagnosisSummary).

(** [x || null] on a string or undefined. *)
Definition orNull (x : option string) : option string :=
  match x with
  | Some s => if String.eqb s EmptyString then None else Some s
  | None => None
  end.

(** The handler of ['chat:selectFile'], given what the open dialog
    resolved to: [canceled] and [filePaths], or a rejection.  The guard
    on [filePaths.length] is the empty case of the match. *)
Definition selectFile (fs : FileSystem)
    (showOpenDialog : Outcome (bool * list string)) : SelectFileReply :=
  let body : Outcome SelectFileReply :=
    answer <- showOpenDialog ;;
    let '(canceled, filePaths) := answer in
    if canceled then Ret ReplyNull
    else
      match filePaths with
      | [] => Ret ReplyNull
      | filePath :: _ =>
          formatFeature <- Index.detectFormat formats fs filePath ;;
          let format := orNull (option_map name formatFeature) in
          match format with
          | None =>
              diagnosis <- Index.diagnoseFormat formats fs filePath ;;
              Ret (ReplyFailure "error.unrecognized_format"
                     (Some
                        {| summary_suggestion := suggestion diagnosis;
                           summary_partialMatches :=
                             map (fun m =>
                                    {| summary_formatName := formatName m;
                                       summary_missingFields :=
                                         missingFields m |})
                                 (partialMatches diagnosis) |}))
          | Some format => Ret (ReplySelected filePath format)
          end
      end in
  match body with
  | Ret reply => reply
  | Throw error => ReplyFailure (String_of_error error) None
  end.

End WithFormats.
End ChatIpc.

(* ================================================================= *)
(** ** Error texts of the import component *)

Module ImportArea.
Section WithTranslations.

(** [t] of [vue-i18n]: a key without a translation comes back as it is. *)
Variable t : string -> string.

(** [translateError]; [error.slice(6)] is taken where [error] starts with
    the six characters of ['error.']. *)
Definition translateError (error : string) : string :=
  if String_startsWith error "error."
  then
    let key := "home.import.errors." +++ String_drop 6 error in
    let translated := t key in
    if negb (String.eqb translated key) then translated else error
  else error.

End WithTranslations.
End ImportArea.

(* ================================================================= *)
(** ** Keyword extraction of the AI chat ([useAIChat.ts]) *)

Module AIChat.
Section WithHost.
Context {host : JsHost}.

(** [s.split(pattern)] and [s.length] (in UTF-16 code units). *)
Variable String_split : RegExp -> string -> list string.
Variable String_length : string -> nat.

(** What [window.llmApi.chat] resolves to, with the fields read. *)
Record ChatResult : Type := {
  success : bool;
  content : option string
}.

(** A string or undefined used as a condition. *)
Definition truthy (x : option string) : bool :=
  match x with
  | Some s => negb (String.eqb s EmptyString)
  | None => false
  end.

(** The fallback of [extractKeywords]: the question is cut at white space
    and punctuation. *)
Definition simpleSplit (question : string) : list string :=
  firstn 3
    (filter (fun w => Nat.leb 2 (String_length w))
       (String_split (RegExp_new "[\s,，。！？!?]+") question)).

(** [extractKeywords], given the outcome of the call to the model. *)
Definition extractKeywords (chat : Outcome ChatResult) (question : string)
  : list string :=
  match chat with
  | Ret result =>
      if success result && truthy (content result)
      then
        let keywords :=
          filter (fun k => Nat.ltb 0 (String_length k)
                           && Nat.ltb (String_length k) 20)
            (map String_trim
               (String_split (RegExp_new "[,，]")
                  (match content result with
                   | Some c => c
                   | None => EmptyString
                   end))) in
        firstn 5 keywords
      else simpleSplit question
  | Throw _ => simpleSplit question
  end.

End WithHost.
End AIChat.

(* ================================================================= *)
(** ** More sample values *)

Module MoreSamples.
Import Sniffer SampleHost Samples.

(** A format known by its extension alone. *)
Definition featurePlain : FormatFeature := {|
  id := "format-plain";
  name := "Plain lines";
  platform := "platform-p";
  priority := 10;
  extensions := [".jsonl"];
  signatures := {| head := Some [];
                   requiredFields := None;
                   fieldPatterns := None |}
|}.

Definition modulePlain : FormatModule :=
  {| feature := featurePlain; parser := parserFull featurePlain |}.

(** Only [moduleA] comes with a preprocessor, for files above 100
    bytes. *)
Definition preprocessors (m : FormatModule) : option Index.Preprocessor :=
  if String.eqb (id (feature m)) "format-a"
  then Some {| Index.pre_needsPreprocess := fun _ size => (100 <? size)%Z |}
  else None.

(** A file size read through [statSync]. *)
Definition fileSizes (fs : FileSystem) (p : string) : Outcome Z :=
  match fs p with
  | Some file => Ret (Z.of_nat (List.length file))
  | None => Throw (SystemError "stat" p)
  end.

(** A format of [.json] files known by a field value. *)
Definition featureP : FormatFeature := {|
  id := "format-p";
  name := "Format P";
  platform := "platform-p";
  priority := 30;
  extensions := [".json"];
  signatures := {| head := None;
                   requiredFields := None;
                   fieldPatterns := Some [("type", RegExp_new "group")] |}
|}.

Definition moduleP : FormatModule :=
  {| feature := featureP; parser := parserFull featureP |}.

(** The registry holding [moduleP] alone. *)
Definition snifferP : FormatSniffer :=
  snd (register moduleP createSniffer).

(** A [.json] file in which both [featureA] and [featureP] find what
    they look for. *)
Definition groupJson : string :=
  "{ " +++ quoted "chatlab" +++ ": {}, " +++ quoted "messages" +++ ": [], "
       +++ quoted "type" +++ ": " +++ quoted "group" +++ " }".

(** The sample disk with that file. *)
Definition diskWithGroup : FileSystem := fun p =>
  if String.eqb p "/data/group.json"
  then Some (list_byte_of_string groupJson)
  else disk p.

(** The registry holding [moduleP] and [moduleA]. *)
Definition snifferAP : FormatSniffer :=
  snd (registerAll [moduleP; moduleA] createSniffer).

(** The sample disk with one more file: text under a [.json] name. *)
Definition diskWithText : FileSystem := fun p =>
  if String.eqb p "/data/text.json"
  then Some (list_byte_of_string "  plain text")
  else disk p.

(** Translations: one key has a text, every other key comes back. *)
Definition translations (key : string) : string :=
  if String.eqb key "home.import.errors.unrecognized_format"
  then "无法识别的文件格式"
  else key.

(** The first piece of [s] up to a comma, and the pieces after it. *)
Fixpoint piecesOf (s : string) : string * list string :=
  match s with
  | EmptyString => (EmptyString, [])
  | String c s' =>
      let '(piece, pieces) := piecesOf s' in
      if Ascii.eqb c ","%char then (EmptyString, piece :: pieces)
      else (String c piece, pieces)
  end.

(** A split at ASCII commas, whatever the pattern. *)
Definition splitAtCommas (_ : option (list Item)) (s : string)
  : list string :=
  let '(piece, pieces) := piecesOf s in piece :: pieces.

(** An answer of the model with five pieces, two of them empty after
    trimming. *)
Definition answer : Outcome AIChat.ChatResult :=
  Ret {| AIChat.success := true;
         AIChat.content := Some "buy a house, price ,, ,housing" |}.

(** The text of an exception, as [String(error)] gives it for an
    [Error]. *)
Definition errorText (e : Exn) : string :=
  match e with
  | Error message => "Error: " +++ message
  | SystemError syscall path => "Error: " +++ syscall +++ " " +++ path
  | SyntaxError source =>
      "SyntaxError: Invalid regular expression: /" +++ source +++ "/"
  end.

End MoreSamples.

(* ================================================================= *)
(** ** A runtime for running the model *)

(** An instance of [JsRuntime] that computes, on the fragment of
    [SampleHost]: the matcher follows the backtracking order of the
    runtime ([*] takes as much as it can first), indices count
    characters, and a source outside the fragment is refused. *)
Module SampleRuntime.

(** The number of characters the items match at the start of [s]. *)
Fixpoint matchEnd (items : list SampleHost.Item) (s : string) : option nat :=
  match items with
  | [] => Some 0
  | (a, false) :: items' =>
      match s with
      | EmptyString => None
      | String c s' =>
          if SampleHost.atom_ok a c then option_map S (matchEnd items' s')
          else None
      end
  | (a, true) :: items' =>
      (fix star (s : string) : option nat :=
         match s with
         | EmptyString => matchEnd items' s
         | String c s' =>
             if SampleHost.atom_ok a c
             then match star s' with
                  | Some n => Some (S n)
                  | None => matchEnd items' s
                  end
             else matchEnd items' s
         end) s
  end.

(** The matcher at index [i]: the end index of the match. *)
Definition matchAt (items : list SampleHost.Item) (s : string) (i : nat)
  : option nat :=
  if Nat.leb i (String.length s)
  then option_map (Nat.add i) (matchEnd items (String_drop i s))
  else None.

#[export] Instance sampleRuntime : Runtime.JsRuntime := {|
  Runtime.Pattern := list SampleHost.Item;
  Runtime.Pattern_compile := SampleHost.parseSource;
  Runtime.Pattern_empty := [];
  Runtime.Pattern_match := matchAt;
  Runtime.String_length := String.length;
  Runtime.runtime_extname := SampleHost.extname;
  Runtime.runtime_toLowerCase := SampleHost.toLowerCase;
  Runtime.runtime_trim := SampleHost.trim;
  Runtime.runtime_toString := string_of_list_byte
|}.

End SampleRuntime.

(* ================================================================= *)
(** ** Sample registries and a sample disk for the runtime *)

Module RuntimeSamples.
Import Sniffer.
Import SampleRuntime.
#[local] Existing Instance Runtime.hostOf.

(** The object [new RegExp(source)] gives. *)
Definition pattern (source : string) : Runtime.RegExpObject :=
  RegExp_new source.

(** A parser whose sequence is one meta. *)
Definition parserOf (f : FormatFeature) : Parser := {|
  parser_feature := f;
  parse := fun _ _ => Yield (EvMeta Samples.metaA) Done
|}.

Definition moduleOf (f : FormatFeature) : FormatModule :=
  {| feature := f; parser := parserOf f |}.

(** A format of [.json] files with two required field names. *)
Definition featureA : FormatFeature := {|
  id := "format-a";
  name := "Format A";
  platform := "platform-a";
  priority := 10;
  extensions := [".json"];
  signatures := {| head := None;
                   requiredFields := Some ["chatlab"; "messages"];
                   fieldPatterns := None |}
|}.

(** A second format of [.json] files, checked before [featureA]. *)
Definition featureB : FormatFeature := {|
  id := "format-b";
  name := "Format B";
  platform := "platform-b";
  priority := 5;
  extensions := [".json"];
  signatures := {| head := Some [pattern "qq\s*:"];
                   requiredFields := Some ["chatName"];
                   fieldPatterns := None |}
|}.

(** A format of [.txt] files with a head signature. *)
Definition featureT : FormatFeature := {|
  id := "format-t";
  name := "Format T";
  platform := "platform-t";
  priority := 20;
  extensions := [".txt"];
  signatures := {| head := Some [pattern "QQ"];
                   requiredFields := None;
                   fieldPatterns := None |}
|}.

(** The pattern [/QQ/g], as a literal gives it. *)
Definition patternQQg : Runtime.RegExpObject :=
  {| Runtime.compiled := [(SampleHost.AChar "Q", false);
                          (SampleHost.AChar "Q", false)];
     Runtime.global := true;
     Runtime.sticky := false;
     Runtime.lastIndex := 0 |}.

(** A format of [.txt] files whose head signature carries the [g] flag. *)
Definition featureG : FormatFeature := {|
  id := "format-g";
  name := "Format G";
  platform := "platform-g";
  priority := 20;
  extensions := [".txt"];
  signatures := {| head := Some [patternQQg];
                   requiredFields := None;
                   fieldPatterns := None |}
|}.

(** A format of [.json] files, checked after [featureA], with a required
    field name that is not a pattern source: its second [+] has nothing
    to repeat. *)
Definition featureX : FormatFeature := {|
  id := "format-x";
  name := "Format X";
  platform := "platform-x";
  priority := 15;
  extensions := [".json"];
  signatures := {| head := None;
                   requiredFields := Some ["c++"];
                   fieldPatterns := None |}
|}.

(** A format of [.json] files known by a field value, checked last. *)
Definition featureP : FormatFeature := {|
  id := "format-p";
  name := "Format P";
  platform := "platform-p";
  priority := 30;
  extensions := [".json"];
  signatures := {| head := None;
                   requiredFields := None;
                   fieldPatterns := Some [("type", pattern "group")] |}
|}.

Definition moduleA : FormatModule := moduleOf featureA.
Definition moduleB : FormatModule := moduleOf featureB.
Definition moduleT : FormatModule := moduleOf featureT.
Definition moduleG : FormatModule := moduleOf featureG.
Definition moduleX : FormatModule := moduleOf featureX.
Definition moduleP : FormatModule := moduleOf featureP.

(** A table of four modules whose patterns carry no flag and whose field
    names are pattern sources. *)
Definition tableABTP : list FormatModule :=
  [moduleP; moduleA; moduleT; moduleB].

Definition snifferABTP : FormatSniffer :=
  snd (registerAll tableABTP createSniffer).

(** A table in which [moduleA] alone accepts [.json]. *)
Definition tableAT : list FormatModule := [moduleT; moduleA].

Definition snifferAT : FormatSniffer :=
  snd (registerAll tableAT createSniffer).

(** A table with the field name that is not a pattern source. *)
Definition tableAX : list FormatModule := [moduleX; moduleA].

Definition snifferAX : FormatSniffer :=
  snd (registerAll tableAX createSniffer).

(** A table with the flagged pattern. *)
Definition tableG : list FormatModule := [moduleG].

Definition snifferG : FormatSniffer :=
  snd (registerAll tableG createSniffer).

(** Files, a directory, and nothing else. *)
Definition disk : Runtime.Disk := fun p =>
  if String.eqb p "/data/full.json"
  then Runtime.Regular (list_byte_of_string Samples.fullJson)
  else if String.eqb p "/data/partial.json"
  then Runtime.Regular (list_byte_of_string Samples.partialJson)
  else if String.eqb p "/data/group.json"
  then Runtime.Regular (list_byte_of_string MoreSamples.groupJson)
  else if String.eqb p "/data/notes.md"
  then Runtime.Regular (list_byte_of_string "# notes")
  else if String.eqb p "/data/log.txt"
  then Runtime.Regular (list_byte_of_string "QQ export")
  else if String.eqb p "/data/plain.txt"
  then Runtime.Regular (list_byte_of_string "hello")
  else if String.eqb p "/data/spaces.json"
  then Runtime.Regular (repeat x20 8192)
  else if String.eqb p "/data"
  then Runtime.Unreadable
  else Runtime.Missing.

(** The same disk after [/data/spaces.json] has grown past the head
    window. *)
Definition diskLater : Runtime.Disk := fun p =>
  if String.eqb p "/data/spaces.json"
  then Runtime.Regular Samples.paddedBytes
  else disk p.

End RuntimeSamples.

(* ================================================================= *)
(** * Properties of the sniffing layer *)

Import Sniffer Spec.

Section SnifferProperties.
Context {host : JsHost}.

(** ** Reading the head of a file *)

Lemma firstn_length_app (A : Type) (l l' : list A) :
  firstn (List.length l) (l ++ l') = l.
Proof.
  induction l as [|x l IH]; simpl.
  - reflexivity.
  - now rewrite IH.
Qed.

(** The buffer handed back by [readFileHead] holds the first [size] bytes
    of the file, whatever the file's length. *)
Lemma readFileHead_readable (fs : FileSystem) (filePath : string)
    (size : nat) (file : list byte) :
  fs filePath = Some file ->
  readFileHead fs filePath size = Ret (Buffer_toString (firstn size file)).
Proof.
  intros Hfile. unfold readFileHead, fs_readSync, Buffer_slice.
  rewrite Hfile. cbv beta iota zeta.
  now rewrite firstn_length_app.
Qed.

Lemma readFileHead_unreadable (fs : FileSystem) (filePath : string)
    (size : nat) :
  fs filePath = None ->
  readFileHead fs filePath size = Throw (SystemError "open" filePath).
Proof.
  intros Hfile. unfold readFileHead. now rewrite Hfile.
Qed.

Lemma HEAD_SIZE_bytes : HEAD_SIZE = 8192.
Proof. reflexivity. Qed.

Lemma readFileHead_window (fs : FileSystem) (filePath : string)
    (file : list byte) :
  fs filePath = Some file ->
  readFileHead fs filePath HEAD_SIZE = Ret (headWindow file).
Proof.
  intros Hfile. unfold headWindow. rewrite <- HEAD_SIZE_bytes.
  now apply readFileHead_readable.
Qed.

(** ** The four checks *)

Lemma Array_includes_In (arr : list string) (x : string) :
  Array_includes arr x = true <-> In x arr.
Proof.
  unfold Array_includes. rewrite existsb_exists. split.
  - intros [y [Hin Heq]]. apply String.eqb_eq in Heq. now subst.
  - intros Hin. exists x. split; [assumption | apply String.eqb_refl].
Qed.

Lemma fieldFound_discoverable (headContent field : string) :
  fieldFound headContent field = true <-> discoverable headContent field.
Proof.
  unfold fieldFound, discoverable. now rewrite orb_true_iff.
Qed.

Lemma matchRequiredFields_spec (headContent : string) (fields : list string) :
  matchRequiredFields headContent fields = true
  <-> forall field, In field fields -> discoverable headContent field.
Proof.
  unfold matchRequiredFields. rewrite forallb_forall.
  split; intros H field Hin; apply fieldFound_discoverable; auto.
Qed.

Lemma matchHeadSignatures_spec (headContent : string)
    (patterns : list RegExp) :
  matchHeadSignatures headContent patterns = true
  <-> exists p, In p patterns /\ RegExp_test p headContent = true.
Proof.
  unfold matchHeadSignatures. apply existsb_exists.
Qed.

Lemma fieldPatterns_loop_spec (entries : list (string * RegExp))
    (headContent : string) :
  fieldPatterns_loop entries headContent = true
  <-> forall key p, In (key, p) entries -> RegExp_test p headContent = true.
Proof.
  induction entries as [|[k q] entries IH]; simpl.
  - split; [intros _ key p [] | reflexivity].
  - destruct (RegExp_test q headContent) eqn:Hq; simpl.
    + rewrite IH. split.
      * intros H key p [Heq | Hin]; [congruence | eauto].
      * intros H key p Hin. eauto.
    + split; [discriminate |].
      intros H. rewrite <- Hq. apply (H k). now left.
Qed.

(** The early returns of [matchFeature] amount to a conjunction, read
    from left to right. *)
Lemma matchFeature_conj (f : FormatFeature) (ext headContent : string) :
  matchFeature f ext headContent
  = Array_includes (extensions f) ext
    && ((negb (nonEmpty (head (signatures f)))
         || matchHeadSignatures headContent (elements (head (signatures f))))
    && ((negb (nonEmpty (requiredFields (signatures f)))
         || matchRequiredFields headContent
              (elements (requiredFields (signatures f))))
    && match fieldPatterns (signatures f) with
       | Some entries => fieldPatterns_loop entries headContent
       | None => true
       end)).
Proof.
  unfold matchFeature.
  destruct (Array_includes (extensions f) ext); simpl; [| reflexivity].
  destruct (nonEmpty (head (signatures f))); simpl;
    [destruct (matchHeadSignatures _ _); simpl; [| reflexivity] |];
    (destruct (nonEmpty (requiredFields (signatures f))); simpl;
     [destruct (matchRequiredFields _ _); simpl |]); reflexivity.
Qed.

Lemma headClause_spec (h : option (list RegExp)) (headContent : string) :
  negb (nonEmpty h) || matchHeadSignatures headContent (elements h) = true
  <-> (forall patterns, h = Some patterns -> patterns <> [] ->
       exists p, In p patterns /\ RegExp_test p headContent = true).
Proof.
  destruct h as [[|p0 ps]|]; cbn [nonEmpty elements negb orb].
  - split; [| reflexivity]. intros _ patterns [= <-] Hne. now elim Hne.
  - rewrite matchHeadSignatures_spec. split.
    + intros H patterns [= <-] _. exact H.
    + intros H. apply (H (p0 :: ps)); [reflexivity | discriminate].
  - split; [| reflexivity]. intros _ patterns [=].
Qed.

Lemma fieldsClause_spec (rf : option (list string)) (headContent : string) :
  negb (nonEmpty rf) || matchRequiredFields headContent (elements rf) = true
  <-> (forall fields, rf = Some fields ->
       forall field, In field fields -> discoverable headContent field).
Proof.
  destruct rf as [[|x l]|]; cbn [nonEmpty elements negb orb].
  - split; [| reflexivity]. intros _ fields [= <-] field [].
  - rewrite matchRequiredFields_spec. split.
    + intros H fields [= <-]. exact H.
    + intros H. now apply H.
  - split; [| reflexivity]. intros _ fields [=].
Qed.

Lemma patternsClause_spec (fp : option (list (string * RegExp)))
    (headContent : string) :
  match fp with
  | Some entries => fieldPatterns_loop entries headContent
  | None => true
  end = true
  <-> (forall entries, fp = Some entries ->
       forall key p, In (key, p) entries -> RegExp_test p headContent = true).
Proof.
  destruct fp as [entries|].
  - rewrite fieldPatterns_loop_spec. split.
    + intros H entries' [= <-]. exact H.
    + intros H. now apply H.
  - split; [| reflexivity]. intros _ entries [=].
Qed.

(** [matchFeature] decides the four checks of the contract. *)
Lemma matchFeature_spec (f : FormatFeature) (ext headContent : string) :
  matchFeature f ext headContent = true <-> passesAllChecks f ext headContent.
Proof.
  rewrite matchFeature_conj. unfold passesAllChecks.
  rewrite !andb_true_iff, Array_includes_In, headClause_spec,
    fieldsClause_spec, patternsClause_spec.
  reflexivity.
Qed.

Lemma matchFeature_false (f : FormatFeature) (ext headContent : string) :
  matchFeature f ext headContent = false
  <-> ~ passesAllChecks f ext headContent.
Proof.
  rewrite <- matchFeature_spec. destruct (matchFeature f ext headContent).
  - split; [discriminate | intros H; now elim H].
  - split; [discriminate | reflexivity].
Qed.

(** ** The scan of the registry *)

(** [find], stated as "the first element that satisfies". *)
Lemma find_firstSuchThat (A : Type) (test : A -> bool) (P : A -> Prop)
    (l : list A) :
  (forall x, test x = true <-> P x) ->
  firstSuchThat P l (find test l).
Proof.
  intros Htest. induction l as [|x l IH]; simpl.
  - constructor.
  - destruct (test x) eqn:Hx.
    + exists [], l. repeat split; [now apply Htest | constructor].
    + assert (Hnot : ~ P x) by (rewrite <- Htest; congruence).
      destruct (find test l) as [y|]; simpl in *.
      * destruct IH as (before & after & -> & Hy & Hbefore).
        exists (x :: before), after. repeat split; auto.
      * now constructor.
Qed.

Lemma sniff_loop_find (modules : list FormatModule) (ext headContent : string) :
  sniff_loop modules ext headContent
  = option_map feature
      (find (fun m => matchFeature (feature m) ext headContent) modules).
Proof.
  induction modules as [|m rest IH]; simpl; [reflexivity |].
  now destruct (matchFeature (feature m) ext headContent).
Qed.

Lemma getParser_loop_find (modules : list FormatModule)
    (ext headContent : string) :
  getParser_loop modules ext headContent
  = option_map parser
      (find (fun m => matchFeature (feature m) ext headContent) modules).
Proof.
  induction modules as [|m rest IH]; simpl; [reflexivity |].
  now destruct (matchFeature (feature m) ext headContent).
Qed.

Lemma find_none_Forall (A : Type) (test : A -> bool) (l : list A) :
  find test l = None <-> Forall (fun x => test x = false) l.
Proof.
  induction l as [|x l IH]; simpl.
  - split; [constructor | reflexivity].
  - destruct (test x) eqn:Hx.
    + split; [discriminate |]. intros H. inversion H; congruence.
    + rewrite IH. split; [now constructor | now inversion 1].
Qed.

(** A registry in which no module passes the checks has no match. *)
Lemma find_rejected (modules : list FormatModule) (ext headContent : string) :
  Forall (fun m => ~ passesAllChecks (feature m) ext headContent) modules ->
  find (fun m => matchFeature (feature m) ext headContent) modules = None.
Proof.
  intros Hnone. apply find_none_Forall.
  eapply Forall_impl; [| exact Hnone]. intros m. apply matchFeature_false.
Qed.

(** What [sniff] and [getParser] return on a readable file. *)
Lemma sniff_readable (fs : FileSystem) (this : FormatSniffer)
    (filePath : string) (file : list byte) :
  fs filePath = Some file ->
  sniff fs filePath this
  = (Ret (sniff_loop (formats this) (getExtension filePath)
            (headWindow file)), this).
Proof.
  intros Hfile. unfold sniff.
  now rewrite (readFileHead_window _ _ Hfile).
Qed.

Lemma getParser_readable (fs : FileSystem) (this : FormatSniffer)
    (filePath : string) (file : list byte) :
  fs filePath = Some file ->
  getParser fs filePath this
  = (Ret (getParser_loop (formats this) (getExtension filePath)
            (headWindow file)), this).
Proof.
  intros Hfile. unfold getParser.
  now rewrite (readFileHead_window _ _ Hfile).
Qed.

(** ** Registration keeps the registry sorted *)

Lemma Array_sort_insert_perm (A : Type) (compare : A -> A -> Z) (x : A)
    (l : list A) :
  Permutation (Array_sort_insert compare x l) (x :: l).
Proof.
  induction l as [|y l IH]; simpl.
  - reflexivity.
  - destruct (compare x y <=? 0)%Z.
    + reflexivity.
    + rewrite IH. apply perm_swap.
Qed.

Lemma Array_sort_perm (A : Type) (compare : A -> A -> Z) (l : list A) :
  Permutation (Array_sort compare l) l.
Proof.
  induction l as [|x l IH]; simpl.
  - reflexivity.
  - rewrite Array_sort_insert_perm. now constructor.
Qed.

Lemma byPriority_le (a b : FormatModule) :
  (byPriority a b <=? 0)%Z = true
  <-> (priority (feature a) <= priority (feature b))%Z.
Proof. unfold byPriority. rewrite Z.leb_le. lia. Qed.

Lemma insert_ascending (x : FormatModule) (l : list FormatModule) :
  ascendingPriority l ->
  ascendingPriority (Array_sort_insert byPriority x l).
Proof.
  unfold ascendingPriority.
  induction 1 as [|y l Hl IH Hy]; simpl.
  - repeat constructor.
  - destruct (byPriority x y <=? 0)%Z eqn:Hxy.
    + apply byPriority_le in Hxy. constructor.
      * now constructor.
      * constructor; [assumption |].
        eapply Forall_impl; [| exact Hy]. cbv beta. intros; lia.
    + assert (Hyx : (priority (feature y) <= priority (feature x))%Z).
      { destruct (Z.le_gt_cases (priority (feature x))
                    (priority (feature y))) as [Hle | Hgt]; [| lia].
        apply byPriority_le in Hle. congruence. }
      constructor; [assumption |].
      eapply Permutation_Forall.
      * symmetry. apply Array_sort_insert_perm.
      * now constructor.
Qed.

Lemma Array_sort_ascending (l : list FormatModule) :
  ascendingPriority (Array_sort byPriority l).
Proof.
  induction l as [|x l IH]; simpl.
  - constructor.
  - now apply insert_ascending.
Qed.

(** Every state of a sniffer holds its modules in ascending priority. *)
Lemma reachable_ascending (this : FormatSniffer) :
  reachable this -> ascendingPriority (formats this).
Proof.
  induction 1 as [|this module _ _]; simpl.
  - constructor.
  - apply Array_sort_ascending.
Qed.

Lemma register_formats (module : FormatModule) (this : FormatSniffer) :
  Permutation (formats (snd (register module this)))
              (formats this ++ [module]).
Proof. simpl. apply Array_sort_perm. Qed.

Lemma registerAll_formats (modules : list FormatModule)
    (this : FormatSniffer) :
  Permutation (formats (snd (registerAll modules this)))
              (formats this ++ modules).
Proof.
  revert this. induction modules as [|m rest IH]; intros this.
  - simpl. now rewrite app_nil_r.
  - cbn [registerAll]. unfold register at 1. cbv beta iota zeta.
    rewrite IH. cbn [formats].
    rewrite Array_sort_perm. now rewrite <- app_assoc.
Qed.

Lemma registerAll_reachable (modules : list FormatModule)
    (this : FormatSniffer) :
  reachable this -> reachable (snd (registerAll modules this)).
Proof.
  revert this. induction modules as [|m rest IH]; intros this Hreach.
  - assumption.
  - cbn [registerAll]. unfold register at 1. cbv beta iota zeta.
    apply IH. apply (reachable_register m Hreach).
Qed.

(** ** The detailed check against the plain one *)

Lemma checkRequiredFieldsDetail_loop_filter (headContent : string)
    (fields acc : list string) :
  checkRequiredFieldsDetail_loop headContent fields acc
  = acc ++ filter (fun field => negb (fieldFound headContent field)) fields.
Proof.
  revert acc. induction fields as [|field rest IH]; intros acc; simpl.
  - now rewrite app_nil_r.
  - destruct (fieldFound headContent field); simpl; rewrite IH.
    + reflexivity.
    + now rewrite <- app_assoc.
Qed.

Lemma checkRequiredFieldsDetail_missing (headContent : string)
    (fields : list string) :
  missing (checkRequiredFieldsDetail headContent fields)
  = filter (fun field => negb (fieldFound headContent field)) fields.
Proof.
  unfold checkRequiredFieldsDetail; simpl.
  now rewrite checkRequiredFieldsDetail_loop_filter.
Qed.

Lemma checkRequiredFieldsDetail_allMatch (headContent : string)
    (fields : list string) :
  allMatch (checkRequiredFieldsDetail headContent fields)
  = matchRequiredFields headContent fields.
Proof.
  unfold checkRequiredFieldsDetail, matchRequiredFields; simpl.
  rewrite checkRequiredFieldsDetail_loop_filter; simpl.
  induction fields as [|field rest IH]; simpl; [reflexivity |].
  destruct (fieldFound headContent field); simpl; [exact IH | reflexivity].
Qed.

Lemma checkFeatureDetail_extensionMatch (f : FormatFeature)
    (ext headContent : string) :
  extensionMatch (checkFeatureDetail f ext headContent)
  = Array_includes (extensions f) ext.
Proof.
  unfold checkFeatureDetail; simpl.
  destruct (Array_includes (extensions f) ext) eqn:Hext; simpl;
    [| reflexivity].
  destruct (nonEmpty (head (signatures f)));
    destruct (nonEmpty (requiredFields (signatures f))); simpl;
    reflexivity.
Qed.

Lemma checkFeatureDetail_formatId (f : FormatFeature)
    (ext headContent : string) :
  formatId (checkFeatureDetail f ext headContent) = id f.
Proof.
  unfold checkFeatureDetail; simpl.
  destruct (Array_includes (extensions f) ext); simpl; [| reflexivity].
  destruct (nonEmpty (head (signatures f)));
    destruct (nonEmpty (requiredFields (signatures f))); reflexivity.
Qed.

(** The detailed check reaches the verdict of [matchFeature]. *)
Lemma checkFeatureDetail_fullMatch (f : FormatFeature)
    (ext headContent : string) :
  fullMatch (checkFeatureDetail f ext headContent)
  = matchFeature f ext headContent.
Proof.
  rewrite matchFeature_conj. unfold checkFeatureDetail.
  cbn -[checkRequiredFieldsDetail].
  destruct (Array_includes (extensions f) ext) eqn:Hext;
    cbn -[checkRequiredFieldsDetail]; [| reflexivity].
  destruct (nonEmpty (head (signatures f)));
    destruct (nonEmpty (requiredFields (signatures f)));
    cbn -[checkRequiredFieldsDetail];
    rewrite ?Hext, ?checkRequiredFieldsDetail_allMatch, <- ?andb_assoc;
    reflexivity.
Qed.

(** The missing fields recorded by the detailed check. *)
Lemma checkFeatureDetail_missingFields (f : FormatFeature)
    (ext headContent : string) (fields : list string) :
  Array_includes (extensions f) ext = true ->
  requiredFields (signatures f) = Some fields ->
  missingFields (checkFeatureDetail f ext headContent)
  = filter (fun field => negb (fieldFound headContent field)) fields.
Proof.
  intros Hext Hfields. unfold checkFeatureDetail.
  cbn -[checkRequiredFieldsDetail].
  rewrite Hext, Hfields; cbn -[checkRequiredFieldsDetail].
  destruct fields as [|x l]; cbn -[checkRequiredFieldsDetail filter].
  - now destruct (nonEmpty (head (signatures f))).
  - rewrite <- checkRequiredFieldsDetail_missing.
    now destruct (nonEmpty (head (signatures f))).
Qed.

(** The loop of [diagnose] from any state of its accumulators. *)
Lemma diagnose_loop_spec (modules : list FormatModule)
    (ext headContent : string) (cs ps : list FormatMatchCheck)
    (mf : option FormatFeature) :
  diagnose_loop modules ext headContent cs ps mf
  = (cs ++ map (fun m => checkFeatureDetail (feature m) ext headContent)
             modules,
     ps ++ filter isPartial
             (map (fun m => checkFeatureDetail (feature m) ext headContent)
                modules),
     match mf with
     | Some f => Some f
     | None => sniff_loop modules ext headContent
     end).
Proof.
  revert cs ps mf.
  induction modules as [|m rest IH]; intros cs ps mf; simpl.
  - rewrite !app_nil_r. now destruct mf.
  - unfold isPartial at 1.
    rewrite <- (checkFeatureDetail_fullMatch (feature m) ext headContent).
    destruct (fullMatch (checkFeatureDetail (feature m) ext headContent))
      eqn:Hfull; simpl.
    + rewrite andb_false_r.
      destruct mf as [f|]; simpl; rewrite IH, <- app_assoc; reflexivity.
    + destruct (extensionMatch
                  (checkFeatureDetail (feature m) ext headContent)); simpl;
        rewrite IH, <- !app_assoc; reflexivity.
Qed.

(** What [diagnose] returns on a readable file. *)
Lemma diagnose_readable (fs : FileSystem) (this : FormatSniffer)
    (filePath : string) (file : list byte) :
  fs filePath = Some file ->
  let ext := getExtension filePath in
  let cs := map (fun m => checkFeatureDetail (feature m) ext (headWindow file))
              (formats this) in
  let mf := sniff_loop (formats this) ext (headWindow file) in
  diagnose fs filePath this
  = (Ret {| recognized := negb (isNull mf);
            matchedFormat := mf;
            checks := cs;
            partialMatches := filter isPartial cs;
            suggestion :=
              generateSuggestion ext (filter isPartial cs) (headWindow file) |},
     this).
Proof.
  intros Hfile. unfold diagnose.
  rewrite (readFileHead_window _ _ Hfile). cbn [Outcome_bind].
  now rewrite diagnose_loop_spec.
Qed.

(** ** Detection *)

(** An unreadable file makes both raise what [openSync] raised. *)
Lemma sniff_getParser_unreadable (fs : FileSystem) (this : FormatSniffer)
    (filePath : string) :
  fs filePath = None ->
  sniff fs filePath this = (Throw (SystemError "open" filePath), this)
  /\ getParser fs filePath this
     = (Throw (SystemError "open" filePath), this).
Proof.
  intros Hfile. unfold sniff, getParser.
  now rewrite (readFileHead_unreadable _ _ _ Hfile).
Qed.

(** ** Diagnosis *)

Lemma diagnose_unreadable (fs : FileSystem) (this : FormatSniffer)
    (filePath : string) :
  fs filePath = None ->
  diagnose fs filePath this = (Throw (SystemError "open" filePath), this).
Proof.
  intros Hfile. unfold diagnose.
  now rewrite (readFileHead_unreadable _ _ _ Hfile).
Qed.

Lemma filter_nothing (A : Type) (test : A -> bool) (l : list A) :
  Forall (fun x => test x = false) l -> filter test l = [].
Proof.
  induction 1 as [|x l Hx _ IH]; simpl; [reflexivity |].
  now rewrite Hx.
Qed.

(** A module that does not accept the extension leaves no partial match. *)
Lemma isPartial_other_extension (modules : list FormatModule)
    (ext headContent : string) :
  Forall (fun m => ~ In ext (extensions (feature m))) modules ->
  filter isPartial
    (map (fun m => checkFeatureDetail (feature m) ext headContent) modules)
  = [].
Proof.
  intros Hnone. apply filter_nothing. apply Forall_map.
  eapply Forall_impl; [| exact Hnone]. intros m Hm. unfold isPartial.
  rewrite checkFeatureDetail_extensionMatch.
  destruct (Array_includes (extensions (feature m)) ext) eqn:Hin;
    [| reflexivity].
  apply Array_includes_In in Hin. contradiction.
Qed.

(** ** The head window decides *)

Lemma headWindow_eq (f1 f2 : list byte) :
  firstn 8192 f1 = firstn 8192 f2 -> headWindow f1 = headWindow f2.
Proof. unfold headWindow. now intros ->. Qed.

(** C8. Two readable files with the same extension and the same first
    8192 bytes get the same answers from [sniff], [getParser] and
    [diagnose], whatever follows these bytes. *)
Theorem detection_reads_head_window_only (this : FormatSniffer)
    (fs1 fs2 : FileSystem) (path1 path2 : string) (file1 file2 : list byte) :
  fs1 path1 = Some file1 ->
  fs2 path2 = Some file2 ->
  getExtension path1 = getExtension path2 ->
  firstn 8192 file1 = firstn 8192 file2 ->
  sniff fs1 path1 this = sniff fs2 path2 this
  /\ getParser fs1 path1 this = getParser fs2 path2 this
  /\ diagnose fs1 path1 this = diagnose fs2 path2 this.
Proof.
  intros H1 H2 Hext Hhead. apply headWindow_eq in Hhead.
  rewrite (sniff_readable _ _ _ H1), (sniff_readable _ _ _ H2),
    (getParser_readable _ _ _ H1), (getParser_readable _ _ _ H2),
    (diagnose_readable _ _ _ H1), (diagnose_readable _ _ _ H2).
  cbv zeta. rewrite Hext, Hhead. repeat split.
Qed.

End SnifferProperties.

(* ================================================================= *)
(** * Properties of the module entry *)

Section IndexProperties.
Context {host : JsHost}.

(** The imported table of format modules. *)
Variable table : list FormatModule.

Lemma sniffer_formats :
  Permutation (formats (Index.sniffer table)) table.
Proof.
  unfold Index.sniffer.
  now rewrite registerAll_formats.
Qed.

Lemma sniffer_Forall (P : FormatModule -> Prop) :
  Forall P table -> Forall P (formats (Index.sniffer table)).
Proof.
  intros H. eapply Permutation_Forall; [| exact H].
  symmetry. apply sniffer_formats.
Qed.

(** ** Strings *)

Lemma prefix_append (b c : string) : String.prefix b (b +++ c) = true.
Proof.
  induction b as [|x b IH]; simpl.
  - now destruct c.
  - destruct (ascii_dec x x) as [_ | Hneq]; [exact IH | now elim Hneq].
Qed.

Lemma String_includes_prefix (s needle : string) :
  String.prefix needle s = true -> String_includes s needle = true.
Proof.
  intros H. destruct s; cbn [String_includes]; rewrite H; reflexivity.
Qed.

Lemma String_includes_append (a s needle : string) :
  String_includes s needle = true ->
  String_includes (a +++ s) needle = true.
Proof.
  intros H. induction a as [|x a IH]; simpl.
  - exact H.
  - rewrite IH. apply orb_true_r.
Qed.

(** ** Unsupported extensions *)

(** C4. For a readable file whose extension no registered module accepts,
    [detectFormat] returns null, and [diagnoseFormat] returns a diagnosis
    without partial matches whose suggestion contains the extension. *)
Theorem unsupported_extension_diagnosis (fs : FileSystem)
    (filePath : string) (file : list byte) :
  fs filePath = Some file ->
  (forall m, In m table ->
     ~ In (getExtension filePath) (extensions (feature m))) ->
  Index.detectFormat table fs filePath = Ret None
  /\ exists d : FormatDiagnosis,
       Index.diagnoseFormat table fs filePath = Ret d
       /\ recognized d = false
       /\ partialMatches d = []
       /\ String_includes (suggestion d) (getExtension filePath) = true.
Proof.
  intros Hfile Hnone.
  assert (Hformats :
    Forall (fun m => ~ In (getExtension filePath) (extensions (feature m)))
      (formats (Index.sniffer table))).
  { apply sniffer_Forall. now apply Forall_forall. }
  assert (Hloop :
    sniff_loop (formats (Index.sniffer table)) (getExtension filePath)
      (headWindow file) = None).
  { rewrite sniff_loop_find, find_rejected; [reflexivity |].
    eapply Forall_impl; [| exact Hformats].
    intros m Hm [Hin _]. contradiction. }
  unfold Index.detectFormat, Index.diagnoseFormat.
  rewrite (sniff_readable _ _ _ Hfile), (diagnose_readable _ _ _ Hfile).
  cbv zeta. cbn [fst].
  rewrite Hloop, (isPartial_other_extension _ _ Hformats).
  split; [reflexivity |].
  eexists. split; [reflexivity |]. cbn [recognized partialMatches suggestion].
  repeat split.
  unfold generateSuggestion.
  apply String_includes_append, String_includes_append.
  apply String_includes_prefix, prefix_append.
Qed.

(** ** Collecting the events *)

(** The loop of [parseFileSync] from any state of its variables. *)
Lemma parseFileSync_loop_spec (s : Stream) (onProgress : bool)
    (meta : option ParsedMeta) (members : list ParsedMember)
    (messages : list ParsedMessage) (reported : list ParseProgress) :
  fst (Index.parseFileSync_loop s onProgress meta members messages reported)
  = match firstError (events s) with
    | Some e => Throw e
    | None =>
        match raised s with
        | Some e => Throw e
        | None =>
            match match lastMeta (events s) with
                  | Some m => Some m
                  | None => meta
                  end with
            | None => Throw (Error "解析失败：未获取到元信息")
            | Some m =>
                Ret {| Index.meta := m;
                       Index.members := members ++ allMembers (events s);
                       Index.messages := messages ++ allMessages (events s) |}
            end
        end
    end.
Proof.
  revert meta members messages reported.
  induction s as [| e | ev rest IH]; intros meta members messages reported.
  - simpl. rewrite !app_nil_r. now destruct meta.
  - reflexivity.
  - destruct ev as [d | d | d | d | d]; simpl; rewrite ?IH.
    + destruct (firstError (events rest)); [reflexivity |].
      destruct (raised rest); [reflexivity |].
      now destruct (lastMeta (events rest)).
    + destruct (firstError (events rest)); [reflexivity |].
      destruct (raised rest); [reflexivity |].
      rewrite <- app_assoc. now destruct (lastMeta (events rest)).
    + destruct (firstError (events rest)); [reflexivity |].
      destruct (raised rest); [reflexivity |].
      rewrite <- app_assoc. now destruct (lastMeta (events rest)).
    + destruct (firstError (events rest)); [reflexivity |].
      destruct (raised rest); [reflexivity |].
      now destruct (lastMeta (events rest)).
    + reflexivity.
Qed.

(** C6. [parseFileSync] collects the events of [parseFile]: without any
    meta event it fails; when the sequence ends normally without an error
    event it returns the last meta with all members batches and all
    messages batches concatenated in emission order; when there is an
    error event it fails with the value of that event. *)
Theorem parseFileSync_collects (fs : FileSystem) (filePath : string)
    (onProgress : bool) :
  let options := {| filePath := filePath; batchSize := None;
                    onProgress := onProgress; onLog := false |} in
  let s := Index.parseFile table options fs in
  let result := fst (Index.parseFileSync table fs filePath onProgress) in
  (lastMeta (events s) = None -> exists e, result = Throw e)
  /\ (firstError (events s) = None -> raised s = None ->
      lastMeta (events s) = None ->
      result = Throw (Error "解析失败：未获取到元信息"))
  /\ (forall m, firstError (events s) = None -> raised s = None ->
      lastMeta (events s) = Some m ->
      result = Ret {| Index.meta := m;
                      Index.members := allMembers (events s);
                      Index.messages := allMessages (events s) |})
  /\ (forall e, firstError (events s) = Some e -> result = Throw e).
Proof.
  intros options s result. unfold result, Index.parseFileSync.
  fold options. fold s. rewrite parseFileSync_loop_spec.
  repeat split.
  - intros Hmeta. rewrite Hmeta.
    destruct (firstError (events s)); [eauto |].
    destruct (raised s); eauto.
  - intros -> -> ->. reflexivity.
  - intros m -> -> ->. reflexivity.
  - intros e ->. reflexivity.
Qed.

(** ** Unrecognized files *)

Lemma parseFile_readable (options : ParseOptions) (fs : FileSystem)
    (file : list byte) :
  fs (filePath options) = Some file ->
  Index.parseFile table options fs
  = match find (fun m => matchFeature (feature m)
                           (getExtension (filePath options))
                           (headWindow file))
            (formats (Index.sniffer table)) with
    | None =>
        Yield (EvError (Error ("无法识别文件格式: " +++ filePath options)))
          Done
    | Some m => parse (parser m) options fs
    end.
Proof.
  intros Hfile. unfold Index.parseFile.
  rewrite (getParser_readable _ _ _ Hfile), getParser_loop_find.
  cbn [fst]. now destruct (find _ _).
Qed.

(** ** Summaries *)



(** A file whose format was detected can be opened. *)
Lemma detectFormat_readable (fs : FileSystem) (filePath : string)
    (r : option FormatFeature) :
  Index.detectFormat table fs filePath = Ret r ->
  exists file, fs filePath = Some file.
Proof.
  unfold Index.detectFormat. intros Hdetect.
  destruct (fs filePath) as [file|] eqn:Hfile; [eauto |].
  destruct (sniff_getParser_unreadable fs (Index.sniffer table) filePath Hfile)
    as [Hsniff _].
  rewrite Hsniff in Hdetect. discriminate.
Qed.


End IndexProperties.

(* ================================================================= *)
(** * The properties on sample inputs *)

Section OnSamples.
Import SampleHost Samples.

(** ** Runs of the model *)

Example registry_order :
  map (fun m => id (feature m)) (formats snifferABT)
  = ["format-b"; "format-a"; "format-t"].
Proof. reflexivity. Qed.

Example extension_is_lowercased :
  getExtension "/data/partial.JSON" = ".json".
Proof. reflexivity. Qed.

Example pattern_source_of_dotted_field :
  fieldPatternSource "meta.name"
  = quoted "meta" +++ "\s*:\s*.*" +++ quoted "name" +++ "\s*:".
Proof. reflexivity. Qed.

Example dotted_field_found :
  fieldFound ("{ " +++ quoted "meta" +++ " : { " +++ quoted "name"
              +++ ": 1 } }") "meta.name" = true.
Proof. vm_compute. reflexivity. Qed.

Example sniff_full_json :
  fst (sniff disk "/data/full.json" snifferABT) = Ret (Some featureA).
Proof. vm_compute. reflexivity. Qed.

Example sniff_head_signature_fails :
  fst (sniff disk "/data/plain.txt" snifferABT) = Ret None.
Proof. vm_compute. reflexivity. Qed.

Example suggestion_for_unknown_extension :
  exists d, fst (diagnose disk "/data/notes.md" snifferABT) = Ret d
            /\ suggestion d
               = "没有找到匹配扩展名 " +++ quoted ".md"
                 +++ " 的格式，请检查文件类型是否正确".
Proof. eexists. split; vm_compute; reflexivity. Qed.

Example suggestion_for_partial_match :
  exists d, fst (diagnose disk "/data/partial.JSON" snifferAT) = Ret d
            /\ suggestion d
               = "文件疑似 Format A 格式，但存在以下问题：缺少必需字段: messages".
Proof. eexists. split; vm_compute; reflexivity. Qed.

Example parseFileInfo_counts :
  fst (Index.parseFileInfo tableABT disk "/data/b.json" true)
  = Ret {| Index.info_name := "group";
           Index.info_format := "Format B";
           Index.info_platform := "platform-a";
           Index.info_messageCount := 3;
           Index.info_memberCount := 1;
           Index.info_fileSize := 24 |}.
Proof. vm_compute. reflexivity. Qed.

Example parseFileSync_reports_progress :
  snd (Index.parseFileSync tableABT disk "/data/b.json" true)
  = [progressHalf].
Proof. vm_compute. reflexivity. Qed.

(** ** The statements above at sample inputs *)

Lemma snifferABT_reachable : reachable snifferABT.
Proof.
  exact (reachable_register moduleB
           (reachable_register moduleT
              (reachable_register moduleA reachable_create))).
Qed.

Lemma detection_reads_head_window_only_witness :
  sniff disk "/data/spaces.json" snifferABT
  = sniff disk "/data/padded.json" snifferABT
  /\ getParser disk "/data/spaces.json" snifferABT
     = getParser disk "/data/padded.json" snifferABT
  /\ diagnose disk "/data/spaces.json" snifferABT
     = diagnose disk "/data/padded.json" snifferABT.
Proof.
  refine (@detection_reads_head_window_only _ snifferABT disk disk
            "/data/spaces.json" "/data/padded.json"
            (repeat x20 8192) paddedBytes eq_refl eq_refl eq_refl _).
  vm_compute. reflexivity.
Defined.


Lemma unsupported_extension_diagnosis_witness :
  Index.detectFormat tableABT disk "/data/notes.md" = Ret None
  /\ exists d : FormatDiagnosis,
       Index.diagnoseFormat tableABT disk "/data/notes.md" = Ret d
       /\ recognized d = false
       /\ partialMatches d = []
       /\ String_includes (suggestion d) ".md" = true.
Proof.
  refine (@unsupported_extension_diagnosis _ tableABT disk "/data/notes.md"
            (list_byte_of_string "# notes") eq_refl _).
  intros m [<- | [<- | [<- | []]]]; cbv;
    intros [H | []]; discriminate H.
Defined.

(** The three outcomes of [parseFileSync]: a sequence with a meta, a
    sequence without one, a sequence with an error event. *)
Lemma parseFileSync_collects_witness :
  fst (Index.parseFileSync tableABT disk "/data/b.json" true)
  = Ret {| Index.meta := metaA;
           Index.members := [memberA];
           Index.messages := [messageA 1; messageA 2; messageA 3] |}
  /\ fst (Index.parseFileSync tableABT disk "/data/full.json" true)
     = Throw (Error "解析失败：未获取到元信息")
  /\ fst (Index.parseFileSync tableABT disk "/data/log.txt" true)
     = Throw (Error "bad record").
Proof.
  split; [| split].
  - exact (proj1 (proj2 (proj2
             (parseFileSync_collects tableABT disk "/data/b.json" true)))
             metaA eq_refl eq_refl eq_refl).
  - exact (proj1 (proj2
             (parseFileSync_collects tableABT disk "/data/full.json" true))
             eq_refl eq_refl eq_refl).
  - exact (proj2 (proj2 (proj2
             (parseFileSync_collects tableABT disk "/data/log.txt" true)))
             (Error "bad record") eq_refl).
Defined.



End OnSamples.

(* ================================================================= *)
(** * More on the registry *)

Section RegistryProperties.
Context {host : JsHost}.

(** A module goes to the front of modules that do not precede it. *)
Lemma insert_at_front (x : FormatModule) (l : list FormatModule) :
  Forall (fun y => (priority (feature x) <= priority (feature y))%Z) l ->
  Array_sort_insert byPriority x l = x :: l.
Proof.
  intros Hall. destruct l as [|y l]; [reflexivity |].
  simpl. inversion Hall as [|? ? Hy _]; subst.
  apply byPriority_le in Hy. now rewrite Hy.
Qed.

(** Sorting a sorted registry changes nothing. *)
Lemma Array_sort_sorted (l : list FormatModule) :
  ascendingPriority l -> Array_sort byPriority l = l.
Proof.
  induction 1 as [|x l Hl IH Hx]; simpl; [reflexivity |].
  rewrite IH. now apply insert_at_front.
Qed.

Lemma filter_everything (A : Type) (test : A -> bool) (l : list A) :
  Forall (fun x => test x = true) l -> filter test l = l.
Proof.
  induction 1 as [|x l Hx _ IH]; simpl; [reflexivity |].
  now rewrite Hx, IH.
Qed.

Lemma register_place (this : FormatSniffer) (module : FormatModule) :
  ascendingPriority (formats this) ->
  formats (snd (register module this))
  = filter (notAfter module) (formats this)
    ++ module :: filter (fun m => negb (notAfter module m)) (formats this).
Proof.
  unfold register; cbn [snd formats]. unfold ascendingPriority.
  induction 1 as [|x l Hl IH Hx]; [reflexivity |].
  cbn [app Array_sort]. rewrite IH. cbn [filter].
  destruct (notAfter module x) eqn:Hxm; unfold notAfter in Hxm.
  - apply Z.leb_le in Hxm. cbn [negb app]. apply insert_at_front.
    apply Forall_app. split.
    + apply Forall_forall. intros y Hy. apply filter_In in Hy.
      rewrite Forall_forall in Hx. now apply Hx.
    + constructor; [assumption |].
      apply Forall_forall. intros y Hy. apply filter_In in Hy.
      rewrite Forall_forall in Hx. now apply Hx.
  - apply Z.leb_gt in Hxm. cbn [negb].
    assert (Hnone : Forall (fun y => notAfter module y = false) l).
    { eapply Forall_impl; [| exact Hx]. cbv beta. intros y Hy.
      unfold notAfter. apply Z.leb_gt. lia. }
    rewrite (filter_nothing _ Hnone).
    rewrite (filter_everything (fun m => negb (notAfter module m))).
    2:{ eapply Forall_impl; [| exact Hnone]. cbv beta.
        intros y ->. reflexivity. }
    cbn [app Array_sort_insert].
    replace (byPriority x module <=? 0)%Z with false.
    + f_equal. now apply insert_at_front.
    + symmetry. unfold byPriority. apply Z.leb_gt. lia.
Qed.

(** X1. [register] on a sorted registry puts the new module behind every
    module whose priority number is lower or equal and ahead of every
    module whose priority number is higher, and keeps the order of the
    others; the registry stays sorted and grows by one. *)
Theorem register_places_by_priority (this : FormatSniffer)
    (module : FormatModule) :
  ascendingPriority (formats this) ->
  formats (snd (register module this))
  = filter (notAfter module) (formats this)
    ++ module :: filter (fun m => negb (notAfter module m)) (formats this)
  /\ ascendingPriority (formats (snd (register module this)))
  /\ List.length (formats (snd (register module this)))
     = S (List.length (formats this)).
Proof.
  intros Hsorted. split; [now apply register_place |]. split.
  - cbn [register snd formats]. apply Array_sort_ascending.
  - rewrite (Permutation_length (register_formats module this)).
    rewrite length_app. cbn [List.length]. lia.
Qed.

(** Two insertions of modules with different priorities commute. *)
Lemma insert_insert (x y : FormatModule) (l : list FormatModule) :
  (priority (feature y) < priority (feature x))%Z ->
  Array_sort_insert byPriority y (Array_sort_insert byPriority x l)
  = Array_sort_insert byPriority x (Array_sort_insert byPriority y l).
Proof.
  intros Hyx.
  assert (Hxy : (byPriority x y <=? 0)%Z = false)
    by (unfold byPriority; apply Z.leb_gt; lia).
  assert (Hyx' : (byPriority y x <=? 0)%Z = true)
    by (unfold byPriority; apply Z.leb_le; lia).
  induction l as [|z l IH].
  - simpl. now rewrite Hxy, Hyx'.
  - cbn [Array_sort_insert].
    destruct (byPriority x z <=? 0)%Z eqn:Hxz.
    + assert (Hyz : (byPriority y z <=? 0)%Z = true).
      { apply Z.leb_le in Hxz. unfold byPriority in *.
        apply Z.leb_le. lia. }
      rewrite Hyz. cbn [Array_sort_insert]. now rewrite Hyx', Hxy, Hxz.
    + cbn [Array_sort_insert].
      destruct (byPriority y z <=? 0)%Z eqn:Hyz.
      * cbn [Array_sort_insert]. now rewrite Hxy, Hxz.
      * cbn [Array_sort_insert]. now rewrite Hxz, IH.
Qed.

Lemma Array_sort_insert_app (x : FormatModule) (l r : list FormatModule) :
  Array_sort byPriority (Array_sort_insert byPriority x l ++ r)
  = Array_sort_insert byPriority x (Array_sort byPriority (l ++ r)).
Proof.
  induction l as [|y l IH]; [reflexivity |].
  cbn [Array_sort_insert].
  destruct (byPriority x y <=? 0)%Z eqn:Hxy; [reflexivity |].
  cbn [app Array_sort]. rewrite IH.
  apply insert_insert. unfold byPriority in Hxy. apply Z.leb_gt in Hxy. lia.
Qed.

(** Sorting a part first does not change the sort of the whole. *)
Lemma Array_sort_app (l r : list FormatModule) :
  Array_sort byPriority (Array_sort byPriority l ++ r)
  = Array_sort byPriority (l ++ r).
Proof.
  induction l as [|x l IH]; [reflexivity |].
  cbn [app Array_sort]. now rewrite Array_sort_insert_app, IH.
Qed.

Lemma registerAll_sort_eq (modules : list FormatModule)
    (this : FormatSniffer) :
  ascendingPriority (formats this) ->
  formats (snd (registerAll modules this))
  = Array_sort byPriority (formats this ++ modules).
Proof.
  revert this. induction modules as [|m rest IH]; intros this Hsorted.
  - cbn [registerAll snd]. rewrite app_nil_r.
    symmetry. now apply Array_sort_sorted.
  - cbn [registerAll]. unfold register at 1. cbv beta iota zeta.
    rewrite IH; cbn [formats].
    + rewrite Array_sort_app. now rewrite <- app_assoc.
    + apply Array_sort_ascending.
Qed.

(** X2. Registering modules one after the other leaves the registry that
    one sort of the old registry followed by the new modules gives; the
    global sniffer holds the imported table, sorted once. *)
Theorem registerAll_sorts_once (modules : list FormatModule)
    (this : FormatSniffer) :
  ascendingPriority (formats this) ->
  formats (snd (registerAll modules this))
  = Array_sort byPriority (formats this ++ modules)
  /\ formats (Index.sniffer modules) = Array_sort byPriority modules.
Proof.
  intros Hsorted. split.
  - now apply registerAll_sort_eq.
  - unfold Index.sniffer. rewrite registerAll_sort_eq; [reflexivity |].
    constructor.
Qed.

(** The modules of one priority, in the order of the list. *)
Lemma insert_same_priority (p : Z) (x : FormatModule)
    (l : list FormatModule) :
  filter (fun m => (priority (feature m) =? p)%Z)
    (Array_sort_insert byPriority x l)
  = filter (fun m => (priority (feature m) =? p)%Z) (x :: l).
Proof.
  induction l as [|y l IH]; [reflexivity |].
  cbn [Array_sort_insert].
  destruct (byPriority x y <=? 0)%Z eqn:Hxy; [reflexivity |].
  unfold byPriority in Hxy. apply Z.leb_gt in Hxy.
  cbn [filter] in *. rewrite IH.
  destruct (priority (feature y) =? p)%Z eqn:Hy;
    destruct (priority (feature x) =? p)%Z eqn:Hx; try reflexivity.
  apply Z.eqb_eq in Hy, Hx. lia.
Qed.

Lemma Array_sort_same_priority (p : Z) (l : list FormatModule) :
  filter (fun m => (priority (feature m) =? p)%Z) (Array_sort byPriority l)
  = filter (fun m => (priority (feature m) =? p)%Z) l.
Proof.
  induction l as [|x l IH]; [reflexivity |].
  cbn [Array_sort]. rewrite insert_same_priority.
  cbn [filter]. now rewrite IH.
Qed.

(** X3. Modules of equal priority stay in the order of their
    registration: after [registerAll], the modules of any one priority
    are those of the old registry followed by the new ones, in order. *)
Theorem registerAll_keeps_order_of_ties (p : Z)
    (modules : list FormatModule) (this : FormatSniffer) :
  ascendingPriority (formats this) ->
  filter (fun m => (priority (feature m) =? p)%Z)
    (formats (snd (registerAll modules this)))
  = filter (fun m => (priority (feature m) =? p)%Z) (formats this)
    ++ filter (fun m => (priority (feature m) =? p)%Z) modules.
Proof.
  intros Hsorted.
  rewrite (registerAll_sort_eq modules _ Hsorted).
  now rewrite Array_sort_same_priority, filter_app.
Qed.

(** ** Looking modules up *)

Lemma find_by_unique_key (A : Type) (key : A -> string) (l : list A)
    (m : A) :
  NoDup (map key l) -> In m l ->
  find (fun x => String.eqb (key x) (key m)) l = Some m.
Proof.
  induction l as [|x l IH]; intros Hnodup Hin; [contradiction |].
  cbn [map] in Hnodup. inversion Hnodup as [|? ? Hfresh Hrest]; subst.
  cbn [find]. destruct Hin as [-> | Hin].
  - now rewrite String.eqb_refl.
  - destruct (String.eqb (key x) (key m)) eqn:Hkey.
    + apply String.eqb_eq in Hkey. elim Hfresh. rewrite Hkey.
      now apply in_map.
    + now apply IH.
Qed.

Lemma find_by_absent_key (A : Type) (key : A -> string) (l : list A)
    (k : string) :
  ~ In k (map key l) ->
  find (fun x => String.eqb (key x) k) l = None.
Proof.
  intros Habsent. apply find_none_Forall. apply Forall_forall.
  intros x Hx. apply String.eqb_neq. intros Heq. apply Habsent.
  rewrite <- Heq. now apply in_map.
Qed.

(** X4. When the ids of the registered features are pairwise distinct,
    [getParserById] returns the parser of each registered module for the
    id of its feature, and null for an id that no registered feature
    has. *)
Theorem getParserById_lookup (this : FormatSniffer) :
  NoDup (map (fun m => id (feature m)) (formats this)) ->
  (forall m, In m (formats this) ->
     getParserById (id (feature m)) this = (Ret (Some (parser m)), this))
  /\ (forall formatId,
        ~ In formatId (map (fun m => id (feature m)) (formats this)) ->
        getParserById formatId this = (Ret None, this)).
Proof.
  intros Hnodup. unfold getParserById. split.
  - intros m Hin.
    now rewrite (find_by_unique_key (fun m => id (feature m)) _ _ Hnodup Hin).
  - intros formatId Habsent.
    now rewrite (find_by_absent_key (fun m => id (feature m)) _ _ Habsent).
Qed.

Lemma StronglySorted_map (A B : Type) (R : B -> B -> Prop) (f : A -> B)
    (l : list A) :
  StronglySorted (fun a b => R (f a) (f b)) l ->
  StronglySorted R (map f l).
Proof.
  induction 1 as [|x l Hl IH Hx]; simpl; constructor; [assumption |].
  apply Forall_map. exact Hx.
Qed.

(** X5. [getSupportedFormats] of the module entry lists the feature of
    every module of the imported table once, in ascending order of
    priority. *)
Theorem getSupportedFormats_lists_table (table : list FormatModule) :
  exists l : list FormatFeature,
    Index.getSupportedFormats table = Ret l
    /\ Permutation l (map feature table)
    /\ StronglySorted (fun a b => (priority a <= priority b)%Z) l
    /\ List.length l = List.length table.
Proof.
  exists (map feature (formats (Index.sniffer table))).
  split; [reflexivity |].
  assert (Hperm : Permutation (formats (Index.sniffer table)) table)
    by apply sniffer_formats.
  split; [now apply Permutation_map |].
  split.
  - apply StronglySorted_map.
    apply (reachable_ascending
             (registerAll_reachable table reachable_create)).
  - rewrite length_map. now apply Permutation_length.
Qed.

End RegistryProperties.

(* ================================================================= *)
(** * More on detection *)

Section DetectionProperties.
Context {host : JsHost}.

(** X6. [sniff] and [getParser] stop at the same module: they return the
    feature and the parser of one module of the registry, or null both,
    or they raise the same exception. *)
Theorem sniff_getParser_same_module (fs : FileSystem)
    (this : FormatSniffer) (filePath : string) :
  match fst (sniff fs filePath this), fst (getParser fs filePath this) with
  | Ret (Some f), Ret (Some q) =>
      exists m, In m (formats this) /\ feature m = f /\ parser m = q
  | Ret None, Ret None => True
  | Throw e, Throw e' => e = e'
  | _, _ => False
  end.
Proof.
  destruct (fs filePath) as [file|] eqn:Hfile.
  - rewrite (sniff_readable _ _ _ Hfile), (getParser_readable _ _ _ Hfile).
    cbn [fst]. rewrite sniff_loop_find, getParser_loop_find.
    destruct (find _ (formats this)) as [m|] eqn:Hfind; cbn [option_map].
    + exists m. apply find_some in Hfind. tauto.
    + exact I.
  - destruct (sniff_getParser_unreadable fs this filePath Hfile)
      as [-> ->].
    reflexivity.
Qed.

Lemma StronglySorted_after (A : Type) (R : A -> A -> Prop)
    (before after : list A) (x : A) :
  StronglySorted R (before ++ x :: after) -> Forall (R x) after.
Proof.
  induction before as [|y before IH]; cbn [app]; intros Hsorted.
  - now inversion Hsorted.
  - inversion Hsorted; subst. now apply IH.
Qed.

(** X7. The feature [sniff] returns has the lowest priority number among
    the registered modules that pass the checks on the file. *)
Theorem sniff_prefers_lower_priority (fs : FileSystem)
    (this : FormatSniffer) (filePath : string) (file : list byte)
    (f : FormatFeature) (m : FormatModule) :
  reachable this ->
  fs filePath = Some file ->
  fst (sniff fs filePath this) = Ret (Some f) ->
  In m (formats this) ->
  passesAllChecks (feature m) (getExtension filePath) (headWindow file) ->
  (priority f <= priority (feature m))%Z.
Proof.
  intros Hreach Hfile Hsniff Hin Hpass.
  rewrite (sniff_readable _ _ _ Hfile), sniff_loop_find in Hsniff.
  cbn [fst] in Hsniff.
  pose proof (find_firstSuchThat
                (fun m => matchFeature (feature m) (getExtension filePath)
                            (headWindow file))
                (fun m => passesAllChecks (feature m) (getExtension filePath)
                            (headWindow file))
                (formats this)
                (fun m => matchFeature_spec (feature m) _ _)) as Hfirst.
  destruct (find _ (formats this)) as [x|]; [| discriminate].
  injection Hsniff as <-.
  destruct Hfirst as (before & after & Hformats & _ & Hbefore).
  rewrite Hformats in Hin. apply in_app_or in Hin.
  destruct Hin as [Hin | [<- | Hin]].
  - rewrite Forall_forall in Hbefore. now elim (Hbefore m Hin).
  - lia.
  - pose proof (reachable_ascending Hreach) as Hsorted.
    unfold ascendingPriority in Hsorted. rewrite Hformats in Hsorted.
    apply StronglySorted_after in Hsorted.
    rewrite Forall_forall in Hsorted. now apply Hsorted.
Qed.

(** ** Registering one more module *)






End DetectionProperties.

(* ================================================================= *)
(** * More on diagnosis *)

Section DiagnosisProperties.
Context {host : JsHost}.



(** X10. Empty lists of signatures count as undeclared: a feature whose
    head patterns and required fields are absent or empty, and whose
    field patterns are absent or without entries, matches every file
    with an accepted extension, whatever the content. *)
Theorem matchFeature_without_signatures (f : FormatFeature)
    (ext headContent : string) :
  nonEmpty (head (signatures f)) = false ->
  nonEmpty (requiredFields (signatures f)) = false ->
  elements (fieldPatterns (signatures f)) = [] ->
  matchFeature f ext headContent = Array_includes (extensions f) ext
  /\ fullMatch (checkFeatureDetail f ext headContent)
     = Array_includes (extensions f) ext.
Proof.
  intros Hhead Hfields Hpatterns.
  rewrite checkFeatureDetail_fullMatch, matchFeature_conj, Hhead, Hfields.
  cbn [negb orb andb].
  destruct (fieldPatterns (signatures f)) as [entries|];
    cbn [elements] in Hpatterns; subst; cbn [fieldPatterns_loop];
    now rewrite andb_true_r.
Qed.



(** ** The text of the suggestion *)










End DiagnosisProperties.

(* ================================================================= *)
(** * More on the module entry *)

Section EntryProperties.
Context {host : JsHost}.

(** The imported table of format modules. *)
Variable table : list FormatModule.

(** ** Callbacks *)

Lemma streamParseFile_loop_spec (s : Stream)
    (calls : list Index.CallbackCall) :
  Index.streamParseFile_loop s calls
  = (ending s, calls ++ Calls.callsOf (beforeError (events s))).
Proof.
  unfold ending. revert calls.
  induction s as [| e | ev rest IH]; intros calls.
  - cbn. now rewrite app_nil_r.
  - cbn. now rewrite app_nil_r.
  - destruct ev as [d | d | d | d | d];
      cbn [Index.streamParseFile_loop events beforeError firstError raised
           Calls.callsOf];
      rewrite ?IH, <- ?app_assoc; try reflexivity.
    now rewrite app_nil_r.
Qed.

(** X14. [streamParseFile] calls one callback per event, in the order of
    emission, up to the first error event: it throws the value of that
    event, or what the sequence raised, and otherwise returns after the
    last event. *)
Theorem streamParseFile_calls (fs : FileSystem) (filePath : string)
    (batchSize : option Z) (onLog : bool) :
  let options :=
    {| filePath := filePath;
       batchSize := Some (match batchSize with
                          | Some n => n
                          | None => 5000%Z
                          end);
       onProgress := true; onLog := onLog |} in
  let s := Index.parseFile table options fs in
  Index.streamParseFile table fs filePath batchSize onLog
  = (ending s, Calls.callsOf (beforeError (events s))).
Proof.
  cbv zeta. unfold Index.streamParseFile.
  now rewrite streamParseFile_loop_spec.
Qed.

(** ** Progress *)

Lemma parseFileSync_loop_reported (s : Stream) (onProgress : bool)
    (meta : option ParsedMeta) (members : list ParsedMember)
    (messages : list ParsedMessage) (reported : list ParseProgress) :
  snd (Index.parseFileSync_loop s onProgress meta members messages reported)
  = reported
    ++ (if onProgress then progressOf (beforeError (events s)) else []).
Proof.
  revert meta members messages reported.
  induction s as [| e | ev rest IH]; intros meta members messages reported.
  - cbn. destruct onProgress; now rewrite app_nil_r.
  - cbn. destruct onProgress; now rewrite app_nil_r.
  - destruct ev as [d | d | d | d | d];
      cbn [Index.parseFileSync_loop events beforeError progressOf snd];
      rewrite ?IH; try reflexivity.
    + destruct onProgress; [| reflexivity]. now rewrite <- app_assoc.
    + destruct onProgress; now rewrite app_nil_r.
Qed.


(** X15. [parseFileSync] hands to [onProgress], when it is supplied, the
    data of every progress event up to the first error event, in order,
    whether it then returns or throws; without the callback nothing is
    reported. *)
Theorem parseFileSync_forwards_progress (fs : FileSystem)
    (filePath : string) (onProgress : bool) :
  let options := {| filePath := filePath; batchSize := None;
                    onProgress := onProgress; onLog := false |} in
  let s := Index.parseFile table options fs in
  snd (Index.parseFileSync table fs filePath onProgress)
  = if onProgress then progressOf (beforeError (events s)) else [].
Proof.
  cbv zeta. unfold Index.parseFileSync.
  now rewrite parseFileSync_loop_reported.
Qed.

(** ** The two projections of one sequence *)








(** ** Preprocessors *)

(** The module behind a detected feature. *)
Lemma detectFormat_module (fs : FileSystem) (filePath : string)
    (f : FormatFeature) :
  Index.detectFormat table fs filePath = Ret (Some f) ->
  exists m, In m table /\ feature m = f.
Proof.
  intros Hdetect.
  destruct (detectFormat_readable table fs filePath Hdetect)
    as [file Hfile].
  unfold Index.detectFormat in Hdetect.
  rewrite (sniff_readable _ _ _ Hfile), sniff_loop_find in Hdetect.
  cbn [fst] in Hdetect.
  destruct (find _ (formats (Index.sniffer table))) as [m|] eqn:Hfind;
    [| discriminate].
  injection Hdetect as <-. exists m. split; [| reflexivity].
  apply find_some in Hfind.
  eapply Permutation_in; [apply sniffer_formats | apply Hfind].
Qed.

(** X18. When the ids of the modules of the imported table are pairwise
    distinct, [getPreprocessor] returns the preprocessor of the module
    whose feature [detectFormat] returns, null when no format is detected,
    and it raises what [detectFormat] raises; [needsPreprocess] answers
    false without asking for the file size when there is no
    preprocessor. *)
Theorem getPreprocessor_of_detected_module
    (preprocessor : FormatModule -> option Index.Preprocessor)
    (getFileSize : FileSystem -> string -> Outcome Z)
    (fs : FileSystem) (filePath : string) :
  NoDup (map (fun m => id (feature m)) table) ->
  match Index.detectFormat table fs filePath with
  | Ret (Some f) =>
      exists m, In m table /\ feature m = f
        /\ Index.getPreprocessor table preprocessor fs filePath
           = Ret (preprocessor m)
        /\ (preprocessor m = None ->
            Index.needsPreprocess table preprocessor getFileSize fs filePath
            = Ret false)
  | Ret None =>
      Index.getPreprocessor table preprocessor fs filePath = Ret None
      /\ Index.needsPreprocess table preprocessor getFileSize fs filePath
         = Ret false
  | Throw e =>
      Index.getPreprocessor table preprocessor fs filePath = Throw e
      /\ Index.needsPreprocess table preprocessor getFileSize fs filePath
         = Throw e
  end.
Proof.
  intros Hnodup.
  destruct (Index.detectFormat table fs filePath) as [[f|]|e] eqn:Hdetect.
  - destruct (detectFormat_module fs filePath Hdetect) as (m & Hin & <-).
    exists m. split; [assumption |]. split; [reflexivity |].
    unfold Index.needsPreprocess, Index.getPreprocessor.
    unfold Index.detectFormat in Hdetect. rewrite Hdetect.
    cbn [Outcome_bind].
    rewrite (find_by_unique_key (fun m => id (feature m)) _ _ Hnodup Hin).
    split; [reflexivity |]. now intros ->.
  - unfold Index.needsPreprocess, Index.getPreprocessor.
    unfold Index.detectFormat in Hdetect. rewrite Hdetect.
    split; reflexivity.
  - unfold Index.needsPreprocess, Index.getPreprocessor.
    unfold Index.detectFormat in Hdetect. rewrite Hdetect.
    split; reflexivity.
Qed.

(** X24. For a file whose format is detected, the events of [parseFile]
    are those of the parser of the module whose feature [detectFormat]
    returns, called with the same options. *)
Theorem parseFile_delegates (options : ParseOptions) (fs : FileSystem)
    (f : FormatFeature) :
  Index.detectFormat table fs (filePath options) = Ret (Some f) ->
  exists m, In m table /\ feature m = f
    /\ Index.parseFile table options fs = parse (parser m) options fs.
Proof.
  intros Hdetect.
  destruct (detectFormat_readable table fs (filePath options) Hdetect)
    as [file Hfile].
  unfold Index.detectFormat in Hdetect.
  rewrite (sniff_readable _ _ _ Hfile), sniff_loop_find in Hdetect.
  cbn [fst] in Hdetect.
  rewrite (parseFile_readable table options fs Hfile).
  destruct (find _ (formats (Index.sniffer table))) as [m|] eqn:Hfind;
    [| discriminate].
  injection Hdetect as <-. exists m.
  split; [| split; reflexivity].
  apply find_some in Hfind.
  eapply Permutation_in; [apply sniffer_formats | apply Hfind].
Qed.

End EntryProperties.

(* ================================================================= *)
(** * The file selection handler *)

Section SelectFileProperties.
Context {host : JsHost}.

Variable table : list FormatModule.
Variable String_of_error : Exn -> string.



(** X19. The handler of ['chat:selectFile'] answers with a selected file
    exactly when the dialog was not canceled, returned a first path, and
    [detectFormat] returns for that path a feature whose name is not
    empty; the reply then holds that path and that name. *)
Theorem selectFile_selects (fs : FileSystem)
    (showOpenDialog : Outcome (bool * list string))
    (path format : string) :
  ChatIpc.selectFile table String_of_error fs showOpenDialog
  = ChatIpc.ReplySelected path format
  <-> exists others f,
        showOpenDialog = Ret (false, path :: others)
        /\ Index.detectFormat table fs path = Ret (Some f)
        /\ name f = format /\ format <> EmptyString.
Proof.
  unfold ChatIpc.selectFile. split.
  - destruct showOpenDialog as [[canceled paths]|e]; cbn [Outcome_bind];
      [| discriminate].
    destruct canceled; [discriminate |].
    destruct paths as [|p others]; [discriminate |].
    destruct (Index.detectFormat table fs p) as [[f|]|e] eqn:Hdetect;
      cbn [Outcome_bind option_map ChatIpc.orNull].
    + destruct (String.eqb (name f) EmptyString) eqn:Hname.
      * destruct (Index.diagnoseFormat table fs p); discriminate.
      * intros [= <- <-]. exists others, f.
        apply String.eqb_neq in Hname. auto.
    + destruct (Index.diagnoseFormat table fs p); discriminate.
    + discriminate.
  - intros (others & f & -> & Hdetect & <- & Hname).
    cbn [Outcome_bind]. rewrite Hdetect.
    cbn [Outcome_bind option_map ChatIpc.orNull].
    apply String.eqb_neq in Hname. now rewrite Hname.
Qed.


End SelectFileProperties.

(* ================================================================= *)
(** * Error texts and keywords *)

Section TextProperties.
Context {host : JsHost}.

(** X21. [translateError] returns its argument or a translation, never
    the bare translation key: an argument that does not start with
    ['error.'] and an argument whose key has no translation come back
    unchanged. *)
Theorem translateError_never_the_key (t : string -> string)
    (error : string) :
  let key := "home.import.errors." +++ String_drop 6 error in
  let shown := ImportArea.translateError t error in
  (shown = error \/ shown = t key)
  /\ (String_startsWith error "error." = false -> shown = error)
  /\ (t key = key -> shown = error)
  /\ (String_startsWith error "error." = true -> shown <> key).
Proof.
  cbv zeta. unfold ImportArea.translateError.
  destruct (String_startsWith error "error.") eqn:Hstart.
  - destruct (String.eqb (t _) _) eqn:Hkey; cbn [negb].
    + apply String.eqb_eq in Hkey. repeat split; auto.
      intros _ Heq. rewrite Heq in Hstart.
      cbn in Hstart. discriminate.
    + apply String.eqb_neq in Hkey. repeat split; auto.
      * discriminate.
      * intros Heq. contradiction.
  - repeat split; auto. discriminate.
Qed.

Section Keywords.

Variable String_split : RegExp -> string -> list string.
Variable String_length : string -> nat.

Lemma Forall_firstn_of (A : Type) (P : A -> Prop) (n : nat) (l : list A) :
  Forall P l -> Forall P (firstn n l).
Proof.
  intros H. revert n. induction H as [|x l Hx _ IH]; intros [|n];
    cbn [firstn]; constructor; auto.
Qed.

Lemma In_firstn_of (A : Type) (x : A) (n : nat) (l : list A) :
  In x (firstn n l) -> In x l.
Proof.
  revert n. induction l as [|y l IH]; intros [|n]; cbn [firstn In];
    try tauto.
  intros [-> | Hin]; [now left | right; eauto].
Qed.

Lemma Forall_filter_of (A : Type) (test : A -> bool) (l : list A) :
  Forall (fun x => test x = true) (filter test l).
Proof.
  apply Forall_forall. intros x Hx. now apply filter_In in Hx.
Qed.

(** X22. [extractKeywords] returns at most five keywords, none of them
    empty. From an answer of the model they are trimmed pieces of the
    answer, each shorter than 20; without a usable answer, or when the
    call raised, they are at most three pieces of the question, each of
    length two or more. *)
Theorem extractKeywords_bounds (chat : Outcome AIChat.ChatResult)
    (question : string) :
  let keywords :=
    AIChat.extractKeywords String_split String_length chat question in
  let answered :=
    match chat with
    | Ret result =>
        AIChat.success result && AIChat.truthy (AIChat.content result)
    | Throw _ => false
    end in
  List.length keywords <= 5
  /\ Forall (fun k => 0 < String_length k) keywords
  /\ (answered = true ->
      Forall (fun k => String_length k < 20) keywords
      /\ forall k, In k keywords ->
           exists piece,
             In piece
               (String_split (RegExp_new "[,，]")
                  match chat with
                  | Ret {| AIChat.content := Some c |} => c
                  | _ => EmptyString
                  end)
             /\ k = String_trim piece)
  /\ (answered = false ->
      List.length keywords <= 3
      /\ Forall (fun k => 2 <= String_length k) keywords
      /\ keywords = AIChat.simpleSplit String_split String_length question).
Proof.
  cbv zeta.
  assert (Hsimple :
    List.length (AIChat.simpleSplit String_split String_length question) <= 3
    /\ Forall (fun k => 2 <= String_length k)
         (AIChat.simpleSplit String_split String_length question)).
  { unfold AIChat.simpleSplit. split; [apply firstn_le_length |].
    apply Forall_firstn_of.
    eapply Forall_impl; [| apply Forall_filter_of]. cbv beta.
    intros k Hk. now apply Nat.leb_le in Hk. }
  destruct Hsimple as [Hlen Hall].
  assert (Hfallback :
    List.length (AIChat.simpleSplit String_split String_length question) <= 5
    /\ Forall (fun k => 0 < String_length k)
         (AIChat.simpleSplit String_split String_length question)).
  { split; [lia |]. eapply Forall_impl; [| exact Hall]. cbv beta.
    intros; lia. }
  unfold AIChat.extractKeywords.
  destruct chat as [result|e].
  2:{ destruct Hfallback. repeat split; auto; discriminate. }
  destruct (AIChat.success result && AIChat.truthy (AIChat.content result)).
  2:{ destruct Hfallback. repeat split; auto; discriminate. }
  match goal with |- context [firstn 5 (filter ?t ?l)] =>
    assert (Hkept : Forall (fun k => t k = true) (firstn 5 (filter t l)))
      by apply Forall_firstn_of, Forall_filter_of;
    assert (Hfrom : forall k, In k (firstn 5 (filter t l)) -> In k l)
      by (intros k Hk; apply In_firstn_of, filter_In in Hk; tauto)
  end.
  cbv beta in Hkept.
  split; [apply firstn_le_length |].
  split.
  { eapply Forall_impl; [| exact Hkept]. cbv beta. intros k Hk.
    apply andb_true_iff in Hk. destruct Hk as [Hk _].
    now apply Nat.ltb_lt in Hk. }
  split; [| discriminate].
  intros _. split.
  - eapply Forall_impl; [| exact Hkept]. cbv beta. intros k Hk.
    apply andb_true_iff in Hk. destruct Hk as [_ Hk].
    now apply Nat.ltb_lt in Hk.
  - intros k Hk. apply Hfrom, in_map_iff in Hk.
    destruct Hk as (piece & <- & Hpiece). exists piece.
    split; [| reflexivity].
    destruct result as [ok [c|]]; exact Hpiece.
Qed.

End Keywords.
End TextProperties.

(* ================================================================= *)
(** * The further properties on sample inputs *)

Section MoreOnSamples.
Import SampleHost Samples MoreSamples.

Lemma snifferAT_reachable : reachable snifferAT.
Proof.
  exact (reachable_register moduleA
           (reachable_register moduleT reachable_create)).
Qed.

Lemma tableABT_ids_distinct :
  NoDup (map (fun m => id (feature m)) tableABT).
Proof.
  repeat constructor; cbn; intuition discriminate.
Qed.

Lemma snifferABT_ids_distinct :
  NoDup (map (fun m => id (feature m)) (formats snifferABT)).
Proof.
  repeat constructor; cbn; intuition discriminate.
Qed.

(** ** Runs of the model *)

Example selectFile_accepts_full_json :
  ChatIpc.selectFile tableABT errorText disk
    (Ret (false, ["/data/full.json"]))
  = ChatIpc.ReplySelected "/data/full.json" "Format A".
Proof. vm_compute. reflexivity. Qed.

Example selectFile_canceled :
  ChatIpc.selectFile tableABT errorText disk
    (Ret (true, ["/data/full.json"]))
  = ChatIpc.ReplyNull.
Proof. reflexivity. Qed.

Example selectFile_missing_file :
  ChatIpc.selectFile tableABT errorText disk
    (Ret (false, ["/data/gone.json"]))
  = ChatIpc.ReplyFailure "Error: open /data/gone.json" None.
Proof. vm_compute. reflexivity. Qed.

Example streamParseFile_run :
  Index.streamParseFile tableABT disk "/data/b.json" None false
  = (Ret tt,
     [Index.OnMeta metaA; Index.OnMembers [memberA];
      Index.OnMessageBatch [messageA 1; messageA 2];
      Index.OnProgress progressHalf;
      Index.OnMessageBatch [messageA 3]]).
Proof. vm_compute. reflexivity. Qed.

Example streamParseFile_stops_at_error :
  Index.streamParseFile tableABT disk "/data/log.txt" None false
  = (Throw (Error "bad record"), [Index.OnMeta metaA]).
Proof. vm_compute. reflexivity. Qed.

Example needsPreprocess_small_file :
  Index.needsPreprocess tableABT preprocessors fileSizes disk
    "/data/full.json" = Ret false.
Proof. vm_compute. reflexivity. Qed.

(** ** The statements above at sample inputs *)

Lemma register_places_by_priority_witness :
  formats (snd (register moduleB snifferAT)) = [moduleB; moduleA; moduleT]
  /\ ascendingPriority (formats (snd (register moduleB snifferAT)))
  /\ List.length (formats (snd (register moduleB snifferAT))) = 3.
Proof.
  exact (register_places_by_priority snifferAT moduleB
           (reachable_ascending snifferAT_reachable)).
Defined.

Lemma registerAll_sorts_once_witness :
  formats (snd (registerAll [moduleB; modulePlain] snifferAT))
  = [moduleB; moduleA; modulePlain; moduleT]
  /\ formats (Index.sniffer [moduleB; modulePlain])
     = [moduleB; modulePlain].
Proof.
  exact (registerAll_sorts_once [moduleB; modulePlain] snifferAT
           (reachable_ascending snifferAT_reachable)).
Defined.

Lemma registerAll_keeps_order_of_ties_witness :
  filter (fun m => (priority (feature m) =? 10)%Z)
    (formats (snd (registerAll [moduleB; modulePlain] snifferAT)))
  = [moduleA; modulePlain].
Proof.
  exact (registerAll_keeps_order_of_ties 10 [moduleB; modulePlain]
           snifferAT (reachable_ascending snifferAT_reachable)).
Defined.

Lemma getParserById_lookup_witness :
  (forall m, In m (formats snifferABT) ->
     getParserById (id (feature m)) snifferABT
     = (Ret (Some (parser m)), snifferABT))
  /\ (forall formatId,
        ~ In formatId (map (fun m => id (feature m)) (formats snifferABT)) ->
        getParserById formatId snifferABT = (Ret None, snifferABT)).
Proof.
  exact (getParserById_lookup snifferABT snifferABT_ids_distinct).
Defined.


Lemma snifferAP_reachable : reachable snifferAP.
Proof.
  exact (reachable_register moduleA
           (reachable_register moduleP reachable_create)).
Qed.

Lemma moduleP_passes_group_json :
  passesAllChecks (feature moduleP) (getExtension "/data/group.json")
    (headWindow (list_byte_of_string groupJson)).
Proof.
  apply matchFeature_spec. vm_compute. reflexivity.
Qed.

(** Both [moduleA] and [moduleP] pass on [/data/group.json]; [sniff]
    returns the feature of [moduleA], whose priority number is the lower
    one. *)
Lemma sniff_prefers_lower_priority_witness :
  (priority featureA <= priority (feature moduleP))%Z.
Proof.
  exact (@sniff_prefers_lower_priority _ diskWithGroup snifferAP
           "/data/group.json" (list_byte_of_string groupJson)
           featureA moduleP snifferAP_reachable eq_refl eq_refl
           (or_intror (or_introl eq_refl)) moduleP_passes_group_json).
Defined.


Lemma matchFeature_without_signatures_witness :
  matchFeature featurePlain ".jsonl" "anything at all"
  = Array_includes (extensions featurePlain) ".jsonl"
  /\ fullMatch (checkFeatureDetail featurePlain ".jsonl" "anything at all")
     = Array_includes (extensions featurePlain) ".jsonl".
Proof.
  exact (@matchFeature_without_signatures _ featurePlain ".jsonl"
           "anything at all" eq_refl eq_refl eq_refl).
Defined.







Lemma getPreprocessor_of_detected_module_witness :
  exists m, In m tableABT /\ feature m = featureA
    /\ Index.getPreprocessor tableABT preprocessors disk "/data/full.json"
       = Ret (preprocessors m)
    /\ (preprocessors m = None ->
        Index.needsPreprocess tableABT preprocessors fileSizes disk
          "/data/full.json" = Ret false).
Proof.
  exact (getPreprocessor_of_detected_module tableABT preprocessors
           fileSizes disk "/data/full.json" tableABT_ids_distinct).
Defined.

Lemma selectFile_selects_witness :
  ChatIpc.selectFile tableABT errorText disk
    (Ret (false, ["/data/full.json"; "/data/b.json"]))
  = ChatIpc.ReplySelected "/data/full.json" "Format A".
Proof.
  apply (proj2 (selectFile_selects tableABT errorText disk
                  (Ret (false, ["/data/full.json"; "/data/b.json"]))
                  "/data/full.json" "Format A")).
  exists ["/data/b.json"], featureA.
  split; [reflexivity |]. split; [reflexivity |].
  split; [reflexivity | discriminate].
Defined.


Example json_hint_run :
  exists d, fst (diagnose diskWithText "/data/text.json" snifferP) = Ret d
            /\ suggestion d = "文件内容不是有效的 JSON 格式".
Proof. eexists. split; vm_compute; reflexivity. Qed.


Lemma parseFile_delegates_witness :
  exists m, In m tableABT /\ feature m = featureA
    /\ Index.parseFile tableABT (optionsFor "/data/full.json") disk
       = parse (parser m) (optionsFor "/data/full.json") disk.
Proof.
  exact (@parseFile_delegates _ tableABT (optionsFor "/data/full.json")
           disk featureA eq_refl).
Defined.

Example translateError_run :
  ImportArea.translateError translations "error.unrecognized_format"
  = "无法识别的文件格式"
  /\ ImportArea.translateError translations "error.unknown" = "error.unknown"
  /\ ImportArea.translateError translations "disk full" = "disk full".
Proof. repeat split. Qed.

Example extractKeywords_run :
  AIChat.extractKeywords splitAtCommas String.length answer "question"
  = ["buy a house"; "price"; "housing"].
Proof. vm_compute. reflexivity. Qed.

Lemma translateError_never_the_key_witness :
  ImportArea.translateError translations "error.unknown" = "error.unknown"
  /\ ImportArea.translateError translations "error.unknown"
     <> "home.import.errors.unknown".
Proof.
  split.
  - exact (proj1 (proj2 (proj2
             (translateError_never_the_key translations "error.unknown")))
             eq_refl).
  - exact (proj2 (proj2 (proj2
             (translateError_never_the_key translations "error.unknown")))
             eq_refl).
Defined.

Lemma extractKeywords_bounds_witness :
  List.length
    (AIChat.extractKeywords splitAtCommas String.length answer "question")
  <= 5
  /\ Forall (fun k => String.length k < 20)
       (AIChat.extractKeywords splitAtCommas String.length answer
          "question").
Proof.
  split.
  - exact (proj1 (@extractKeywords_bounds _ splitAtCommas String.length
                    answer "question")).
  - exact (proj1 (proj1 (proj2 (proj2
             (@extractKeywords_bounds _ splitAtCommas String.length
                answer "question"))) eq_refl)).
Defined.

End MoreOnSamples.

(* ================================================================= *)
(** * Properties of the layer on the regular expressions of the runtime *)

Section RuntimeProperties.
Context {runtime : Runtime.JsRuntime}.
#[local] Existing Instance Runtime.hostOf.

(** ** Reading the head of a file *)

Lemma runtime_readFileHead_regular (d : Runtime.Disk) (filePath : string)
    (file : list byte) :
  d filePath = Runtime.Regular file ->
  Runtime.readFileHead d filePath HEAD_SIZE = Ret (headWindow file).
Proof.
  intros Hfile.
  unfold Runtime.readFileHead, Runtime.fs_openSync, Runtime.fs_readSync_fd.
  rewrite Hfile. cbn [Outcome_bind].
  unfold fs_readSync, Buffer_slice. cbv beta iota zeta.
  rewrite firstn_length_app. reflexivity.
Qed.

Lemma runtime_readFileHead_missing (d : Runtime.Disk) (filePath : string)
    (size : nat) :
  d filePath = Runtime.Missing ->
  Runtime.readFileHead d filePath size = Throw (SystemError "open" filePath).
Proof.
  intros Hfile. unfold Runtime.readFileHead, Runtime.fs_openSync.
  now rewrite Hfile.
Qed.

Lemma runtime_readFileHead_unreadable (d : Runtime.Disk) (filePath : string)
    (size : nat) :
  d filePath = Runtime.Unreadable ->
  Runtime.readFileHead d filePath size = Throw (SystemError "read" filePath).
Proof.
  intros Hfile. unfold Runtime.readFileHead, Runtime.fs_openSync.
  now rewrite Hfile.
Qed.

(** ** One call of [test] *)

(** A match at an index within reach is found by the search. *)
Lemma Pattern_search_hit (p : Runtime.Pattern) (s : string) (fuel i j : nat) :
  Runtime.Pattern_match p s j <> None ->
  i <= j -> j <= i + fuel ->
  Runtime.Pattern_search p s i fuel <> None.
Proof.
  revert i. induction fuel as [|fuel IH]; intros i Hj Hle Hge; simpl.
  - assert (j = i) by lia. subst j.
    now destruct (Runtime.Pattern_match p s i).
  - destruct (Runtime.Pattern_match p s i) eqn:Hi; [discriminate |].
    apply IH; [assumption | | lia].
    destruct (Nat.eq_dec i j) as [-> | Hne]; [congruence | lia].
Qed.

(** What the search finds is a match at an index within reach. *)
Lemma Pattern_search_found (p : Runtime.Pattern) (s : string)
    (fuel i e : nat) :
  Runtime.Pattern_search p s i fuel = Some e ->
  exists j, i <= j /\ j <= i + fuel /\ Runtime.Pattern_match p s j = Some e.
Proof.
  revert i. induction fuel as [|fuel IH]; intros i; simpl.
  - destruct (Runtime.Pattern_match p s i) eqn:Hi; [| discriminate].
    intros [= <-]. exists i. repeat split; [lia | lia | assumption].
  - destruct (Runtime.Pattern_match p s i) eqn:Hi.
    + intros [= <-]. exists i. repeat split; [lia | lia | assumption].
    + intros Hs. destruct (IH _ Hs) as (j & H1 & H2 & H3).
      exists j. repeat split; [lia | lia | assumption].
Qed.

(** Whatever the flags and [lastIndex], a successful [test] has found a
    match somewhere in the subject. *)
Lemma test_true_matchesIn (r : Runtime.RegExpObject) (s : string) :
  fst (Runtime.RegExpObject_test r s) = true ->
  Runtime.matchesIn (Runtime.compiled r) s.
Proof.
  unfold Runtime.RegExpObject_test, Runtime.RegExpBuiltinExec,
    Runtime.matchesIn.
  set (start := if (Runtime.global r || Runtime.sticky r)%bool
                then Runtime.lastIndex r else 0).
  destruct (Nat.ltb (Runtime.String_length s) start) eqn:Hlen;
    [cbn; discriminate |].
  apply Nat.ltb_ge in Hlen.
  destruct (Runtime.sticky r).
  - destruct (Runtime.Pattern_match (Runtime.compiled r) s start) eqn:Hm;
      [| cbn; discriminate].
    intros _. apply (@Pattern_search_hit _ _ _ 0 start); [congruence | lia | lia].
  - destruct (Runtime.Pattern_search (Runtime.compiled r) s start
                (Runtime.String_length s - start)) eqn:Hm;
      [| cbn; discriminate].
    intros _. destruct (@Pattern_search_found _ _ _ _ _ Hm) as (j & H1 & H2 & H3).
    apply (@Pattern_search_hit _ _ _ 0 j); [congruence | lia | lia].
Qed.

(** Without flags, [test] says whether the pattern matches somewhere, and
    leaves the object as it was. *)
Lemma test_flagless (r : Runtime.RegExpObject) (s : string) :
  Runtime.isFlagless r = true ->
  Runtime.RegExpObject_test r s
  = (negb (isNull (Runtime.Pattern_search (Runtime.compiled r) s 0
                     (Runtime.String_length s))), r).
Proof.
  unfold Runtime.isFlagless. intros H.
  apply andb_true_iff in H. destruct H as [Hg Hy].
  apply negb_true_iff in Hg, Hy.
  unfold Runtime.RegExpObject_test, Runtime.RegExpBuiltinExec.
  rewrite Hg, Hy. cbn [orb]. rewrite Nat.sub_0_r.
  assert (Hlt : Nat.ltb (Runtime.String_length s) 0 = false)
    by now apply Nat.ltb_ge, Nat.le_0_l.
  rewrite Hlt.
  now destruct (Runtime.Pattern_search _ _ _ _).
Qed.

Lemma test_flagless_state (r : Runtime.RegExpObject) (s : string) :
  Runtime.isFlagless r = true ->
  snd (Runtime.RegExpObject_test r s) = r.
Proof. intros H. now rewrite (@test_flagless r s H). Qed.

Lemma test_flagless_matchesIn (r : Runtime.RegExpObject) (s : string) :
  Runtime.isFlagless r = true ->
  fst (Runtime.RegExpObject_test r s) = true
  <-> Runtime.matchesIn (Runtime.compiled r) s.
Proof.
  intros H. rewrite (@test_flagless r s H). cbn [fst].
  unfold Runtime.matchesIn.
  destruct (Runtime.Pattern_search _ _ _ _); cbn.
  - split; [discriminate | reflexivity].
  - split; [discriminate | intros Hn; now elim Hn].
Qed.

Lemma isFlagless_flagless (p : Runtime.Pattern) :
  Runtime.isFlagless (Runtime.flagless p) = true.
Proof. reflexivity. Qed.

(** ** The verdicts of the checks *)

(** What a check answers is what the same check answers when each
    pattern is tested as it is at the call: every pattern object is
    tested at most once in a check. *)
Lemma runtime_matchHeadSignatures_verdict (headContent : string)
    (patterns : list Runtime.RegExpObject) :
  fst (Runtime.matchHeadSignatures headContent patterns)
  = matchHeadSignatures headContent patterns.
Proof.
  unfold matchHeadSignatures.
  induction patterns as [|p rest IH]; simpl; [reflexivity |].
  destruct (Runtime.RegExpObject_test p headContent) as [matched p'] eqn:Hp.
  cbn [fst]. destruct matched; cbn [orb]; [reflexivity |].
  destruct (Runtime.matchHeadSignatures headContent rest) as [found rest'].
  exact IH.
Qed.

Lemma runtime_fieldFound_verdict (headContent field : string) :
  Runtime.Pattern_compile (fieldPatternSource field) <> None ->
  Runtime.fieldFound headContent field
  = Ret (fieldFound headContent field).
Proof.
  intros Hvalid. unfold Runtime.fieldFound, fieldFound, Runtime.RegExp_construct.
  cbn [RegExp_new RegExp_test Runtime.hostOf].
  destruct (Runtime.Pattern_compile (fieldPatternSource field));
    [reflexivity | now elim Hvalid].
Qed.

Lemma runtime_matchRequiredFields_verdict (headContent : string)
    (fields : list string) :
  Forall (fun field =>
            Runtime.Pattern_compile (fieldPatternSource field) <> None)
         fields ->
  Runtime.matchRequiredFields headContent fields
  = Ret (matchRequiredFields headContent fields).
Proof.
  unfold matchRequiredFields.
  induction 1 as [|field rest Hfield _ IH]; simpl; [reflexivity |].
  rewrite (@runtime_fieldFound_verdict headContent field Hfield). cbn [Outcome_bind].
  destruct (fieldFound headContent field); [exact IH | reflexivity].
Qed.

Lemma runtime_checkRequiredFieldsDetail_loop_verdict (headContent : string)
    (fields acc : list string) :
  Forall (fun field =>
            Runtime.Pattern_compile (fieldPatternSource field) <> None)
         fields ->
  Runtime.checkRequiredFieldsDetail_loop headContent fields acc
  = Ret (checkRequiredFieldsDetail_loop headContent fields acc).
Proof.
  intros Hvalid. revert acc.
  induction Hvalid as [|field rest Hfield _ IH]; intros acc; simpl;
    [reflexivity |].
  rewrite (@runtime_fieldFound_verdict headContent field Hfield). cbn [Outcome_bind].
  destruct (fieldFound headContent field); cbn [negb]; apply IH.
Qed.

Lemma runtime_checkRequiredFieldsDetail_verdict (headContent : string)
    (fields : list string) :
  Forall (fun field =>
            Runtime.Pattern_compile (fieldPatternSource field) <> None)
         fields ->
  Runtime.checkRequiredFieldsDetail headContent fields
  = Ret (checkRequiredFieldsDetail headContent fields).
Proof.
  intros Hvalid. unfold Runtime.checkRequiredFieldsDetail.
  now rewrite (@runtime_checkRequiredFieldsDetail_loop_verdict headContent fields [] Hvalid).
Qed.

Lemma runtime_fieldPatterns_loop_verdict
    (entries : list (string * Runtime.RegExpObject)) (headContent : string) :
  fst (Runtime.fieldPatterns_loop entries headContent)
  = fieldPatterns_loop entries headContent.
Proof.
  induction entries as [|[key p] rest IH]; simpl; [reflexivity |].
  destruct (Runtime.RegExpObject_test p headContent) as [matched p'] eqn:Hp.
  cbn [fst]. destruct matched; cbn [negb]; [| reflexivity].
  destruct (Runtime.fieldPatterns_loop rest headContent) as [ok rest'].
  exact IH.
Qed.

(** The head check answers, and leaves the rest of the feature alone. *)
Lemma runtime_checkHead_verdict (f : FormatFeature) (headContent : string) :
  fst (Runtime.checkHead f headContent)
  = if nonEmpty (head (signatures f))
    then Some (matchHeadSignatures headContent (elements (head (signatures f))))
    else None.
Proof.
  unfold Runtime.checkHead.
  destruct (nonEmpty (head (signatures f))); [| reflexivity].
  rewrite <- runtime_matchHeadSignatures_verdict.
  now destruct (Runtime.matchHeadSignatures _ _).
Qed.

Lemma runtime_checkHead_keeps (f : FormatFeature) (headContent : string) :
  let f' := snd (Runtime.checkHead f headContent) in
  id f' = id f /\ name f' = name f /\ extensions f' = extensions f
  /\ requiredFields (signatures f') = requiredFields (signatures f)
  /\ fieldPatterns (signatures f') = fieldPatterns (signatures f).
Proof.
  unfold Runtime.checkHead.
  destruct (nonEmpty (head (signatures f))); [| now cbn].
  destruct (Runtime.matchHeadSignatures _ _); now cbn.
Qed.

Lemma runtime_checkFieldPatterns_verdict (f : FormatFeature)
    (headContent : string) :
  fst (Runtime.checkFieldPatterns f headContent)
  = match fieldPatterns (signatures f) with
    | Some entries => fieldPatterns_loop entries headContent
    | None => true
    end.
Proof.
  unfold Runtime.checkFieldPatterns.
  destruct (fieldPatterns (signatures f)) as [entries|]; [| reflexivity].
  rewrite <- runtime_fieldPatterns_loop_verdict.
  now destruct (Runtime.fieldPatterns_loop _ _).
Qed.

(** With field names that are pattern sources, [matchFeature] returns,
    and its verdict is the one of the four checks on the patterns as they
    are at the call. *)
Lemma runtime_matchFeature_verdict (f : FormatFeature)
    (ext headContent : string) :
  Runtime.validFieldNames f ->
  fst (Runtime.matchFeature f ext headContent)
  = Ret (matchFeature f ext headContent).
Proof.
  intros Hvalid. unfold Runtime.validFieldNames in Hvalid.
  unfold Runtime.matchFeature, matchFeature.
  destruct (negb (Array_includes (extensions f) ext)); [reflexivity |].
  pose proof (runtime_checkHead_verdict f headContent) as Hhead.
  destruct (runtime_checkHead_keeps f headContent)
    as (_ & _ & _ & Hfields & Hpatterns).
  destruct (Runtime.checkHead f headContent) as [headMatch f'].
  cbn [fst snd] in *. rewrite Hhead, Hfields.
  destruct (nonEmpty (head (signatures f))); cbn [isFalse andb].
  - destruct (matchHeadSignatures headContent (elements (head (signatures f))));
      cbn [negb]; [| reflexivity].
    destruct (nonEmpty (requiredFields (signatures f))); cbn [andb].
    + rewrite (@runtime_matchRequiredFields_verdict headContent _ Hvalid).
      destruct (matchRequiredFields _ _); cbn [negb]; [| reflexivity].
      pose proof (runtime_checkFieldPatterns_verdict f' headContent) as Hp.
      destruct (Runtime.checkFieldPatterns f' headContent).
      cbn [fst] in *. now rewrite Hp, Hpatterns.
    + pose proof (runtime_checkFieldPatterns_verdict f' headContent) as Hp.
      destruct (Runtime.checkFieldPatterns f' headContent).
      cbn [fst] in *. now rewrite Hp, Hpatterns.
  - destruct (nonEmpty (requiredFields (signatures f))); cbn [andb].
    + rewrite (@runtime_matchRequiredFields_verdict headContent _ Hvalid).
      destruct (matchRequiredFields _ _); cbn [negb]; [| reflexivity].
      pose proof (runtime_checkFieldPatterns_verdict f' headContent) as Hp.
      destruct (Runtime.checkFieldPatterns f' headContent).
      cbn [fst] in *. now rewrite Hp, Hpatterns.
    + pose proof (runtime_checkFieldPatterns_verdict f' headContent) as Hp.
      destruct (Runtime.checkFieldPatterns f' headContent).
      cbn [fst] in *. now rewrite Hp, Hpatterns.
Qed.

Lemma runtime_checkFeatureDetail_verdict (f : FormatFeature)
    (ext headContent : string) :
  Runtime.validFieldNames f ->
  fst (Runtime.checkFeatureDetail f ext headContent)
  = Ret (checkFeatureDetail f ext headContent).
Proof.
  intros Hvalid. unfold Runtime.validFieldNames in Hvalid.
  unfold Runtime.checkFeatureDetail, checkFeatureDetail.
  cbn [extensionMatch].
  destruct (negb (Array_includes (extensions f) ext)); [reflexivity |].
  pose proof (runtime_checkHead_verdict f headContent) as Hhead.
  destruct (runtime_checkHead_keeps f headContent)
    as (_ & _ & _ & Hfields & Hpatterns).
  destruct (Runtime.checkHead f headContent) as [headMatch f'].
  cbn [fst snd] in *. rewrite Hhead, Hfields.
  pose proof (runtime_checkFieldPatterns_verdict f' headContent) as Hp.
  rewrite Hpatterns in Hp.
  destruct (nonEmpty (head (signatures f)));
    destruct (nonEmpty (requiredFields (signatures f)));
    rewrite ?(@runtime_checkRequiredFieldsDetail_verdict headContent _ Hvalid);
    cbn [Outcome_bind];
    destruct (Runtime.checkFieldPatterns f' headContent);
    cbn [fst] in *; rewrite Hp; reflexivity.
Qed.

(** ** The state the checks leave *)

Lemma runtime_matchHeadSignatures_state (headContent : string)
    (patterns : list Runtime.RegExpObject) :
  Forall (fun p => Runtime.isFlagless p = true) patterns ->
  snd (Runtime.matchHeadSignatures headContent patterns) = patterns.
Proof.
  induction 1 as [|p rest Hp _ IH]; simpl; [reflexivity |].
  rewrite (@test_flagless p headContent Hp). cbv beta iota.
  destruct (isNull _); cbn [negb]; [| reflexivity].
  destruct (Runtime.matchHeadSignatures headContent rest).
  cbn [snd] in *. now rewrite IH.
Qed.

Lemma runtime_fieldPatterns_loop_state
    (entries : list (string * Runtime.RegExpObject)) (headContent : string) :
  Forall (fun entry => Runtime.isFlagless (snd entry) = true) entries ->
  snd (Runtime.fieldPatterns_loop entries headContent) = entries.
Proof.
  induction 1 as [|[key p] rest Hp _ IH]; simpl; [reflexivity |].
  cbn [snd] in Hp. rewrite (@test_flagless p headContent Hp). cbv beta iota.
  destruct (isNull _); cbn [negb]; [reflexivity |].
  destruct (Runtime.fieldPatterns_loop rest headContent).
  cbn [snd] in *. now rewrite IH.
Qed.

Lemma runtime_checkHead_state (f : FormatFeature) (headContent : string) :
  Runtime.flaglessPatterns f ->
  snd (Runtime.checkHead f headContent) = f.
Proof.
  intros [Hhead _]. unfold Runtime.checkHead.
  destruct (nonEmpty (head (signatures f))) eqn:Hne; [| reflexivity].
  pose proof (runtime_matchHeadSignatures_state headContent Hhead) as Hs.
  destruct (Runtime.matchHeadSignatures _ _) as [matched patterns].
  cbn [snd] in *. subst patterns.
  destruct f as [i n pf pr e [h rf fp]]. cbn in *.
  destruct h as [l|]; [reflexivity | discriminate].
Qed.

Lemma runtime_checkFieldPatterns_state (f : FormatFeature)
    (headContent : string) :
  Runtime.flaglessPatterns f ->
  snd (Runtime.checkFieldPatterns f headContent) = f.
Proof.
  intros [_ Hpatterns]. unfold Runtime.checkFieldPatterns.
  destruct (fieldPatterns (signatures f)) as [entries|] eqn:Hfp;
    [| reflexivity].
  cbn [elements] in Hpatterns.
  pose proof (runtime_fieldPatterns_loop_state headContent Hpatterns) as Hs.
  destruct (Runtime.fieldPatterns_loop _ _) as [ok entries'].
  cbn [snd] in *. subst entries'.
  destruct f as [i n pf pr e [h rf fp]]. cbn in *. now subst fp.
Qed.

(** With patterns that carry no flag, [matchFeature] leaves the feature
    as it was, also when it throws. *)
Lemma runtime_matchFeature_state (f : FormatFeature)
    (ext headContent : string) :
  Runtime.flaglessPatterns f ->
  snd (Runtime.matchFeature f ext headContent) = f.
Proof.
  intros Hflagless. unfold Runtime.matchFeature.
  destruct (negb (Array_includes (extensions f) ext)); [reflexivity |].
  pose proof (runtime_checkHead_state headContent Hflagless) as Hs.
  destruct (Runtime.checkHead f headContent) as [headMatch f'].
  cbn [snd] in Hs. subst f'.
  destruct (isFalse headMatch); [reflexivity |].
  destruct (if nonEmpty (requiredFields (signatures f))
            then Runtime.matchRequiredFields headContent
                   (elements (requiredFields (signatures f)))
            else Ret true) as [[|]|e]; try reflexivity.
  pose proof (runtime_checkFieldPatterns_state headContent Hflagless) as Hp.
  now destruct (Runtime.checkFieldPatterns f headContent).
Qed.

Lemma runtime_checkFeatureDetail_state (f : FormatFeature)
    (ext headContent : string) :
  Runtime.flaglessPatterns f ->
  snd (Runtime.checkFeatureDetail f ext headContent) = f.
Proof.
  intros Hflagless. unfold Runtime.checkFeatureDetail. cbn [extensionMatch].
  destruct (negb (Array_includes (extensions f) ext)); [reflexivity |].
  pose proof (runtime_checkHead_state headContent Hflagless) as Hs.
  destruct (Runtime.checkHead f headContent) as [headMatch f'].
  cbn [snd] in Hs. subst f'.
  match goal with
  | |- snd (match ?c with _ => _ end) = _ => destruct c as [result|e]
  end; [| reflexivity].
  pose proof (runtime_checkFieldPatterns_state headContent Hflagless) as Hp.
  now destruct (Runtime.checkFieldPatterns f headContent).
Qed.

Lemma set_feature_same (m : FormatModule) :
  Runtime.set_feature (feature m) m = m.
Proof. now destruct m. Qed.

(** On a well-formed feature the two agree in full. *)
Lemma runtime_matchFeature_wellFormed (f : FormatFeature)
    (ext headContent : string) :
  Runtime.wellFormed f ->
  Runtime.matchFeature f ext headContent
  = (Ret (matchFeature f ext headContent), f).
Proof.
  intros [Hvalid Hflagless].
  rewrite (surjective_pairing (Runtime.matchFeature f ext headContent)).
  now rewrite (@runtime_matchFeature_verdict f ext headContent Hvalid),
    (@runtime_matchFeature_state f ext headContent Hflagless).
Qed.

Lemma runtime_checkFeatureDetail_wellFormed (f : FormatFeature)
    (ext headContent : string) :
  Runtime.wellFormed f ->
  Runtime.checkFeatureDetail f ext headContent
  = (Ret (checkFeatureDetail f ext headContent), f).
Proof.
  intros [Hvalid Hflagless].
  rewrite (surjective_pairing (Runtime.checkFeatureDetail f ext headContent)).
  now rewrite (@runtime_checkFeatureDetail_verdict f ext headContent Hvalid),
    (@runtime_checkFeatureDetail_state f ext headContent Hflagless).
Qed.

(** ** The scans of the registry *)

Lemma runtime_sniff_loop_wellFormed (modules : list FormatModule)
    (ext headContent : string) :
  Forall (fun m => Runtime.wellFormed (feature m)) modules ->
  Runtime.sniff_loop modules ext headContent
  = (Ret (sniff_loop modules ext headContent), modules).
Proof.
  induction 1 as [|m rest Hm _ IH]; simpl; [reflexivity |].
  rewrite (@runtime_matchFeature_wellFormed _ ext headContent Hm).
  rewrite set_feature_same.
  destruct (matchFeature (feature m) ext headContent); [reflexivity |].
  now rewrite IH.
Qed.

Lemma runtime_getParser_loop_wellFormed (modules : list FormatModule)
    (ext headContent : string) :
  Forall (fun m => Runtime.wellFormed (feature m)) modules ->
  Runtime.getParser_loop modules ext headContent
  = (Ret (getParser_loop modules ext headContent), modules).
Proof.
  induction 1 as [|m rest Hm _ IH]; simpl; [reflexivity |].
  rewrite (@runtime_matchFeature_wellFormed _ ext headContent Hm).
  rewrite set_feature_same.
  destruct (matchFeature (feature m) ext headContent); [reflexivity |].
  now rewrite IH.
Qed.

Lemma runtime_diagnose_loop_wellFormed (modules : list FormatModule)
    (ext headContent : string) (cs ps : list FormatMatchCheck)
    (mf : option FormatFeature) :
  Forall (fun m => Runtime.wellFormed (feature m)) modules ->
  Runtime.diagnose_loop modules ext headContent cs ps mf
  = (Ret (diagnose_loop modules ext headContent cs ps mf), modules).
Proof.
  intros Hwf. revert cs ps mf.
  induction Hwf as [|m rest Hm _ IH]; intros cs ps mf; simpl;
    [reflexivity |].
  rewrite (@runtime_checkFeatureDetail_wellFormed _ ext headContent Hm).
  rewrite set_feature_same.
  destruct (fullMatch (checkFeatureDetail (feature m) ext headContent)
            && isNull mf);
    [| destruct (extensionMatch
                   (checkFeatureDetail (feature m) ext headContent)
                 && negb (fullMatch
                            (checkFeatureDetail (feature m) ext headContent)))];
    now rewrite IH.
Qed.

(** With field names that are pattern sources, the scan of [getParser]
    returns what the checks select on the patterns as they are at the
    call. *)
Lemma runtime_getParser_loop_verdict (modules : list FormatModule)
    (ext headContent : string) :
  Forall (fun m => Runtime.validFieldNames (feature m)) modules ->
  fst (Runtime.getParser_loop modules ext headContent)
  = Ret (getParser_loop modules ext headContent).
Proof.
  induction 1 as [|m rest Hm _ IH]; simpl; [reflexivity |].
  pose proof (@runtime_matchFeature_verdict _ ext headContent Hm) as Hv.
  destruct (Runtime.matchFeature (feature m) ext headContent) as [v f'].
  cbn [fst] in Hv. subst v.
  destruct (matchFeature (feature m) ext headContent); [reflexivity |].
  now destruct (Runtime.getParser_loop rest ext headContent).
Qed.

Lemma runtime_sniff_loop_verdict (modules : list FormatModule)
    (ext headContent : string) :
  Forall (fun m => Runtime.validFieldNames (feature m)) modules ->
  exists r,
    fst (Runtime.sniff_loop modules ext headContent) = Ret r
    /\ (r = None <-> sniff_loop modules ext headContent = None).
Proof.
  induction 1 as [|m rest Hm _ IH]; simpl.
  - exists None. now split.
  - pose proof (@runtime_matchFeature_verdict _ ext headContent Hm) as Hv.
    destruct (Runtime.matchFeature (feature m) ext headContent) as [v f'].
    cbn [fst] in Hv. subst v.
    destruct (matchFeature (feature m) ext headContent).
    + exists (Some f'). split; [reflexivity |]. split; discriminate.
    + destruct IH as (r & Hr & Hnone).
      destruct (Runtime.sniff_loop rest ext headContent).
      exists r. now split.
Qed.

(** With field names that are pattern sources, the loop of [diagnose]
    returns with one check per module, each made on the patterns as they
    are at the call. *)
Lemma runtime_diagnose_loop_verdict (modules : list FormatModule)
    (ext headContent : string) (cs ps : list FormatMatchCheck)
    (mf : option FormatFeature) :
  Forall (fun m => Runtime.validFieldNames (feature m)) modules ->
  let detail :=
    map (fun m => checkFeatureDetail (feature m) ext headContent) modules in
  exists mf',
    fst (Runtime.diagnose_loop modules ext headContent cs ps mf)
    = Ret (cs ++ detail, ps ++ filter isPartial detail, mf').
Proof.
  intros Hvalid. revert cs ps mf.
  induction Hvalid as [|m rest Hm _ IH]; intros cs ps mf; simpl.
  - exists mf. now rewrite !app_nil_r.
  - pose proof (@runtime_checkFeatureDetail_verdict _ ext headContent Hm)
      as Hv.
    destruct (Runtime.checkFeatureDetail (feature m) ext headContent)
      as [v f'].
    cbn [fst] in Hv. subst v.
    set (c := checkFeatureDetail (feature m) ext headContent).
    unfold isPartial at 1.
    destruct (fullMatch c) eqn:Hfull; cbn [andb negb].
    + rewrite andb_false_r.
      destruct (isNull mf).
      * destruct (IH (cs ++ [c]) ps (Some f')) as (mf' & Hr).
        destruct (Runtime.diagnose_loop rest ext headContent _ _ _).
        exists mf'. cbn [fst] in *. now rewrite Hr, <- app_assoc.
      * destruct (IH (cs ++ [c]) ps mf) as (mf' & Hr).
        destruct (Runtime.diagnose_loop rest ext headContent _ _ _).
        exists mf'. cbn [fst] in *. now rewrite Hr, <- app_assoc.
    + rewrite andb_true_r.
      destruct (extensionMatch c).
      * destruct (IH (cs ++ [c]) (ps ++ [c]) mf) as (mf' & Hr).
        destruct (Runtime.diagnose_loop rest ext headContent _ _ _).
        exists mf'. cbn [fst] in *. now rewrite Hr, <- !app_assoc.
      * destruct (IH (cs ++ [c]) ps mf) as (mf' & Hr).
        destruct (Runtime.diagnose_loop rest ext headContent _ _ _).
        exists mf'. cbn [fst] in *. now rewrite Hr, <- app_assoc.
Qed.

(** With patterns that carry no flag, the loop of [diagnose] leaves the
    modules as they were, also when it throws. *)
Lemma runtime_diagnose_loop_state (modules : list FormatModule)
    (ext headContent : string) (cs ps : list FormatMatchCheck)
    (mf : option FormatFeature) :
  Forall (fun m => Runtime.flaglessPatterns (feature m)) modules ->
  snd (Runtime.diagnose_loop modules ext headContent cs ps mf) = modules.
Proof.
  intros Hflagless. revert cs ps mf.
  induction Hflagless as [|m rest Hm _ IH]; intros cs ps mf; simpl;
    [reflexivity |].
  pose proof (@runtime_checkFeatureDetail_state _ ext headContent Hm) as Hs.
  destruct (Runtime.checkFeatureDetail (feature m) ext headContent)
    as [v f'].
  cbn [snd] in Hs. subst f'. rewrite set_feature_same.
  destruct v as [c|e]; [| reflexivity].
  destruct (fullMatch c && isNull mf);
    [| destruct (extensionMatch c && negb (fullMatch c))].
  - specialize (IH (cs ++ [c]) ps (Some (feature m))).
    destruct (Runtime.diagnose_loop rest ext headContent _ _ _).
    cbn [snd] in *. now rewrite IH.
  - specialize (IH (cs ++ [c]) (ps ++ [c]) mf).
    destruct (Runtime.diagnose_loop rest ext headContent _ _ _).
    cbn [snd] in *. now rewrite IH.
  - specialize (IH (cs ++ [c]) ps mf).
    destruct (Runtime.diagnose_loop rest ext headContent _ _ _).
    cbn [snd] in *. now rewrite IH.
Qed.

(** ** The methods on a readable file *)

Lemma runtime_sniff_wellFormed (d : Runtime.Disk) (this : FormatSniffer)
    (filePath : string) (file : list byte) :
  Forall (fun m => Runtime.wellFormed (feature m)) (formats this) ->
  d filePath = Runtime.Regular file ->
  Runtime.sniff d filePath this
  = (Ret (sniff_loop (formats this) (getExtension filePath)
            (headWindow file)), this).
Proof.
  intros Hwf Hfile. unfold Runtime.sniff.
  rewrite (runtime_readFileHead_regular _ _ Hfile).
  rewrite (runtime_sniff_loop_wellFormed _ _ Hwf).
  now destruct this.
Qed.

Lemma runtime_getParser_wellFormed (d : Runtime.Disk) (this : FormatSniffer)
    (filePath : string) (file : list byte) :
  Forall (fun m => Runtime.wellFormed (feature m)) (formats this) ->
  d filePath = Runtime.Regular file ->
  Runtime.getParser d filePath this
  = (Ret (getParser_loop (formats this) (getExtension filePath)
            (headWindow file)), this).
Proof.
  intros Hwf Hfile. unfold Runtime.getParser.
  rewrite (runtime_readFileHead_regular _ _ Hfile).
  rewrite (runtime_getParser_loop_wellFormed _ _ Hwf).
  now destruct this.
Qed.

Lemma runtime_diagnose_wellFormed (d : Runtime.Disk) (this : FormatSniffer)
    (filePath : string) (file : list byte) :
  Forall (fun m => Runtime.wellFormed (feature m)) (formats this) ->
  d filePath = Runtime.Regular file ->
  Runtime.diagnose d filePath this
  = diagnose (Runtime.fsOf d) filePath this.
Proof.
  intros Hwf Hfile. unfold Runtime.diagnose, diagnose.
  rewrite (runtime_readFileHead_regular _ _ Hfile).
  assert (Hfs : Runtime.fsOf d filePath = Some file)
    by (unfold Runtime.fsOf; now rewrite Hfile).
  rewrite (readFileHead_window _ _ Hfs).
  rewrite (runtime_diagnose_loop_wellFormed _ _ _ _ _ Hwf).
  cbn [Outcome_bind]. now destruct this.
Qed.

(** ** The checks, whatever the state of the pattern objects *)

Lemma runtime_discoverable_iff (headContent field : string) :
  Runtime.Pattern_compile (fieldPatternSource field) <> None ->
  discoverable headContent field <-> Runtime.discoverable headContent field.
Proof.
  intros Hvalid. unfold discoverable, Runtime.discoverable.
  cbn [RegExp_new RegExp_test Runtime.hostOf].
  destruct (Runtime.Pattern_compile (fieldPatternSource field)) as [p|];
    [| now elim Hvalid].
  rewrite (@test_flagless_matchesIn (Runtime.flagless p) headContent
             (isFlagless_flagless p)).
  cbn [Runtime.compiled Runtime.flagless].
  split; (intros [H | H]; [left | now right]).
  - now exists p.
  - destruct H as (q & [= <-] & Hq). exact Hq.
Qed.

(** A feature that passes on the patterns as they are passes whatever
    their state. *)
Lemma runtime_passes_sound (f : FormatFeature) (ext headContent : string) :
  Runtime.validFieldNames f ->
  passesAllChecks f ext headContent ->
  Runtime.passesAllChecks f ext headContent.
Proof.
  intros Hvalid (Hext & Hhead & Hfields & Hpatterns).
  unfold Runtime.validFieldNames in Hvalid. rewrite Forall_forall in Hvalid.
  split; [exact Hext |]. split; [| split].
  - intros patterns Hsome Hne.
    destruct (Hhead patterns Hsome Hne) as (p & Hin & Hp).
    exists p. split; [exact Hin |]. now apply test_true_matchesIn.
  - intros fields Hsome field Hin.
    apply runtime_discoverable_iff.
    + apply Hvalid. now rewrite Hsome.
    + now apply (Hfields fields).
  - intros entries Hsome key p Hin.
    apply test_true_matchesIn. now apply (Hpatterns entries Hsome key).
Qed.

Lemma runtime_passes_iff (f : FormatFeature) (ext headContent : string) :
  Runtime.wellFormed f ->
  passesAllChecks f ext headContent
  <-> Runtime.passesAllChecks f ext headContent.
Proof.
  intros [Hvalid [Hflagh Hflagp]]. split; [now apply runtime_passes_sound |].
  intros (Hext & Hhead & Hfields & Hpatterns).
  unfold Runtime.validFieldNames in Hvalid.
  rewrite Forall_forall in Hvalid, Hflagh, Hflagp.
  split; [exact Hext |]. split; [| split].
  - intros patterns Hsome Hne.
    destruct (Hhead patterns Hsome Hne) as (p & Hin & Hp).
    exists p. split; [exact Hin |].
    cbn [RegExp_test Runtime.hostOf].
    apply test_flagless_matchesIn; [| exact Hp].
    apply Hflagh. now rewrite Hsome.
  - intros fields Hsome field Hin.
    apply runtime_discoverable_iff.
    + apply Hvalid. now rewrite Hsome.
    + now apply (Hfields fields).
  - intros entries Hsome key p Hin.
    cbn [RegExp_test Runtime.hostOf].
    apply test_flagless_matchesIn; [| now apply (Hpatterns entries Hsome key)].
    apply (Hflagp (key, p)). now rewrite Hsome.
Qed.

(** On a well-formed feature [matchFeature] decides the four checks. *)
Lemma runtime_matchFeature_spec (f : FormatFeature) (ext headContent : string) :
  Runtime.wellFormed f ->
  matchFeature f ext headContent = true
  <-> Runtime.passesAllChecks f ext headContent.
Proof.
  intros Hwf. rewrite matchFeature_spec. now apply runtime_passes_iff.
Qed.

(** A feature that does not pass is rejected, whatever the state of its
    patterns. *)
Lemma runtime_matchFeature_rejects (f : FormatFeature)
    (ext headContent : string) :
  Runtime.validFieldNames f ->
  ~ Runtime.passesAllChecks f ext headContent ->
  matchFeature f ext headContent = false.
Proof.
  intros Hvalid Hnot.
  destruct (matchFeature f ext headContent) eqn:Hm; [| reflexivity].
  elim Hnot. apply runtime_passes_sound; [assumption |].
  now apply matchFeature_spec.
Qed.

Lemma runtime_find_rejected (modules : list FormatModule)
    (ext headContent : string) :
  Forall (fun m => Runtime.validFieldNames (feature m)) modules ->
  Forall (fun m => ~ Runtime.passesAllChecks (feature m) ext headContent)
         modules ->
  find (fun m => matchFeature (feature m) ext headContent) modules = None.
Proof.
  intros Hvalid Hnone. apply find_none_Forall.
  rewrite Forall_forall in *. intros m Hin.
  apply runtime_matchFeature_rejects; auto.
Qed.

(** The first element that satisfies, found by [find]. *)
Lemma find_first (A : Type) (test : A -> bool) (P : A -> Prop)
    (l : list A) (r : option A) :
  (forall x, In x l -> (test x = true <-> P x)) ->
  firstSuchThat P l r -> find test l = r.
Proof.
  revert r. induction l as [|y l IH]; intros r Htest Hfirst.
  - destruct r as [x|]; [| reflexivity].
    destruct Hfirst as (before & after & Heq & _).
    now destruct before.
  - cbn [find].
    assert (Hy : test y = true <-> P y) by (apply Htest; now left).
    assert (Hl : forall x, In x l -> (test x = true <-> P x))
      by (intros x Hx; apply Htest; now right).
    destruct (test y) eqn:Hty.
    + assert (Py : P y) by now apply Hy.
      destruct r as [x|].
      * destruct Hfirst as (before & after & Heq & _ & Hbefore).
        destruct before as [|z before]; cbn in Heq; injection Heq as <- _.
        -- reflexivity.
        -- inversion Hbefore; contradiction.
      * inversion Hfirst; contradiction.
    + assert (Py : ~ P y) by (intros HP; apply Hy in HP; discriminate).
      apply IH; [exact Hl |].
      destruct r as [x|].
      * destruct Hfirst as (before & after & Heq & Px & Hbefore).
        destruct before as [|z before]; cbn in Heq; injection Heq as <- Heq.
        -- contradiction.
        -- exists before, after. inversion Hbefore; subst. now repeat split.
      * now inversion Hfirst.
Qed.

(** [find] gives a first element that satisfies. *)
Lemma find_firstSuchThat_in (A : Type) (test : A -> bool) (P : A -> Prop)
    (l : list A) :
  (forall x, In x l -> (test x = true <-> P x)) ->
  firstSuchThat P l (find test l).
Proof.
  induction l as [|x l IH]; intros Htest; cbn [find].
  - constructor.
  - assert (Hx : test x = true <-> P x) by (apply Htest; now left).
    assert (Hl : forall y, In y l -> (test y = true <-> P y))
      by (intros y Hy; apply Htest; now right).
    specialize (IH Hl).
    destruct (test x) eqn:Htx.
    + exists [], l. repeat split; [now apply Hx | constructor].
    + assert (Hnot : ~ P x) by (intros HP; apply Hx in HP; discriminate).
      destruct (find test l) as [y|]; cbn in *.
      * destruct IH as (before & after & -> & Hy & Hbefore).
        exists (x :: before), after. repeat split; auto.
      * now constructor.
Qed.

Lemma registerAll_wellFormed (P : FormatModule -> Prop)
    (modules : list FormatModule) :
  Forall P modules ->
  Forall P (formats (snd (registerAll modules createSniffer))).
Proof.
  intros H. eapply Permutation_Forall; [| exact H].
  symmetry. exact (registerAll_formats modules createSniffer).
Qed.

(** ** Detection *)

(** C1, as the code has it. Let the modules passed to [registerAll] have
    patterns without the [g] and [y] flags and required field names that
    are pattern sources. The registry then holds exactly these modules, in
    ascending order of priority, and on a readable file [sniff] lowercases
    the extension of the path, reads the head window (the first 8192
    bytes, decoded), returns the feature of the first module of the
    registry that passes the four checks, or null when none does, and
    leaves the registry as it was. *)
Theorem sniff_first_registered_match (d : Runtime.Disk)
    (modules : list FormatModule) (filePath : string) (file : list byte) :
  let this := snd (registerAll modules createSniffer) in
  let ext := String_toLowerCase (path_extname filePath) in
  let passes := fun m : FormatModule =>
    Runtime.passesAllChecks (feature m) ext (headWindow file) in
  Forall (fun m => Runtime.wellFormed (feature m)) modules ->
  d filePath = Runtime.Regular file ->
  Permutation (formats this) modules
  /\ ascendingPriority (formats this)
  /\ (exists r, firstSuchThat passes (formats this) r)
  /\ (forall r, firstSuchThat passes (formats this) r ->
       Runtime.sniff d filePath this = (Ret (option_map feature r), this)).
Proof.
  intros this ext passes Hwf Hfile.
  assert (Hthis : Forall (fun m => Runtime.wellFormed (feature m))
                    (formats this))
    by now apply registerAll_wellFormed.
  assert (Hdecides : forall m, In m (formats this) ->
            (matchFeature (feature m) ext (headWindow file) = true
             <-> passes m)).
  { intros m Hin. apply runtime_matchFeature_spec.
    rewrite Forall_forall in Hthis. now apply Hthis. }
  split; [exact (registerAll_formats modules createSniffer) |].
  split; [apply reachable_ascending, registerAll_reachable; constructor |].
  split.
  - exists (find (fun m => matchFeature (feature m) ext (headWindow file))
              (formats this)).
    now apply find_firstSuchThat_in.
  - intros r Hfirst.
    rewrite (@runtime_sniff_wellFormed d this filePath file Hthis Hfile),
      sniff_loop_find.
    unfold getExtension. fold ext.
    now rewrite (@find_first _ _ passes (formats this) r Hdecides Hfirst).
Qed.

Lemma runtime_sniff_returns (d : Runtime.Disk) (this : FormatSniffer)
    (filePath : string) (file : list byte) :
  Forall (fun m => Runtime.validFieldNames (feature m)) (formats this) ->
  d filePath = Runtime.Regular file ->
  exists r this',
    Runtime.sniff d filePath this = (Ret r, this')
    /\ (r = None <-> sniff_loop (formats this) (getExtension filePath)
                       (headWindow file) = None).
Proof.
  intros Hvalid Hfile. unfold Runtime.sniff.
  rewrite (runtime_readFileHead_regular _ _ Hfile).
  destruct (runtime_sniff_loop_verdict (getExtension filePath)
              (headWindow file) Hvalid) as (r & Hr & Hnone).
  destruct (Runtime.sniff_loop _ _ _) as [v modules'].
  cbn [fst] in Hr. subst v. eauto.
Qed.

Lemma runtime_getParser_returns (d : Runtime.Disk) (this : FormatSniffer)
    (filePath : string) (file : list byte) :
  Forall (fun m => Runtime.validFieldNames (feature m)) (formats this) ->
  d filePath = Runtime.Regular file ->
  exists this',
    Runtime.getParser d filePath this
    = (Ret (getParser_loop (formats this) (getExtension filePath)
              (headWindow file)), this').
Proof.
  intros Hvalid Hfile. unfold Runtime.getParser.
  rewrite (runtime_readFileHead_regular _ _ Hfile).
  pose proof (runtime_getParser_loop_verdict (getExtension filePath)
                (headWindow file) Hvalid) as Hr.
  destruct (Runtime.getParser_loop _ _ _) as [v modules'].
  cbn [fst] in Hr. subst v. eauto.
Qed.

(** C2, as the code has it. On a readable file and a registry whose
    required field names are pattern sources, [sniff] and [getParser]
    return without throwing, and they return null when no module of the
    registry passes the checks. On a path that cannot be opened both raise
    the exception of [openSync], and on one that opens and cannot be read
    the exception of [readSync]. *)
Theorem sniff_getParser_outcomes (d : Runtime.Disk) (this : FormatSniffer)
    (filePath : string) :
  (forall file, d filePath = Runtime.Regular file ->
     Forall (fun m => Runtime.validFieldNames (feature m)) (formats this) ->
     (exists r this', Runtime.sniff d filePath this = (Ret r, this'))
     /\ (exists r this', Runtime.getParser d filePath this = (Ret r, this'))
     /\ (Forall
           (fun m => ~ Runtime.passesAllChecks (feature m)
                         (getExtension filePath) (headWindow file))
           (formats this) ->
         fst (Runtime.sniff d filePath this) = Ret None
         /\ fst (Runtime.getParser d filePath this) = Ret None))
  /\ (d filePath = Runtime.Missing ->
      Runtime.sniff d filePath this
      = (Throw (SystemError "open" filePath), this)
      /\ Runtime.getParser d filePath this
         = (Throw (SystemError "open" filePath), this))
  /\ (d filePath = Runtime.Unreadable ->
      Runtime.sniff d filePath this
      = (Throw (SystemError "read" filePath), this)
      /\ Runtime.getParser d filePath this
         = (Throw (SystemError "read" filePath), this)).
Proof.
  split; [| split].
  - intros file Hfile Hvalid.
    destruct (@runtime_sniff_returns d this filePath file Hvalid Hfile)
      as (r & this1 & Hsniff & Hnone).
    destruct (@runtime_getParser_returns d this filePath file Hvalid Hfile) as (this2 & Hget).
    split; [eauto |]. split; [eauto |].
    intros Hrejected. rewrite Hsniff, Hget. cbn [fst].
    pose proof (@runtime_find_rejected _ _ _ Hvalid Hrejected) as Hfind.
    split.
    + f_equal. apply Hnone. now rewrite sniff_loop_find, Hfind.
    + now rewrite getParser_loop_find, Hfind.
  - intros Hfile. unfold Runtime.sniff, Runtime.getParser.
    now rewrite (runtime_readFileHead_missing _ _ _ Hfile).
  - intros Hfile. unfold Runtime.sniff, Runtime.getParser.
    now rewrite (runtime_readFileHead_unreadable _ _ _ Hfile).
Qed.

(** ** Diagnosis *)

(** C3, as the code has it. On a readable file and a registry whose
    patterns carry no [g] or [y] flag and whose required field names are
    pattern sources, [diagnose] agrees with [sniff]: both return and leave
    the registry as it was, [diagnose] reports recognition exactly when
    [sniff] returns a feature, its matched format is that feature, it
    holds one check per module of the registry, in order, and its partial
    matches are the checks whose extension matched while the whole did
    not. *)
Theorem diagnose_and_sniff_agree (d : Runtime.Disk) (this : FormatSniffer)
    (filePath : string) (file : list byte) :
  Forall (fun m => Runtime.wellFormed (feature m)) (formats this) ->
  d filePath = Runtime.Regular file ->
  exists (dg : FormatDiagnosis) (r : option FormatFeature),
    Runtime.diagnose d filePath this = (Ret dg, this)
    /\ Runtime.sniff d filePath this = (Ret r, this)
    /\ (recognized dg = true <-> r <> None)
    /\ matchedFormat dg = r
    /\ Forall2
         (fun m c =>
            Runtime.checkFeatureDetail (feature m) (getExtension filePath)
              (headWindow file) = (Ret c, feature m))
         (formats this) (checks dg)
    /\ List.length (checks dg) = List.length (formats this)
    /\ partialMatches dg
       = filter (fun c => extensionMatch c && negb (fullMatch c)) (checks dg).
Proof.
  intros Hwf Hfile.
  assert (Hfs : Runtime.fsOf d filePath = Some file)
    by (unfold Runtime.fsOf; now rewrite Hfile).
  eexists. eexists.
  rewrite (@runtime_diagnose_wellFormed d this filePath file Hwf Hfile),
    (diagnose_readable _ _ _ Hfs), (@runtime_sniff_wellFormed d this filePath file Hwf Hfile).
  split; [reflexivity |]. split; [reflexivity |].
  cbn [recognized matchedFormat checks partialMatches].
  split; [| split; [| split; [| split]]].
  - destruct (sniff_loop _ _ _); cbn; split;
      try discriminate; try reflexivity; intros H; now elim H.
  - reflexivity.
  - induction Hwf as [|m rest Hm _ IH]; cbn [map]; constructor.
    + now apply runtime_checkFeatureDetail_wellFormed.
    + exact IH.
  - now rewrite length_map.
  - reflexivity.
Qed.

Lemma runtime_diagnose_returns (d : Runtime.Disk) (this : FormatSniffer)
    (filePath : string) (file : list byte) :
  Forall (fun m => Runtime.validFieldNames (feature m)) (formats this) ->
  d filePath = Runtime.Regular file ->
  exists dg this',
    Runtime.diagnose d filePath this = (Ret dg, this')
    /\ checks dg
       = map (fun m => checkFeatureDetail (feature m) (getExtension filePath)
                         (headWindow file)) (formats this)
    /\ partialMatches dg = filter isPartial (checks dg).
Proof.
  intros Hvalid Hfile. unfold Runtime.diagnose.
  rewrite (runtime_readFileHead_regular _ _ Hfile).
  destruct (@runtime_diagnose_loop_verdict (formats this)
              (getExtension filePath) (headWindow file) [] [] None Hvalid)
    as (mf & Hr).
  destruct (Runtime.diagnose_loop _ _ _ _ _ _) as [v modules'].
  cbn [fst] in Hr. subst v. cbn [Outcome_bind app].
  eexists. eexists. split; [reflexivity |].
  cbn [checks partialMatches]. split; reflexivity.
Qed.

Lemma filter_nil_iff (A : Type) (test : A -> bool) (l : list A) :
  filter test l = [] <-> Forall (fun x => test x = false) l.
Proof.
  split; [| apply filter_nothing].
  induction l as [|x l IH]; simpl; [constructor |].
  destruct (test x) eqn:Hx; [discriminate |].
  intros H. constructor; auto.
Qed.

Lemma filter_around (A : Type) (test : A -> bool) (l l' : list A) (x : A) :
  test x = true ->
  filter test (l ++ x :: l') = filter test l ++ x :: filter test l'.
Proof.
  intros Hx. rewrite filter_app. cbn [filter]. now rewrite Hx.
Qed.

(** The checks of modules whose field names are pattern sources. *)
Lemma checkOf_map (file : list byte) (modules : list FormatModule) :
  (forall m, In m modules -> Runtime.validFieldNames (feature m)) ->
  Forall2 (Runtime.checkOf file) modules
    (map (fun m => checkFeatureDetail (feature m) ".json" (headWindow file))
         modules).
Proof.
  induction modules as [|m rest IH]; intros Hvalid; cbn [map]; constructor.
  - unfold Runtime.checkOf.
    apply runtime_checkFeatureDetail_verdict. apply Hvalid. now left.
  - apply IH. intros m' H. apply Hvalid. now right.
Qed.

(** C5, as the code has it. Let the file be readable with extension
    [.json], let the required field names of the registry be pattern
    sources, and let a module of the registry accept [.json] and declare
    two required field names of which one is discoverable in the head
    window and the other is not. Then [diagnose] returns with the checks
    of the modules of the registry, in order; the check of that module is
    among its partial matches with the undiscoverable name alone as its
    missing fields; and the partial matches are that check alone exactly
    when no check of another module of the registry is a partial match. *)
Theorem diagnose_missing_field_entry (d : Runtime.Disk)
    (this : FormatSniffer) (filePath : string) (file : list byte)
    (m : FormatModule) (before after : list FormatModule)
    (a b found lost : string) :
  Forall (fun m' => Runtime.validFieldNames (feature m')) (formats this) ->
  d filePath = Runtime.Regular file ->
  getExtension filePath = ".json" ->
  formats this = before ++ m :: after ->
  In ".json" (extensions (feature m)) ->
  requiredFields (signatures (feature m)) = Some [a; b] ->
  (found = a /\ lost = b) \/ (found = b /\ lost = a) ->
  Runtime.discoverable (headWindow file) found ->
  ~ Runtime.discoverable (headWindow file) lost ->
  exists (dg : FormatDiagnosis) (this' : FormatSniffer)
         (cb : list FormatMatchCheck) (c : FormatMatchCheck)
         (ca : list FormatMatchCheck),
    Runtime.diagnose d filePath this = (Ret dg, this')
    /\ checks dg = cb ++ c :: ca
    /\ Forall2 (Runtime.checkOf file) before cb
    /\ Forall2 (Runtime.checkOf file) after ca
    /\ Runtime.checkOf file m c
    /\ formatId c = id (feature m)
    /\ missingFields c = [lost]
    /\ partialMatches dg = filter isPartial cb ++ c :: filter isPartial ca
    /\ (List.length (partialMatches dg) = 1
        <-> Forall (fun c' => isPartial c' = false) (cb ++ ca)).
Proof.
  intros Hvalid Hfile Hext Hformats Hin Hfields Hnames Hfound Hlost.
  rewrite Forall_forall in Hvalid.
  assert (Hm : Runtime.validFieldNames (feature m)).
  { apply Hvalid. rewrite Hformats. apply in_or_app. right. now left. }
  assert (Hsources : forall field, In field [a; b] ->
            Runtime.Pattern_compile (fieldPatternSource field) <> None).
  { unfold Runtime.validFieldNames in Hm. rewrite Hfields in Hm.
    cbn [elements] in Hm. now rewrite Forall_forall in Hm. }
  assert (Hf : In found [a; b] /\ In lost [a; b]).
  { destruct Hnames as [[-> ->] | [-> ->]]; cbn; auto. }
  destruct Hf as [Hfin Hlin].
  apply (@runtime_discoverable_iff (headWindow file) found
           (Hsources _ Hfin)) in Hfound.
  rewrite <- (@runtime_discoverable_iff (headWindow file) lost
                (Hsources _ Hlin)) in Hlost.
  apply Array_includes_In in Hin.
  apply fieldFound_discoverable in Hfound.
  rewrite <- fieldFound_discoverable in Hlost.
  apply not_true_is_false in Hlost.
  set (chk := fun m' : FormatModule =>
                checkFeatureDetail (feature m') ".json" (headWindow file)).
  set (c := chk m).
  assert (Hmissing : missingFields c = [lost]).
  { unfold c, chk.
    rewrite (checkFeatureDetail_missingFields _ _ _ Hin Hfields).
    destruct Hnames as [[-> ->] | [-> ->]]; cbn [filter];
      rewrite Hfound, Hlost; reflexivity. }
  assert (Hpartial : isPartial c = true).
  { unfold isPartial, c, chk.
    rewrite checkFeatureDetail_extensionMatch, Hin,
      checkFeatureDetail_fullMatch, matchFeature_conj, Hin, Hfields.
    cbn [nonEmpty elements negb orb andb].
    replace (matchRequiredFields (headWindow file) [a; b]) with false.
    - now rewrite andb_false_r.
    - symmetry. unfold matchRequiredFields.
      destruct Hnames as [[-> ->] | [-> ->]]; cbn [forallb];
        rewrite ?Hfound, Hlost; reflexivity. }
  destruct (@runtime_diagnose_returns d this filePath file
              (proj2 (Forall_forall _ _) Hvalid) Hfile)
    as (dg & this' & Hdg & Hchecks & Hpartials).
  rewrite Hext, Hformats, map_app in Hchecks. cbn [map] in Hchecks.
  fold chk in Hchecks. fold c in Hchecks.
  exists dg, this', (map chk before), c, (map chk after).
  assert (Hin_formats : forall m', In m' before \/ In m' after ->
            In m' (formats this)).
  { intros m' H. rewrite Hformats. apply in_or_app.
    destruct H as [H | H]; [now left | right; now right]. }
  split; [exact Hdg |]. split; [exact Hchecks |].
  split; [apply checkOf_map; intros m' H; apply Hvalid; auto |].
  split; [apply checkOf_map; intros m' H; apply Hvalid; auto |].
  split; [apply runtime_checkFeatureDetail_verdict; exact Hm |].
  split; [apply checkFeatureDetail_formatId |].
  split; [exact Hmissing |].
  assert (Hlist : partialMatches dg
                  = filter isPartial (map chk before)
                    ++ c :: filter isPartial (map chk after)).
  { rewrite Hpartials, Hchecks. apply filter_around. exact Hpartial. }
  split; [exact Hlist |].
  rewrite Hlist, length_app. cbn [List.length].
  rewrite Forall_app, <- !filter_nil_iff.
  split.
  - intros Hlen.
    destruct (filter isPartial (map chk before));
      destruct (filter isPartial (map chk after));
      cbn [List.length] in Hlen; try lia. now split.
  - intros [-> ->]. reflexivity.
Qed.

(** ** The error event of [parseFile] *)

(** C7, as the code has it. On a readable file and a registry whose
    required field names are pattern sources, when no module of the
    registry passes the checks, [parseFile] yields one error event and
    returns: nothing follows the event. *)
Theorem parseFile_one_error_event (options : ParseOptions) (d : Runtime.Disk)
    (sniffer : FormatSniffer) (file : list byte) :
  Forall (fun m => Runtime.validFieldNames (feature m)) (formats sniffer) ->
  d (filePath options) = Runtime.Regular file ->
  Forall (fun m => ~ Runtime.passesAllChecks (feature m)
                      (getExtension (filePath options)) (headWindow file))
         (formats sniffer) ->
  fst (Runtime.parseFile options d sniffer)
  = Yield (EvError (Error ("无法识别文件格式: " +++ filePath options))) Done.
Proof.
  intros Hvalid Hfile Hrejected. unfold Runtime.parseFile.
  destruct (@runtime_getParser_returns d sniffer (filePath options) file
              Hvalid Hfile) as (sniffer' & Hget).
  rewrite Hget. cbn [fst].
  now rewrite getParser_loop_find,
    (@runtime_find_rejected _ _ _ Hvalid Hrejected).
Qed.

(** ** Repeated diagnosis *)

Lemma runtime_readFileHead_headOf (d1 d2 : Runtime.Disk) (filePath : string) :
  Runtime.headOf (d1 filePath) = Runtime.headOf (d2 filePath) ->
  Runtime.readFileHead d1 filePath HEAD_SIZE
  = Runtime.readFileHead d2 filePath HEAD_SIZE.
Proof.
  intros Hsame.
  destruct (d1 filePath) as [| |file1] eqn:H1;
    destruct (d2 filePath) as [| |file2] eqn:H2;
    cbn [Runtime.headOf] in Hsame; try discriminate.
  - now rewrite (runtime_readFileHead_missing _ _ _ H1),
      (runtime_readFileHead_missing _ _ _ H2).
  - now rewrite (runtime_readFileHead_unreadable _ _ _ H1),
      (runtime_readFileHead_unreadable _ _ _ H2).
  - injection Hsame as Hhead. apply headWindow_eq in Hhead.
    now rewrite (runtime_readFileHead_regular _ _ H1),
      (runtime_readFileHead_regular _ _ H2), Hhead.
Qed.

Lemma runtime_diagnose_state (d : Runtime.Disk) (this : FormatSniffer)
    (filePath : string) :
  Forall (fun m => Runtime.flaglessPatterns (feature m)) (formats this) ->
  snd (Runtime.diagnose d filePath this) = this.
Proof.
  intros Hflagless. unfold Runtime.diagnose.
  destruct (Runtime.readFileHead d filePath HEAD_SIZE) as [headContent|e];
    [| reflexivity].
  pose proof (@runtime_diagnose_loop_state (formats this)
                (getExtension filePath) headContent [] [] None Hflagless)
    as Hs.
  destruct (Runtime.diagnose_loop _ _ _ _ _ _) as [v modules'].
  cbn [snd] in *. subst modules'. now destruct this.
Qed.

(** C9, as the code has it. On a registry whose patterns carry no [g] or
    [y] flag, two calls of [diagnose] in a row on a path that holds the
    same head window at both calls (or cannot be opened, or cannot be
    read, at both) have the same outcome, and the registry after each call
    is the registry before the first. *)
Theorem diagnose_twice (this : FormatSniffer) (d1 d2 : Runtime.Disk)
    (filePath : string) :
  Forall (fun m => Runtime.flaglessPatterns (feature m)) (formats this) ->
  Runtime.headOf (d1 filePath) = Runtime.headOf (d2 filePath) ->
  let first := Runtime.diagnose d1 filePath this in
  let second := Runtime.diagnose d2 filePath (snd first) in
  fst first = fst second /\ snd first = this /\ snd second = this.
Proof.
  intros Hflagless Hsame. cbv zeta.
  rewrite (@runtime_diagnose_state d1 this filePath Hflagless).
  split; [| split];
    [| reflexivity | exact (@runtime_diagnose_state d2 this filePath Hflagless)].
  unfold Runtime.diagnose.
  now rewrite (runtime_readFileHead_headOf _ _ _ Hsame).
Qed.

(** ** The two layers *)

(** X25. On a readable file and a registry whose patterns carry no flag
    and whose required field names are pattern sources, the methods on
    the regular expressions of the runtime do what the methods on a
    [JsHost] do, and leave the registry as it was; so does [parseFile] on
    the global sniffer of a table of such modules. *)
Theorem layers_agree_when_well_formed (d : Runtime.Disk)
    (this : FormatSniffer) (table : list FormatModule)
    (options : ParseOptions) (file : list byte) :
  let path := filePath options in
  let fs := Runtime.fsOf d in
  d path = Runtime.Regular file ->
  (Forall (fun m => Runtime.wellFormed (feature m)) (formats this) ->
   Runtime.sniff d path this = sniff fs path this
   /\ Runtime.getParser d path this = getParser fs path this
   /\ Runtime.diagnose d path this = diagnose fs path this
   /\ snd (Runtime.sniff d path this) = this
   /\ snd (Runtime.getParser d path this) = this
   /\ snd (Runtime.diagnose d path this) = this)
  /\ (Forall (fun m => Runtime.wellFormed (feature m)) table ->
      Runtime.parseFile options d (Index.sniffer table)
      = (Index.parseFile table options fs, Index.sniffer table)).
Proof.
  intros path fs Hfile.
  assert (Hfs : fs path = Some file)
    by (unfold fs, Runtime.fsOf; now rewrite Hfile).
  split.
  - intros Hwf.
    rewrite (@runtime_sniff_wellFormed d this path file Hwf Hfile),
      (@runtime_getParser_wellFormed d this path file Hwf Hfile),
      (@runtime_diagnose_wellFormed d this path file Hwf Hfile),
      (sniff_readable _ _ _ Hfs), (getParser_readable _ _ _ Hfs).
    repeat split.
  - intros Hwf.
    assert (Hthis : Forall (fun m => Runtime.wellFormed (feature m))
                      (formats (Index.sniffer table)))
      by (unfold Index.sniffer; now apply registerAll_wellFormed).
    unfold Runtime.parseFile, Index.parseFile. fold path.
    rewrite (@runtime_getParser_wellFormed d (Index.sniffer table) path file
               Hthis Hfile),
      (getParser_readable _ _ _ Hfs).
    reflexivity.
Qed.

End RuntimeProperties.

(* ================================================================= *)
(** * The runtime layer on sample inputs *)

Section RuntimeOnSamples.
Import RuntimeSamples SampleRuntime.
#[local] Existing Instance Runtime.hostOf.

(** ** Runs of the model *)

Example runtime_registry_order :
  map (fun m => id (feature m)) (formats snifferABTP)
  = ["format-b"; "format-a"; "format-t"; "format-p"].
Proof. reflexivity. Qed.

Example invalid_field_name_source :
  fieldPatternSource "c++" = Samples.quoted "c++" +++ "\s*:"
  /\ Runtime.RegExp_construct (fieldPatternSource "c++")
     = Throw (SyntaxError (Samples.quoted "c++" +++ "\s*:")).
Proof. split; reflexivity. Qed.

Example flagged_pattern_moves :
  Runtime.RegExpObject_test patternQQg "QQ export"
  = (true, Runtime.set_lastIndex 2 patternQQg)
  /\ Runtime.RegExpObject_test (Runtime.set_lastIndex 2 patternQQg)
       "QQ export"
     = (false, patternQQg).
Proof. split; vm_compute; reflexivity. Qed.

(** ** The sample tables *)

Lemma tableABTP_wellFormed :
  Forall (fun m => Runtime.wellFormed (feature m)) tableABTP.
Proof.
  unfold tableABTP.
  repeat apply Forall_cons; try apply Forall_nil;
    (split; [| split]); cbn; repeat constructor;
    vm_compute; discriminate.
Qed.

Lemma snifferABTP_wellFormed :
  Forall (fun m => Runtime.wellFormed (feature m)) (formats snifferABTP).
Proof. apply registerAll_wellFormed, tableABTP_wellFormed. Qed.

Lemma snifferABTP_validFieldNames :
  Forall (fun m => Runtime.validFieldNames (feature m)) (formats snifferABTP).
Proof.
  eapply Forall_impl; [| exact snifferABTP_wellFormed].
  now intros m [Hvalid _].
Qed.

Lemma snifferABTP_flaglessPatterns :
  Forall (fun m => Runtime.flaglessPatterns (feature m))
         (formats snifferABTP).
Proof.
  eapply Forall_impl; [| exact snifferABTP_wellFormed].
  now intros m [_ Hflagless].
Qed.

Lemma tableAT_wellFormed :
  Forall (fun m => Runtime.wellFormed (feature m)) tableAT.
Proof.
  unfold tableAT.
  repeat apply Forall_cons; try apply Forall_nil;
    (split; [| split]); cbn; repeat constructor;
    vm_compute; discriminate.
Qed.

Lemma snifferAT_validFieldNames :
  Forall (fun m => Runtime.validFieldNames (feature m)) (formats snifferAT).
Proof.
  eapply Forall_impl; [| exact (@registerAll_wellFormed _ _ _ tableAT_wellFormed)].
  now intros m [Hvalid _].
Qed.

Lemma snifferABTP_rejects_md (headContent : string) :
  Forall (fun m => ~ Runtime.passesAllChecks (feature m) ".md" headContent)
         (formats snifferABTP).
Proof.
  repeat constructor; intros [Hin _]; cbv in Hin;
    destruct Hin as [H | []]; discriminate H.
Qed.

(** On [/data/full.json] the module of lowest priority number fails its
    head signature and the next one passes. *)
Lemma first_match_full_json :
  firstSuchThat
    (fun m => Runtime.passesAllChecks (feature m) ".json"
                (headWindow (list_byte_of_string Samples.fullJson)))
    (formats snifferABTP) (Some moduleA).
Proof.
  exists [moduleB], [moduleT; moduleP].
  split; [reflexivity |]. split.
  - apply runtime_matchFeature_spec.
    + pose proof tableABTP_wellFormed as Hwf. rewrite Forall_forall in Hwf.
      apply Hwf. right. now left.
    + vm_compute. reflexivity.
  - constructor; [| constructor]. intros Hpasses.
    pose proof tableABTP_wellFormed as Hwf. rewrite Forall_forall in Hwf.
    apply runtime_matchFeature_spec in Hpasses.
    + vm_compute in Hpasses. discriminate Hpasses.
    + apply Hwf. right. right. right. now left.
Qed.

(** ** The statements above at sample inputs *)

Lemma sniff_first_registered_match_witness :
  Permutation (formats snifferABTP) tableABTP
  /\ ascendingPriority (formats snifferABTP)
  /\ Runtime.sniff disk "/data/full.json" snifferABTP
     = (Ret (Some featureA), snifferABTP).
Proof.
  destruct (@sniff_first_registered_match _ disk tableABTP "/data/full.json"
              (list_byte_of_string Samples.fullJson)
              tableABTP_wellFormed eq_refl)
    as (Hperm & Hsorted & _ & Hsniff).
  split; [exact Hperm |]. split; [exact Hsorted |].
  exact (Hsniff (Some moduleA) first_match_full_json).
Defined.

Lemma sniff_getParser_outcomes_witness :
  (fst (Runtime.sniff disk "/data/notes.md" snifferABTP) = Ret None
   /\ fst (Runtime.getParser disk "/data/notes.md" snifferABTP) = Ret None)
  /\ (Runtime.sniff disk "/data/gone.txt" snifferABTP
      = (Throw (SystemError "open" "/data/gone.txt"), snifferABTP)
      /\ Runtime.getParser disk "/data/gone.txt" snifferABTP
         = (Throw (SystemError "open" "/data/gone.txt"), snifferABTP))
  /\ (Runtime.sniff disk "/data" snifferABTP
      = (Throw (SystemError "read" "/data"), snifferABTP)
      /\ Runtime.getParser disk "/data" snifferABTP
         = (Throw (SystemError "read" "/data"), snifferABTP)).
Proof.
  split; [| split].
  - exact (proj2 (proj2
             (proj1 (sniff_getParser_outcomes disk snifferABTP
                       "/data/notes.md")
                (list_byte_of_string "# notes") eq_refl
                snifferABTP_validFieldNames))
             (snifferABTP_rejects_md _)).
  - exact (proj1 (proj2 (sniff_getParser_outcomes disk snifferABTP
                           "/data/gone.txt")) eq_refl).
  - exact (proj2 (proj2 (sniff_getParser_outcomes disk snifferABTP "/data"))
             eq_refl).
Defined.

(** On [/data/full.json] both calls return, [sniff] with the feature of
    [moduleA], [diagnose] with that feature as its matched format, four
    checks, and the two other [.json] formats as partial matches. *)
Lemma diagnose_and_sniff_agree_witness :
  exists dg : FormatDiagnosis,
    Runtime.diagnose disk "/data/full.json" snifferABTP
    = (Ret dg, snifferABTP)
    /\ Runtime.sniff disk "/data/full.json" snifferABTP
       = (Ret (Some featureA), snifferABTP)
    /\ recognized dg = true
    /\ matchedFormat dg = Some featureA
    /\ List.length (checks dg) = 4
    /\ partialMatches dg
       = filter (fun c => extensionMatch c && negb (fullMatch c)) (checks dg).
Proof.
  destruct (@diagnose_and_sniff_agree _ disk snifferABTP "/data/full.json"
              (list_byte_of_string Samples.fullJson)
              snifferABTP_wellFormed eq_refl)
    as (dg & r & Hd & Hs & Hrec & Hmf & _ & Hlen & Hpm).
  assert (Hr : r = Some featureA).
  { pose proof (eq_refl : fst (Runtime.sniff disk "/data/full.json"
                                 snifferABTP) = Ret (Some featureA)) as Hrun.
    rewrite Hs in Hrun. now injection Hrun. }
  rewrite Hr in Hs, Hrec, Hmf. exists dg.
  split; [exact Hd |]. split; [exact Hs |].
  split; [apply Hrec; discriminate |].
  split; [exact Hmf |]. split; [exact Hlen | exact Hpm].
Defined.

Lemma partialJson_has_chatlab :
  Runtime.discoverable
    (headWindow (list_byte_of_string Samples.partialJson)) "chatlab".
Proof. right. vm_compute. reflexivity. Qed.

Lemma partialJson_lacks_messages :
  ~ Runtime.discoverable
      (headWindow (list_byte_of_string Samples.partialJson)) "messages".
Proof.
  intros [(p & Hp & Hmatch) | H].
  - vm_compute in Hp. injection Hp as <-.
    apply Hmatch. vm_compute. reflexivity.
  - vm_compute in H. discriminate H.
Qed.

(** The check of [moduleT] on a [.json] file is no partial match. *)
Lemma moduleT_not_partial (file : list byte) (c : FormatMatchCheck) :
  Runtime.checkOf file moduleT c -> isPartial c = false.
Proof.
  unfold Runtime.checkOf. cbn. intros [= <-]. reflexivity.
Qed.

(** In a registry where [moduleA] alone accepts [.json], on a file with
    one of its two required fields: one partial match, the check of
    [moduleA], with the other field as its missing fields. *)
Lemma diagnose_missing_field_entry_witness :
  exists (dg : FormatDiagnosis) (this' : FormatSniffer)
         (c : FormatMatchCheck),
    Runtime.diagnose disk "/data/partial.json" snifferAT = (Ret dg, this')
    /\ partialMatches dg = [c]
    /\ formatId c = "format-a"
    /\ missingFields c = ["messages"]
    /\ List.length (partialMatches dg) = 1.
Proof.
  destruct (@diagnose_missing_field_entry _ disk snifferAT
              "/data/partial.json"
              (list_byte_of_string Samples.partialJson) moduleA [] [moduleT]
              "chatlab" "messages" "chatlab" "messages"
              snifferAT_validFieldNames eq_refl eq_refl eq_refl
              (or_introl eq_refl) eq_refl
              (or_introl (conj eq_refl eq_refl))
              partialJson_has_chatlab partialJson_lacks_messages)
    as (dg & this' & cb & c & ca & Hd & _ & Hcb & Hca & _ & Hid & Hmiss
        & Hpm & Hiff).
  inversion Hcb; subst.
  inversion Hca as [|m' c' ms cs Hc' Hrest]; subst.
  inversion Hrest; subst.
  pose proof (moduleT_not_partial Hc') as Hnot.
  exists dg, this', c.
  split; [exact Hd |].
  split; [rewrite Hpm; cbn [filter app]; now rewrite Hnot |].
  split; [exact Hid |]. split; [exact Hmiss |].
  apply Hiff. constructor; [exact Hnot | constructor].
Defined.

Lemma parseFile_one_error_event_witness :
  fst (Runtime.parseFile (Samples.optionsFor "/data/notes.md") disk
         snifferABTP)
  = Yield (EvError (Error "无法识别文件格式: /data/notes.md")) Done.
Proof.
  exact (@parseFile_one_error_event _ (Samples.optionsFor "/data/notes.md")
           disk snifferABTP (list_byte_of_string "# notes")
           snifferABTP_validFieldNames eq_refl (snifferABTP_rejects_md _)).
Defined.

Lemma diagnose_twice_witness :
  let first := Runtime.diagnose disk "/data/spaces.json" snifferABTP in
  let second := Runtime.diagnose diskLater "/data/spaces.json" (snd first) in
  fst first = fst second
  /\ snd first = snifferABTP /\ snd second = snifferABTP.
Proof.
  refine (@diagnose_twice _ snifferABTP disk diskLater "/data/spaces.json"
            snifferABTP_flaglessPatterns _).
  vm_compute. reflexivity.
Defined.

Lemma layers_agree_when_well_formed_witness :
  (Runtime.sniff disk "/data/full.json" snifferABTP
   = sniff (Runtime.fsOf disk) "/data/full.json" snifferABTP
   /\ Runtime.getParser disk "/data/full.json" snifferABTP
      = getParser (Runtime.fsOf disk) "/data/full.json" snifferABTP
   /\ Runtime.diagnose disk "/data/full.json" snifferABTP
      = diagnose (Runtime.fsOf disk) "/data/full.json" snifferABTP
   /\ snd (Runtime.sniff disk "/data/full.json" snifferABTP) = snifferABTP
   /\ snd (Runtime.getParser disk "/data/full.json" snifferABTP)
      = snifferABTP
   /\ snd (Runtime.diagnose disk "/data/full.json" snifferABTP)
      = snifferABTP)
  /\ Runtime.parseFile (Samples.optionsFor "/data/full.json") disk
       (Index.sniffer tableABTP)
     = (Index.parseFile tableABTP (Samples.optionsFor "/data/full.json")
          (Runtime.fsOf disk),
        Index.sniffer tableABTP).
Proof.
  destruct (@layers_agree_when_well_formed _ disk snifferABTP tableABTP
              (Samples.optionsFor "/data/full.json")
              (list_byte_of_string Samples.fullJson) eq_refl)
    as [Hmethods HparseFile].
  split.
  - exact (Hmethods snifferABTP_wellFormed).
  - exact (HparseFile tableABTP_wellFormed).
Defined.

(** ** Where the statements of the specification fail *)

(** The flagged pattern matches in the head window of [/data/log.txt],
    wherever its [lastIndex] stands. *)
Lemma featureG_passes (i : nat) :
  Runtime.passesAllChecks
    (Runtime.set_head [Runtime.set_lastIndex i patternQQg] featureG)
    ".txt" (headWindow (list_byte_of_string "QQ export")).
Proof.
  split; [now left |]. split; [| split].
  - intros patterns [= <-] _. eexists. split; [now left |].
    cbn [Runtime.compiled Runtime.set_lastIndex].
    unfold Runtime.matchesIn. vm_compute. discriminate.
  - intros fields H. discriminate H.
  - intros entries H. discriminate H.
Qed.

(** Neither module of [tableAX] passes on [/data/partial.json]: one
    field name of each is not discoverable. *)
Lemma snifferAX_rejects_partial_json :
  Forall (fun m => ~ Runtime.passesAllChecks (feature m) ".json"
                      (headWindow (list_byte_of_string Samples.partialJson)))
         (formats snifferAX).
Proof.
  constructor; [| constructor; [| constructor]].
  - intros (_ & _ & Hfields & _).
    destruct (Hfields _ eq_refl "messages" (or_intror (or_introl eq_refl)))
      as [(p & Hp & Hmatch) | H].
    + vm_compute in Hp. injection Hp as <-.
      apply Hmatch. vm_compute. reflexivity.
    + vm_compute in H. discriminate H.
  - intros (_ & _ & Hfields & _).
    destruct (Hfields _ eq_refl "c++" (or_introl eq_refl))
      as [(p & Hp & Hmatch) | H].
    + vm_compute in Hp. discriminate Hp.
    + vm_compute in H. discriminate H.
Qed.

(** On a readable file on which no module passes, [sniff] throws at the
    field name that is not a pattern source instead of returning null.
    And with a head pattern that carries the [g] flag, a second [sniff] on
    the same file returns null although the one module of the registry
    passes the four checks: the pattern has kept where its match ended. *)
Lemma sniff_throws_or_skips_a_match :
  (disk "/data/partial.json"
   = Runtime.Regular (list_byte_of_string Samples.partialJson)
   /\ Forall (fun m => ~ Runtime.passesAllChecks (feature m) ".json"
                         (headWindow
                            (list_byte_of_string Samples.partialJson)))
             (formats snifferAX)
   /\ fst (Runtime.sniff disk "/data/partial.json" snifferAX)
      = Throw (SyntaxError (Samples.quoted "c++" +++ "\s*:")))
  /\ (let first := Runtime.sniff disk "/data/log.txt" snifferG in
      let second := Runtime.sniff disk "/data/log.txt" (snd first) in
      disk "/data/log.txt"
      = Runtime.Regular (list_byte_of_string "QQ export")
      /\ (exists f, fst first = Ret (Some f) /\ id f = "format-g")
      /\ map feature (formats (snd first))
         = [Runtime.set_head [Runtime.set_lastIndex 2 patternQQg] featureG]
      /\ Forall (fun m => Runtime.passesAllChecks (feature m) ".txt"
                            (headWindow (list_byte_of_string "QQ export")))
                (formats (snd first))
      /\ fst second = Ret None).
Proof.
  split.
  - split; [reflexivity |].
    split; [exact snifferAX_rejects_partial_json | reflexivity].
  - cbv zeta. split; [reflexivity |].
    split; [eexists; split; reflexivity |].
    split; [reflexivity |].
    split; [| reflexivity].
    constructor; [| constructor]. exact (featureG_passes 2).
Qed.

(** A path that cannot be opened, a path that opens and cannot be read,
    and a readable file with a required field name that is not a pattern
    source: [sniff] and [getParser] raise, they do not return null. *)
Lemma sniff_getParser_throw :
  (disk "/data/gone.txt" = Runtime.Missing
   /\ fst (Runtime.sniff disk "/data/gone.txt" snifferABTP)
      = Throw (SystemError "open" "/data/gone.txt")
   /\ fst (Runtime.getParser disk "/data/gone.txt" snifferABTP)
      = Throw (SystemError "open" "/data/gone.txt"))
  /\ (disk "/data" = Runtime.Unreadable
      /\ fst (Runtime.sniff disk "/data" snifferABTP)
         = Throw (SystemError "read" "/data")
      /\ fst (Runtime.getParser disk "/data" snifferABTP)
         = Throw (SystemError "read" "/data"))
  /\ (disk "/data/partial.json"
      = Runtime.Regular (list_byte_of_string Samples.partialJson)
      /\ fst (Runtime.sniff disk "/data/partial.json" snifferAX)
         = Throw (SyntaxError (Samples.quoted "c++" +++ "\s*:"))
      /\ fst (Runtime.getParser disk "/data/partial.json" snifferAX)
         = Throw (SyntaxError (Samples.quoted "c++" +++ "\s*:"))).
Proof.
  split; [| split]; (split; [reflexivity |]); split; reflexivity.
Qed.

(** [sniff] returns at the first module that matches while [diagnose]
    goes on to the module whose field name is not a pattern source and
    throws. And after a [sniff] that has recognized a file, [diagnose] on
    the same file does not recognize it: the flagged pattern has kept
    where its match ended. *)
Lemma diagnose_throws_or_differs_from_sniff :
  (fst (Runtime.sniff disk "/data/full.json" snifferAX) = Ret (Some featureA)
   /\ fst (Runtime.diagnose disk "/data/full.json" snifferAX)
      = Throw (SyntaxError (Samples.quoted "c++" +++ "\s*:")))
  /\ (let first := Runtime.sniff disk "/data/log.txt" snifferG in
      let second := Runtime.diagnose disk "/data/log.txt" (snd first) in
      (exists f, fst first = Ret (Some f) /\ id f = "format-g")
      /\ exists dg, fst second = Ret dg /\ recognized dg = false
                    /\ matchedFormat dg = None).
Proof.
  split.
  - split; reflexivity.
  - cbv zeta. split.
    + eexists. split; reflexivity.
    + eexists. split; [reflexivity |]. split; reflexivity.
Qed.

(** [featureA] accepts [.json] and declares two required field names of
    which the file has one; two other registered formats accept [.json]
    and do not match, so [diagnose] lists three partial matches. And
    with a registered field name that is not a pattern source [diagnose]
    throws. *)
Lemma diagnose_partial_matches_of_others :
  In moduleA (formats snifferABTP)
  /\ getExtension "/data/partial.json" = ".json"
  /\ In ".json" (extensions featureA)
  /\ requiredFields (signatures featureA) = Some ["chatlab"; "messages"]
  /\ Runtime.fieldFound
       (headWindow (list_byte_of_string Samples.partialJson)) "chatlab"
     = Ret true
  /\ Runtime.fieldFound
       (headWindow (list_byte_of_string Samples.partialJson)) "messages"
     = Ret false
  /\ (exists dg : FormatDiagnosis,
        fst (Runtime.diagnose disk "/data/partial.json" snifferABTP) = Ret dg
        /\ map formatId (partialMatches dg)
           = ["format-b"; "format-a"; "format-p"]
        /\ map missingFields (partialMatches dg)
           = [["chatName"]; ["messages"]; []]
        /\ List.length (partialMatches dg) <> 1)
  /\ fst (Runtime.diagnose disk "/data/partial.json" snifferAX)
     = Throw (SyntaxError (Samples.quoted "c++" +++ "\s*:")).
Proof.
  split; [right; left; reflexivity |].
  split; [reflexivity |].
  split; [left; reflexivity |].
  split; [reflexivity |].
  split; [reflexivity |].
  split; [reflexivity |].
  split; [| reflexivity].
  eexists. split; [reflexivity |].
  split; [reflexivity |]. split; [reflexivity |]. discriminate.
Qed.

(** On a path that cannot be opened, on one that cannot be read, and on a
    readable file when a registered field name is not a pattern source,
    [parseFile] raises at its first step: no event is yielded, and no
    module has matched. *)
Lemma parseFile_raises_without_event :
  (disk "/data/gone.txt" = Runtime.Missing
   /\ fst (Runtime.parseFile (Samples.optionsFor "/data/gone.txt") disk
             snifferABTP)
      = Raise (SystemError "open" "/data/gone.txt"))
  /\ (disk "/data" = Runtime.Unreadable
      /\ fst (Runtime.parseFile (Samples.optionsFor "/data") disk
                snifferABTP)
         = Raise (SystemError "read" "/data"))
  /\ (disk "/data/partial.json"
      = Runtime.Regular (list_byte_of_string Samples.partialJson)
      /\ Forall (fun m => ~ Runtime.passesAllChecks (feature m) ".json"
                            (headWindow
                               (list_byte_of_string Samples.partialJson)))
                (formats snifferAX)
      /\ fst (Runtime.parseFile (Samples.optionsFor "/data/partial.json")
                disk snifferAX)
         = Raise (SyntaxError (Samples.quoted "c++" +++ "\s*:"))
      /\ events (fst (Runtime.parseFile
                        (Samples.optionsFor "/data/partial.json") disk
                        snifferAX)) = []).
Proof.
  split; [| split].
  - split; [reflexivity | reflexivity].
  - split; [reflexivity | reflexivity].
  - split; [reflexivity |].
    split; [exact snifferAX_rejects_partial_json |].
    split; reflexivity.
Qed.

(** Two calls of [diagnose] in a row on an unchanged file, with a head
    pattern that carries the [g] flag: the first recognizes the file and
    leaves the pattern where its match ended, the second does not
    recognize the file. *)
Lemma diagnose_differs_on_unchanged_file :
  let first := Runtime.diagnose disk "/data/log.txt" snifferG in
  let second := Runtime.diagnose disk "/data/log.txt" (snd first) in
  (exists d1 d2,
     fst first = Ret d1 /\ fst second = Ret d2
     /\ recognized d1 = true /\ recognized d2 = false)
  /\ fst first <> fst second
  /\ map feature (formats snifferG) = [featureG]
  /\ map feature (formats (snd first))
     = [Runtime.set_head [Runtime.set_lastIndex 2 patternQQg] featureG].
Proof.
  cbv zeta.
  assert (H1 : exists d1,
             fst (Runtime.diagnose disk "/data/log.txt" snifferG) = Ret d1
             /\ recognized d1 = true)
    by (eexists; split; [reflexivity | reflexivity]).
  assert (H2 : exists d2,
             fst (Runtime.diagnose disk "/data/log.txt"
                    (snd (Runtime.diagnose disk "/data/log.txt" snifferG)))
             = Ret d2
             /\ recognized d2 = false)
    by (eexists; split; [reflexivity | reflexivity]).
  destruct H1 as (d1 & Hd1 & Hr1). destruct H2 as (d2 & Hd2 & Hr2).
  split; [exists d1, d2; now repeat split |].
  split.
  - rewrite Hd1, Hd2. intros [= Heq]. rewrite Heq in Hr1. congruence.
  - split; reflexivity.
Qed.

End RuntimeOnSamples.
